(** * Attendance tracking for the sports-outreach program: a model of [app.py]

    The program keeps three SQLite tables ([participantes], [atividades],
    [frequencia]) behind a Streamlit front end.  This development embeds the
    persistence functions, the reporting query, the chart and the screens of
    the script as Rocq functions over an explicit database value and proves
    the properties the specification states about them, and further
    properties read off the code.

    Conventions.
    - An INTEGER column is a [Z], a TEXT column a [string] (a sequence of
      bytes; SQLite compares TEXT byte-wise under its default collation,
      which is [String.compare]).
    - A table is the list of its rows in rowid order, the order in which a
      [SELECT] without [ORDER BY] scans it.
    - The connection is opened with SQLite's defaults: [PRAGMA foreign_keys]
      is off, so the declared foreign keys are not checked.
    - A Python [int] is a [Z].  [sqlite3] binds it as an INTEGER only when
      it fits in 64 bits and raises [OverflowError] otherwise: [invoca] is a
      call with that check, and [add_participante], [registrar_frequencia]
      and the other functions that write give the effect of their
      statements once the arguments are bound.
    - A record date of the report is converted by pandas.  The model gives
      the conversion for the text [sqlite3] writes for a [date]
      ([YYYY-MM-DD]) and leaves every other text open; what is proved of
      the frame is proved for such texts ([datas_iso]), or does not
      depend on what the conversion yields.
    - Input/output failures of the database file and the exhaustion of the
      63-bit rowid space are outside the model. *)

From Stdlib Require Import ZArith List String Ascii Bool Lia.
From Stdlib Require Import Sorted Permutation DecimalString DecimalZ.
Import ListNotations.

Local Open Scope string_scope.
Local Open Scope list_scope.
Local Open Scope Z_scope.

(* ================================================================= *)
(** ** Python values used by the program *)

Module Py.

(** [datetime.date]: what [date.today()] and [st.date_input] return. *)
Record date : Type := mkdate { year : Z; month : Z; day : Z }.

Definition date_eqb (a b : date) : bool :=
  (year a =? year b) && (month a =? month b) && (day a =? day b).

(** The order of dates ([a < b], [a <= b]): by year, then month, then day. *)
Definition date_compare (a b : date) : comparison :=
  match year a ?= year b with
  | Eq => match month a ?= month b with
          | Eq => day a ?= day b
          | c => c
          end
  | c => c
  end.

Definition date_leb (a b : date) : bool :=
  match date_compare a b with
  | Gt => false
  | _ => true
  end.

Definition is_leap (y : Z) : bool :=
  (y mod 4 =? 0) && (negb (y mod 100 =? 0) || (y mod 400 =? 0)).

Definition days_in_month (y m : Z) : Z :=
  match m with
  | 1 | 3 | 5 | 7 | 8 | 10 | 12 => 31
  | 4 | 6 | 9 | 11 => 30
  | 2 => if is_leap y then 29 else 28
  | _ => 0
  end.

(** The range check of the [date] constructor. *)
Definition date_ok (d : date) : bool :=
  (1 <=? year d) && (year d <=? 9999) &&
  (1 <=? month d) && (month d <=? 12) &&
  (1 <=? day d) && (day d <=? days_in_month (year d) (month d)).

Definition digito (n : Z) : ascii := ascii_of_N (Z.to_N (48 + n)).

Definition valor_digito (c : ascii) : option Z :=
  let n := Z.of_N (N_of_ascii c) in
  if (48 <=? n) && (n <=? 57) then Some (n - 48) else None.

(** Two and four decimal digits, zero padded, in front of [r]. *)
Definition dec2 (n : Z) (r : string) : string :=
  String (digito (n / 10 mod 10)) (String (digito (n mod 10)) r).

Definition dec4 (n : Z) (r : string) : string :=
  dec2 (n / 100) (dec2 (n mod 100) r).

(** [date.isoformat()], i.e. ["%04d-%02d-%02d"]; it is also the text the
    [sqlite3] module binds for a [date] parameter. *)
Definition isoformat (d : date) : string :=
  dec4 (year d) (String "-" (dec2 (month d) (String "-" (dec2 (day d) "")))).

Definition le2 (c1 c2 : ascii) : option Z :=
  match valor_digito c1, valor_digito c2 with
  | Some a, Some b => Some (10 * a + b)
  | _, _ => None
  end.

(** [str(n)] for an [int]. *)
Definition str (n : Z) : string := NilEmpty.string_of_int (Z.to_int n).

(** [int(s)] on a plain decimal numeral with an optional minus sign; [None]
    is [ValueError].  Python accepts further spellings (a plus sign,
    surrounding blanks, underscores) that the program never produces. *)
Definition int (s : string) : option Z :=
  option_map Z.of_int (NilZero.int_of_string s).

(** [s.split(sep)] for a one-character separator. *)
Fixpoint split (sep : ascii) (s : string) : list string :=
  match s with
  | EmptyString => [EmptyString]
  | String c r =>
      if Ascii.eqb c sep then EmptyString :: split sep r
      else match split sep r with
           | [] => [String c EmptyString]
           | p :: ps => String c p :: ps
           end
  end.

Definition is_space (c : ascii) : bool :=
  let n := N_of_ascii c in
  (N.eqb n 32 || (N.leb 9 n && N.leb n 13) || (N.leb 28 n && N.leb n 31))%bool.

Fixpoint lstrip (s : string) : string :=
  match s with
  | EmptyString => EmptyString
  | String c r => if is_space c then lstrip r else s
  end.

Fixpoint rstrip (s : string) : string :=
  match s with
  | EmptyString => EmptyString
  | String c r =>
      match rstrip r with
      | EmptyString => if is_space c then EmptyString else String c EmptyString
      | r' => String c r'
      end
  end.

(** [s.strip()], for the ASCII blanks. *)
Definition strip (s : string) : string := rstrip (lstrip s).

End Py.

(* ================================================================= *)
(** ** pandas: the date conversion of the report *)

Module Pandas.

(** Whole calendar years that a nanosecond [Timestamp] can hold
    (1677-09-21 .. 2262-04-11). *)
Definition timestamp_ok (d : Py.date) : bool :=
  Py.date_ok d && (1678 <=? Py.year d) && (Py.year d <=? 2261).

(** [pd.to_datetime(x).dt.date] on one cell of a text column, for the
    spelling [YYYY-MM-DD] (zero padded) that [sqlite3] writes for a [date]
    and the years a [Timestamp] holds: [Some d] is the date pandas yields
    for such a text.  [None] says only that the text is not of that form:
    pandas may still convert it (as it does [2024-3-1]), yield [NaT] or
    raise, and the model does not say which. *)
Definition to_date (s : string) : option Py.date :=
  match s with
  | String y1 (String y2 (String y3 (String y4 (String h1
      (String m1 (String m2 (String h2
        (String d1 (String d2 EmptyString))))))))) =>
      if Ascii.eqb h1 "-" && Ascii.eqb h2 "-" then
        match Py.le2 y1 y2, Py.le2 y3 y4, Py.le2 m1 m2, Py.le2 d1 d2 with
        | Some a, Some b, Some m, Some d =>
            let dt := Py.mkdate (100 * a + b) m d in
            if timestamp_ok dt then Some dt else None
        | _, _, _, _ => None
        end
      else None
  | _ => None
  end.

End Pandas.

(* ================================================================= *)
(** ** The database: schema of [create_tables] *)

(** A row of [participantes]. *)
Record Participante : Type := mkParticipante {
  p_id : Z;
  p_nome : string;
  p_idade : Z;
  p_genero : string;
  p_escolaridade : string;
  p_data_inscricao : string
}.

(** A row of [atividades]. *)
Record Atividade : Type := mkAtividade {
  a_id : Z;
  a_atividade : string;
  a_descricao : string;
  a_data_atividade : string
}.

(** A row of [frequencia]. *)
Record Frequencia : Type := mkFrequencia {
  f_id : Z;
  f_participante_id : Z;
  f_atividade_id : Z;
  f_presenca : Z;
  f_data_frequencia : string
}.

(** The database file [projeto_esportivo.db]: the three tables and, for each
    [AUTOINCREMENT] key, its entry in [sqlite_sequence] (the largest rowid
    the table has ever held). *)
Record BD : Type := mkBD {
  participantes : list Participante;
  atividades : list Atividade;
  frequencia : list Frequencia;
  seq_participantes : Z;
  seq_atividades : Z;
  seq_frequencia : Z
}.

(** The three tables, just created. *)
Definition bd_novo : BD := mkBD [] [] [] 0 0 0.

(** [CREATE TABLE IF NOT EXISTS]: a file that already holds the tables is
    left as it is. *)
Definition create_tables (arquivo : option BD) : BD :=
  match arquivo with
  | Some bd => bd
  | None => bd_novo
  end.

(** The rowid an [AUTOINCREMENT] insert picks: one past the largest rowid
    ever used in the table. *)
Definition novo_id (seq : Z) (ids : list Z) : Z :=
  fold_right Z.max seq ids + 1.

(* ================================================================= *)
(** ** Persistence functions *)

(** The three inserts: what the statement of each function does to the
    tables once [sqlite3] has bound its arguments ([hoje] is
    [date.today()]).  The call itself, with the binding that can raise, is
    [invoca] below. *)
Definition add_participante (hoje : Py.date)
    (nome : string) (idade : Z) (genero escolaridade : string) (bd : BD) : BD :=
  let i := novo_id (seq_participantes bd) (map p_id (participantes bd)) in
  mkBD (participantes bd ++
          [mkParticipante i nome idade genero escolaridade (Py.isoformat hoje)])
       (atividades bd) (frequencia bd)
       i (seq_atividades bd) (seq_frequencia bd).

Definition add_atividade (hoje : Py.date)
    (atividade descricao : string) (bd : BD) : BD :=
  let i := novo_id (seq_atividades bd) (map a_id (atividades bd)) in
  mkBD (participantes bd)
       (atividades bd ++ [mkAtividade i atividade descricao (Py.isoformat hoje)])
       (frequencia bd)
       (seq_participantes bd) i (seq_frequencia bd).

Definition registrar_frequencia
    (participante_id atividade_id presenca : Z) (data_frequencia : string)
    (bd : BD) : BD :=
  let i := novo_id (seq_frequencia bd) (map f_id (frequencia bd)) in
  mkBD (participantes bd) (atividades bd)
       (frequencia bd ++
          [mkFrequencia i participante_id atividade_id presenca data_frequencia])
       (seq_participantes bd) (seq_atividades bd) i.

Definition visualizar_participantes (bd : BD) : list Participante :=
  participantes bd.

Definition visualizar_atividades (bd : BD) : list Atividade :=
  atividades bd.

Definition get_participantes_dropdown (bd : BD) : list (Z * string * Z) :=
  map (fun p => (p_id p, p_nome p, p_idade p)) (participantes bd).

Definition get_atividades_dropdown (bd : BD) : list (Z * string) :=
  map (fun a => (a_id a, a_atividade a)) (atividades bd).

(** [ORDER BY] on a TEXT key: a stable insertion sort.  SQL leaves the order
    of rows with equal keys open; the model keeps them in scan order. *)
Section OrderBy.
Context {A : Type} (chave : A -> string).

Fixpoint insere_ordenado (x : A) (l : list A) : list A :=
  match l with
  | [] => [x]
  | y :: r =>
      if String.leb (chave x) (chave y) then x :: l
      else y :: insere_ordenado x r
  end.

Definition order_by (l : list A) : list A :=
  fold_right insere_ordenado [] l.

(** [x] does not come after [y] by the key. *)
Definition chave_le (x y : A) : Prop :=
  String.leb (chave x) (chave y) = true.
End OrderBy.

(** [frequencia f JOIN participantes p ON f.participante_id = p.id
    JOIN atividades a ON f.atividade_id = a.id]. *)
Definition juncao_fpa (bd : BD) : list (Frequencia * Participante * Atividade) :=
  flat_map (fun f =>
    flat_map (fun p =>
      map (fun a => (f, p, a))
          (filter (fun a => f_atividade_id f =? a_id a) (atividades bd)))
      (filter (fun p => f_participante_id f =? p_id p) (participantes bd)))
    (frequencia bd).

Definition visualizar_frequencia (bd : BD)
    : list (Z * string * string * Z * string) :=
  map (fun '(f, p, a) =>
         (f_id f, p_nome p, a_atividade a, f_presenca f, f_data_frequencia f))
      (order_by (fun '(f, _, _) => f_data_frequencia f) (juncao_fpa bd)).

Definition excluir_participante (participante_id : Z) (bd : BD) : BD :=
  mkBD (filter (fun p => negb (p_id p =? participante_id)) (participantes bd))
       (atividades bd)
       (filter (fun f => negb (f_participante_id f =? participante_id))
               (frequencia bd))
       (seq_participantes bd) (seq_atividades bd) (seq_frequencia bd).

Definition excluir_atividade (atividade_id : Z) (bd : BD) : BD :=
  mkBD (participantes bd)
       (filter (fun a => negb (a_id a =? atividade_id)) (atividades bd))
       (filter (fun f => negb (f_atividade_id f =? atividade_id))
               (frequencia bd))
       (seq_participantes bd) (seq_atividades bd) (seq_frequencia bd).

Definition excluir_frequencia (frequencia_id : Z) (bd : BD) : BD :=
  mkBD (participantes bd) (atividades bd)
       (filter (fun f => negb (f_id f =? frequencia_id)) (frequencia bd))
       (seq_participantes bd) (seq_atividades bd) (seq_frequencia bd).

(* ================================================================= *)
(** ** Reporting: present participants per activity and date *)

(** [frequencia f JOIN atividades a ON f.atividade_id = a.id]. *)
Definition juncao_fa (bd : BD) : list (Frequencia * Atividade) :=
  flat_map (fun f =>
    map (fun a => (f, a))
        (filter (fun a => f_atividade_id f =? a_id a) (atividades bd)))
    (frequencia bd).

(** [WHERE f.presenca = 1]. *)
Definition presentes (bd : BD) : list (Frequencia * Atividade) :=
  filter (fun '(f, _) => f_presenca f =? 1) (juncao_fa bd).

(** A group of [GROUP BY a.atividade, f.data_frequencia]. *)
Definition Grupo : Type := (string * string)%type.

Definition grupo_de (fa : Frequencia * Atividade) : Grupo :=
  (a_atividade (snd fa), f_data_frequencia (fst fa)).

Definition grupo_eqb (g h : Grupo) : bool :=
  String.eqb (fst g) (fst h) && String.eqb (snd g) (snd h).

(** Groups come out ordered by date ([ORDER BY f.data_frequencia]) and, for
    one date, by activity name (the order in which SQLite sorts the rows to
    form the groups). *)
Definition cmp_grupo (g h : Grupo) : comparison :=
  match String.compare (snd g) (snd h) with
  | Eq => String.compare (fst g) (fst h)
  | c => c
  end.

Fixpoint insere_grupo (g : Grupo) (l : list Grupo) : list Grupo :=
  match l with
  | [] => [g]
  | h :: r =>
      match cmp_grupo g h with
      | Lt => g :: l
      | Eq => l
      | Gt => h :: insere_grupo g r
      end
  end.

(** The distinct groups of a list of rows, in output order. *)
Definition grupos (linhas : list Grupo) : list Grupo :=
  fold_right insere_grupo [] linhas.

(** [COUNT(f.presenca)] within one group ([presenca] is never NULL past the
    [WHERE] clause). *)
Definition conta (g : Grupo) (linhas : list Grupo) : Z :=
  Z.of_nat (List.length (filter (grupo_eqb g) linhas)).

(** The rows the query of [obter_dados_participantes_por_atividade]
    fetches: (atividade, data_frequencia, num_presentes). *)
Definition consulta_presenca (bd : BD) : list (string * string * Z) :=
  let linhas := map grupo_de (presentes bd) in
  map (fun g => (fst g, snd g, conta g linhas)) (grupos linhas).

(** The frame with columns [Atividade], [Data], [Num_Presentes]. *)
Definition DataFrame : Type := list (string * Py.date * Z).

(** [df['Data'] = pd.to_datetime(df['Data']).dt.date] on a column of texts
    of the form [YYYY-MM-DD]; [None] when some text is of another form (see
    [Pandas.to_date]: the frame pandas builds then, if any, is not
    modelled). *)
Fixpoint converte_datas (linhas : list (string * string * Z))
    : option DataFrame :=
  match linhas with
  | [] => Some []
  | (a, d, n) :: r =>
      match Pandas.to_date d, converte_datas r with
      | Some d', Some r' => Some ((a, d', n) :: r')
      | _, _ => None
      end
  end.

Definition obter_dados_participantes_por_atividade (bd : BD)
    : option DataFrame :=
  converte_datas (consulta_presenca bd).


(** The same reading on the fetched rows, by the stored text of the date. *)
Definition num_presentes_consulta (linhas : list (string * string * Z))
    (g : Grupo) : Z :=
  match find (fun '(a, d, _) => grupo_eqb (a, d) g) linhas with
  | Some (_, _, n) => n
  | None => 0
  end.

(* ================================================================= *)
(** ** Invariant of the database: primary keys *)

(** Strictly increasing: rows are in rowid order and no key repeats. *)
Fixpoint crescente (l : list Z) : bool :=
  match l with
  | [] => true
  | x :: r => forallb (fun y => x <? y) r && crescente r
  end.

Definition bd_ok (bd : BD) : Prop :=
  crescente (map p_id (participantes bd)) = true /\
  crescente (map a_id (atividades bd)) = true /\
  crescente (map f_id (frequencia bd)) = true.

(** The text of every record date is one [sqlite3] wrote for a [date] that
    the report can convert. *)
Definition datas_ok (bd : BD) : Prop :=
  forall f, In f (frequencia bd) ->
    exists d, Pandas.to_date (f_data_frequencia f) = Some d.

(* ================================================================= *)
(** ** The screen "Registrar Frequência" *)

(** What one run of the script does, in order: the Streamlit elements it
    draws and the persistence calls it makes.  [registrar_frequencia] is
    passed the [date] of the date input; [sqlite3] binds it as its ISO
    text. *)
Inductive Evento : Type :=
| st_subheader (texto : string)
| st_selectbox (rotulo : string) (opcoes : list string)
| st_date_input (rotulo : string)
| st_button (rotulo : string)
| st_warning (texto : string)
| st_success (texto : string)
| st_error (texto : string)
| chama_registrar_frequencia
    (participante_id atividade_id presenca : Z) (data_frequencia : Py.date).

(** A run of the script over the database: a value, the database it leaves
    and the trace of events; [None] is an uncaught Python exception. *)
Definition Tela (A : Type) : Type := BD -> option (A * BD * list Evento).

Definition ret {A : Type} (a : A) : Tela A :=
  fun bd => Some (a, bd, []).

Definition bind {A B : Type} (m : Tela A) (k : A -> Tela B) : Tela B :=
  fun bd =>
    match m bd with
    | None => None
    | Some (a, bd1, ev1) =>
        match k a bd1 with
        | None => None
        | Some (b, bd2, ev2) => Some (b, bd2, ev1 ++ ev2)
        end
    end.

Declare Scope tela_scope.
Delimit Scope tela_scope with tela.
Notation "x <- c1 ;; c2" := (bind c1 (fun x => c2))
  (at level 61, c1 at next level, right associativity) : tela_scope.
Notation "c1 ;; c2" := (bind c1 (fun _ => c2))
  (at level 61, right associativity) : tela_scope.

(** Draw an element or log a call. *)
Definition mostra (ev : Evento) : Tela unit :=
  fun bd => Some (tt, bd, [ev]).

(** Run a query. *)
Definition consulta {A : Type} (q : BD -> A) : Tela A :=
  fun bd => Some (q bd, bd, []).

(** Run a statement that changes the database. *)
Definition executa (f : BD -> BD) : Tela unit :=
  fun bd => Some (tt, f bd, []).

(** A Python expression that may raise. *)
Definition avalia {A : Type} (o : option A) : Tela A :=
  fun bd =>
    match o with
    | Some a => Some (a, bd, [])
    | None => None
    end.

(** What the operator has set in the widgets of the screen: the option
    picked in each select box (by position, 0 being the default), the date of
    the date input, and whether "Registrar" was clicked. *)
Record Entradas : Type := mkEntradas {
  participante_escolhido : nat;
  atividade_escolhida : nat;
  presenca_escolhida : nat;
  data_escolhida : Py.date;
  registrar_clicado : bool
}.

(** [st.selectbox(rotulo, opcoes)]: the picked option; the first one when
    the position is past the end. *)
Definition selectbox (rotulo : string) (opcoes : list string) (i : nat)
    : Tela string :=
  (mostra (st_selectbox rotulo opcoes) ;;
   ret (nth i opcoes (hd "" opcoes)))%tela.

(** [f"ID: {p[0]}, Nome: {p[1]}, Idade: {p[2]}"]. *)
Definition rotulo_participante (p : Z * string * Z) : string :=
  let '(i, nome, idade) := p in
  "ID: " ++ Py.str i ++ ", Nome: " ++ nome ++ ", Idade: " ++ Py.str idade.

(** [f"ID: {a[0]}, Atividade: {a[1]}"]. *)
Definition rotulo_atividade (a : Z * string) : string :=
  let '(i, atividade) := a in
  "ID: " ++ Py.str i ++ ", Atividade: " ++ atividade.

(** [int(s.split(',')[0].split(':')[1].strip())]; [None] is [IndexError]
    or [ValueError]. *)
Definition id_do_rotulo (s : string) : option Z :=
  match Py.split "," s with
  | p0 :: _ =>
      match Py.split ":" p0 with
      | _ :: p1 :: _ => Py.int (Py.strip p1)
      | _ => None
      end
  | [] => None
  end.

(** Lines 311-319: the participant select box, or the warning and [None]. *)
Definition escolhe_participante (e : Entradas)
    (participantes : list (Z * string * Z)) : Tela (option Z) :=
  (match participantes with
   | _ :: _ =>
       participante_selecionado <-
         selectbox "Selecione o Participante"
                   (map rotulo_participante participantes)
                   (participante_escolhido e) ;;
       i <- avalia (id_do_rotulo participante_selecionado) ;;
       ret (Some i)
   | [] =>
       mostra (st_warning "Nenhum participante cadastrado!") ;;
       ret None
   end)%tela.

(** Lines 321-329: the activity select box, or the warning and [None]. *)
Definition escolhe_atividade (e : Entradas)
    (atividades : list (Z * string)) : Tela (option Z) :=
  (match atividades with
   | _ :: _ =>
       atividade_selecionada <-
         selectbox "Selecione a Atividade"
                   (map rotulo_atividade atividades)
                   (atividade_escolhida e) ;;
       i <- avalia (id_do_rotulo atividade_selecionada) ;;
       ret (Some i)
   | [] =>
       mostra (st_warning "Nenhuma atividade cadastrada!") ;;
       ret None
   end)%tela.

(** The message of line 341. *)
Definition msg_recusa : string :=
  "Não foi possível registrar a frequência. Verifique se há participantes e atividades cadastrados.".

(** Lines 336-341: the button "Registrar" and what a click does. *)
Definition botao_registrar (e : Entradas)
    (participante_id atividade_id : option Z) (presenca : Z)
    (data_frequencia : Py.date) : Tela unit :=
  (mostra (st_button "Registrar") ;;
   if registrar_clicado e then
     match participante_id, atividade_id with
     | Some p, Some a =>
         mostra (chama_registrar_frequencia p a presenca data_frequencia) ;;
         executa (registrar_frequencia p a presenca
                    (Py.isoformat data_frequencia)) ;;
         mostra (st_success "Frequência registrada com sucesso!")
     | _, _ =>
         mostra (st_error msg_recusa)
     end
   else ret tt)%tela.

(** The branch [choice == 'Registrar Frequência'] (lines 305-341). *)
Definition tela_registrar_frequencia (e : Entradas) : Tela unit :=
  (mostra (st_subheader "Registro de Frequência") ;;
   participantes <- consulta get_participantes_dropdown ;;
   atividades <- consulta get_atividades_dropdown ;;
   participante_id <- escolhe_participante e participantes ;;
   atividade_id <- escolhe_atividade e atividades ;;
   presenca_texto <-
     selectbox "Presença" ["Presente"; "Ausente"] (presenca_escolhida e) ;;
   let presenca := if String.eqb presenca_texto "Presente" then 1 else 0 in
   mostra (st_date_input "Data da Frequência") ;;
   let data_frequencia := data_escolhida e in
   botao_registrar e participante_id atividade_id presenca data_frequencia)%tela.

(** The trace holds no call of [registrar_frequencia]. *)
Definition sem_chamada (evs : list Evento) : Prop :=
  forall p a pr d, ~ In (chama_registrar_frequencia p a pr d) evs.

(* ================================================================= *)
(** ** Readings of tables used in the statements *)

(** How many attendance rows the table holds for a participant, an activity
    and a date. *)
Definition registros_de (pid aid : Z) (data : string) (bd : BD) : nat :=
  List.length
    (filter (fun f => (f_participante_id f =? pid) && (f_atividade_id f =? aid)
                      && String.eqb (f_data_frequencia f) data)
            (frequencia bd)).

(** The record date of a row of [visualizar_frequencia]. *)
Definition data_da_linha (r : Z * string * string * Z * string) : string :=
  snd r.

(** Row [r1] does not come after row [r2] by record date: by the stored
    text, as SQLite compares it, and hence in time whenever the two texts
    are the ISO texts of dates. *)
Definition ordem_por_data (r1 r2 : Z * string * string * Z * string) : Prop :=
  String.leb (data_da_linha r1) (data_da_linha r2) = true /\
  forall d1 d2,
    Py.date_ok d1 = true -> Py.date_ok d2 = true ->
    data_da_linha r1 = Py.isoformat d1 ->
    data_da_linha r2 = Py.isoformat d2 ->
    Py.date_leb d1 d2 = true.

(** The scenario of the specification: one participant, one activity and
    one attendance row, entered on the days [h1] and [h2]. *)
Definition cenario (h1 h2 : Py.date) : BD :=
  registrar_frequencia 1 1 1 "2024-03-01"
    (add_atividade h2 "Futebol" "Treino semanal"
       (add_participante h1 "Ana" 10 "Feminino" "5º ano"
          (create_tables None))).

(** No participant row has the id the attendance row refers to. *)
Definition sem_participante (bd : BD) (f : Frequencia) : Prop :=
  forall p, In p (participantes bd) -> p_id p <> f_participante_id f.

(** No activity row has the id the attendance row refers to. *)
Definition sem_atividade (bd : BD) (f : Frequencia) : Prop :=
  forall a, In a (atividades bd) -> a_id a <> f_atividade_id f.

(** The attendance listing does not show the row: it is what it would be
    without the row in the table. *)
Definition omitido_da_listagem (bd : BD) (f : Frequencia) : Prop :=
  visualizar_frequencia bd =
  visualizar_frequencia (excluir_frequencia (f_id f) bd).

(** The report does not count the row. *)
Definition omitido_do_relatorio (bd : BD) (f : Frequencia) : Prop :=
  obter_dados_participantes_por_atividade bd =
  obter_dados_participantes_por_atividade (excluir_frequencia (f_id f) bd).

(** A database with an attendance row whose participant (99) does not
    exist and whose activity (1) does. *)
Definition bd_participante_orfao : BD :=
  registrar_frequencia 99 1 1 "2024-03-01"
    (add_atividade (Py.mkdate 2024 2 1) "Futebol" "Treino semanal" bd_novo).

(** A database with an attendance row whose activity (7) does not exist and
    whose participant (1) does. *)
Definition bd_atividade_orfa : BD :=
  registrar_frequencia 1 7 1 "2024-03-01"
    (add_participante (Py.mkdate 2024 2 1) "Ana" 10 "Feminino" "5º ano"
       bd_novo).

(** Every character of a text satisfies [P]. *)
Fixpoint todos (P : ascii -> bool) (s : string) : bool :=
  match s with
  | EmptyString => true
  | String c r => P c && todos P r
  end.

(** The characters of a decimal numeral: the digits and the minus sign. *)
Definition char_numeral (c : ascii) : bool :=
  match Py.valor_digito c with
  | Some _ => true
  | None => Ascii.eqb c "-"
  end.

(** Rows and inputs of the examples below. *)
Definition dia_exemplo : Py.date := Py.mkdate 2024 2 1.

Definition ana : Participante :=
  mkParticipante 1 "Ana" 10 "Feminino" "5º ano" "2024-02-01".


Definition linha_participante_orfao : Frequencia :=
  mkFrequencia 1 99 1 1 "2024-03-01".

Definition linha_atividade_orfa : Frequencia :=
  mkFrequencia 1 1 7 1 "2024-03-01".

(** One activity, no participant, and an absent row whose date is not a
    date. *)
Definition bd_so_ausente : BD :=
  registrar_frequencia 5 1 0 "sem data"
    (add_atividade dia_exemplo "Futebol" "Treino semanal" bd_novo).

(* ================================================================= *)
(** ** Further invariants of the database *)

(** No key exceeds the [sqlite_sequence] entry of its table. *)
Definition seq_ok (bd : BD) : Prop :=
  forallb (fun i => i <=? seq_participantes bd)
          (map p_id (participantes bd)) = true /\
  forallb (fun i => i <=? seq_atividades bd)
          (map a_id (atividades bd)) = true /\
  forallb (fun i => i <=? seq_frequencia bd)
          (map f_id (frequencia bd)) = true.

(** Both references of an attendance row name a stored row. *)
Definition referencias_ok (bd : BD) (f : Frequencia) : bool :=
  existsb (fun p => p_id p =? f_participante_id f) (participantes bd) &&
  existsb (fun a => a_id a =? f_atividade_id f) (atividades bd).

(** Referential integrity, which the two [FOREIGN KEY] clauses declare and
    SQLite, with enforcement off, does not check. *)
Definition integro (bd : BD) : Prop :=
  forallb (referencias_ok bd) (frequencia bd) = true.

(** One call of a persistence function that changes the database. *)
Inductive Chamada : Type :=
| c_add_participante (hoje : Py.date) (nome : string) (idade : Z)
    (genero escolaridade : string)
| c_add_atividade (hoje : Py.date) (atividade descricao : string)
| c_registrar_frequencia (participante_id atividade_id presenca : Z)
    (data_frequencia : string)
| c_excluir_participante (participante_id : Z)
| c_excluir_atividade (atividade_id : Z)
| c_excluir_frequencia (frequencia_id : Z).

Definition chama (c : Chamada) (bd : BD) : BD :=
  match c with
  | c_add_participante hoje nome idade genero escolaridade =>
      add_participante hoje nome idade genero escolaridade bd
  | c_add_atividade hoje atividade descricao =>
      add_atividade hoje atividade descricao bd
  | c_registrar_frequencia p a presenca data =>
      registrar_frequencia p a presenca data bd
  | c_excluir_participante i => excluir_participante i bd
  | c_excluir_atividade i => excluir_atividade i bd
  | c_excluir_frequencia i => excluir_frequencia i bd
  end.

(** A run of calls, in order. *)
Definition chama_todas (cs : list Chamada) (bd : BD) : BD :=
  fold_left (fun b c => chama c b) cs bd.

(** The sum of the counts of a report: of the fetched rows, or of the
    frame. *)
Definition total_presentes {K : Type} (linhas : list (K * Z)) : Z :=
  fold_right (fun r acc => snd r + acc) 0 linhas.

(** How many lines of the attendance listing are marked present for an
    activity name and a date text. *)
Definition presentes_na_listagem
    (linhas : list (Z * string * string * Z * string)) (g : Grupo) : Z :=
  Z.of_nat (List.length
    (filter (fun '(_, _, atividade, presenca, data) =>
               (presenca =? 1) && grupo_eqb g (atividade, data))
            linhas)).

(** The scenario with both rows entered on [dia_exemplo], and its attendance
    row. *)
Definition bd_exemplo : BD := cenario dia_exemplo dia_exemplo.

Definition linha_exemplo : Frequencia := mkFrequencia 1 1 1 1 "2024-03-01".

(* ================================================================= *)
(** ** The chart of [plotar_grafico_barras] *)

(** Insertion into a list kept in strictly increasing order of [cmp]: how
    pandas lists the distinct labels of an axis. *)
Section Rotulos.
Context {A : Type} (cmp : A -> A -> comparison).

Fixpoint insere_rotulo (x : A) (l : list A) : list A :=
  match l with
  | [] => [x]
  | h :: r =>
      match cmp x h with
      | Lt => x :: l
      | Eq => l
      | Gt => h :: insere_rotulo x r
      end
  end.

Definition rotulos_distintos (l : list A) : list A :=
  fold_right insere_rotulo [] l.
End Rotulos.

(** Some (index, column) pair occurs twice. *)
Fixpoint tem_repetidos (l : list (string * Py.date)) : bool :=
  match l with
  | [] => false
  | k :: r =>
      existsb (fun k' => String.eqb (fst k) (fst k')
                         && Py.date_eqb (snd k) (snd k')) r
      || tem_repetidos r
  end.

(** The cell of the pivot table for a date and an activity name: the count
    of the row of the frame with that date and name, or [None] (NaN). *)
Definition celula (df : DataFrame) (d : Py.date) (atividade : string)
    : option Z :=
  option_map snd
    (find (fun r => String.eqb (fst (fst r)) atividade
                    && Py.date_eqb (snd (fst r)) d) df).

(** [df.pivot(index='Data', columns='Atividade', values='Num_Presentes')]:
    the distinct dates in increasing order, the distinct activity names in
    increasing order, and the cells; [None] is the [ValueError] for a
    repeated (date, name) pair. *)
Record Pivot : Type := mkPivot {
  pv_index : list Py.date;
  pv_columns : list string;
  pv_values : list (list (option Z))
}.

Definition pivot (df : DataFrame) : option Pivot :=
  if tem_repetidos (map fst df) then None
  else
    let datas := rotulos_distintos Py.date_compare (map (fun r => snd (fst r)) df) in
    let nomes := rotulos_distintos String.compare (map (fun r => fst (fst r)) df) in
    Some (mkPivot datas nomes
            (map (fun d => map (fun a => celula df d a) nomes) datas)).

(** What the figure shows: the texts around the axes, the tick label of each
    group of bars, the legend, and for each group the height of the bar of
    each legend entry ([None]: no bar). *)
Record Grafico : Type := mkGrafico {
  g_title : string;
  g_xlabel : string;
  g_ylabel : string;
  g_legend_title : string;
  g_xticklabels : list string;
  g_legend : list string;
  g_barras : list (list (option Z))
}.

(** The figure [plotar_grafico_barras] hands to [st.pyplot].  [None] is an
    exception: the one of [pivot], or [pd.to_datetime] on an index date
    outside the range of a [Timestamp].  What matplotlib does with a frame
    without rows is not modelled; the program does not plot one. *)
Definition plotar_grafico_barras (df : DataFrame) : option Grafico :=
  match pivot df with
  | None => None
  | Some df_pivot =>
      if forallb Pandas.timestamp_ok (pv_index df_pivot) then
        Some (mkGrafico
                "Número de Participantes Presentes por Atividade e Data"
                "Data" "Número de Presentes" "Atividade"
                (map Py.isoformat (pv_index df_pivot))
                (pv_columns df_pivot)
                (pv_values df_pivot))
      else None
  end.


(* ================================================================= *)
(** ** The whole script *)

(** What a run of the script does, in order: the elements of [Evento], the
    other Streamlit elements, the figure, the two calls on the
    authenticator, and every call of a persistence function that changes the
    database (the call of [registrar_frequencia] is the one of [Evento]). *)
Inductive Saida : Type :=
| elemento (ev : Evento)
| st_title (texto : string)
| st_sidebar_write (texto : string)
| st_sidebar_radio (rotulo : string) (opcoes : list string)
| st_text_input (rotulo : string)
| st_number_input (rotulo : string) (min_value max_value step : Z)
| st_text_area (rotulo : string)
| st_checkbox (rotulo : string)
| st_write (texto : string)
| st_pyplot (g : Grafico)
| authenticator_login (location : string)
| authenticator_logout (button_name location : string)
| chamada (c : Chamada).

(** A run over the database, as [Tela] with the larger trace. *)
Definition App (A : Type) : Type := BD -> option (A * BD * list Saida).

Definition app_ret {A : Type} (a : A) : App A :=
  fun bd => Some (a, bd, []).

Definition app_bind {A B : Type} (m : App A) (k : A -> App B) : App B :=
  fun bd =>
    match m bd with
    | None => None
    | Some (a, bd1, ev1) =>
        match k a bd1 with
        | None => None
        | Some (b, bd2, ev2) => Some (b, bd2, ev1 ++ ev2)
        end
    end.

Declare Scope app_scope.
Delimit Scope app_scope with app.
Notation "x <- c1 ;; c2" := (app_bind c1 (fun x => c2))
  (at level 61, c1 at next level, right associativity) : app_scope.
Notation "c1 ;; c2" := (app_bind c1 (fun _ => c2))
  (at level 61, right associativity) : app_scope.

Definition desenha (s : Saida) : App unit :=
  fun bd => Some (tt, bd, [s]).

(** Run a query. *)
Definition pergunta {A : Type} (q : BD -> A) : App A :=
  fun bd => Some (q bd, bd, []).

(** Run a query that may raise. *)
Definition le_ou_levanta {A : Type} (q : BD -> option A) : App A :=
  fun bd =>
    match q bd with
    | Some a => Some (a, bd, [])
    | None => None
    end.

(** A Python expression that may raise. *)
Definition calcula {A : Type} (o : option A) : App A :=
  fun bd =>
    match o with
    | Some a => Some (a, bd, [])
    | None => None
    end.

(** Call a persistence function that changes the database.  The integers
    the screens pass are the age of the number input (9 .. 12), a presence
    of 0 or 1 and ids read from the labels of stored rows, which [sqlite3]
    binds without raising ([invoca]): the call has the effect of its
    statements. *)
Definition faz (c : Chamada) : App unit :=
  fun bd => Some (tt, chama c bd, [chamada c]).

(** A run of [Tela] inside the script. *)
Definition eleva {A : Type} (t : Tela A) : App A :=
  fun bd =>
    match t bd with
    | Some (a, bd', evs) => Some (a, bd', map elemento evs)
    | None => None
    end.

(** Widgets: each draws itself and returns what the operator has set. *)
Definition text_input (rotulo valor : string) : App string :=
  (desenha (st_text_input rotulo) ;; app_ret valor)%app.

Definition text_area (rotulo valor : string) : App string :=
  (desenha (st_text_area rotulo) ;; app_ret valor)%app.

(** [st.number_input] keeps the value within [min_value .. max_value]. *)
Definition number_input (rotulo : string) (min_value max_value step valor : Z)
    : App Z :=
  (desenha (st_number_input rotulo min_value max_value step) ;;
   app_ret (Z.max min_value (Z.min max_value valor)))%app.

Definition checkbox (rotulo : string) (marcado : bool) : App bool :=
  (desenha (st_checkbox rotulo) ;; app_ret marcado)%app.

Definition button (rotulo : string) (clicado : bool) : App bool :=
  (desenha (elemento (st_button rotulo)) ;; app_ret clicado)%app.

Definition sidebar_radio (rotulo : string) (opcoes : list string) (i : nat)
    : App string :=
  (desenha (st_sidebar_radio rotulo opcoes) ;;
   app_ret (nth i opcoes (hd "" opcoes)))%app.

Definition subheader (texto : string) : App unit :=
  desenha (elemento (st_subheader texto)).

Definition warning (texto : string) : App unit :=
  desenha (elemento (st_warning texto)).

Definition success (texto : string) : App unit :=
  desenha (elemento (st_success texto)).

(** [for linha in linhas: st.write(linha)]. *)
Fixpoint write_todas (linhas : list string) : App unit :=
  match linhas with
  | [] => app_ret tt
  | l :: r => (desenha (st_write l) ;; write_todas r)%app
  end.

(** *** "Cadastrar Participante" (lines 283-292) *)

Record EntradasParticipante : Type := mkEntradasParticipante {
  nome_digitado : string;
  idade_digitada : Z;
  genero_escolhido : nat;
  escolaridade_digitada : string;
  cadastrar_participante_clicado : bool
}.

Definition tela_cadastrar_participante (hoje : Py.date)
    (e : EntradasParticipante) : App unit :=
  (subheader "Cadastro de Participantes" ;;
   nome <- text_input "Nome" (nome_digitado e) ;;
   idade <- number_input "Idade" 9 12 1 (idade_digitada e) ;;
   genero <- eleva (selectbox "Gênero" ["Masculino"; "Feminino"]
                      (genero_escolhido e)) ;;
   escolaridade <- text_input "Escolaridade" (escolaridade_digitada e) ;;
   clicado <- button "Cadastrar" (cadastrar_participante_clicado e) ;;
   if clicado then
     faz (c_add_participante hoje nome idade genero escolaridade) ;;
     success ("Participante " ++ nome ++ " cadastrado com sucesso!")
   else app_ret tt)%app.

(** *** "Cadastrar Atividade" (lines 295-302) *)

Record EntradasAtividade : Type := mkEntradasAtividade {
  atividade_digitada : string;
  descricao_digitada : string;
  cadastrar_atividade_clicado : bool
}.

Definition tela_cadastrar_atividade (hoje : Py.date) (e : EntradasAtividade)
    : App unit :=
  (subheader "Cadastro de Atividades" ;;
   atividade <- text_input "Atividade" (atividade_digitada e) ;;
   descricao <- text_area "Descrição" (descricao_digitada e) ;;
   clicado <- button "Cadastrar" (cadastrar_atividade_clicado e) ;;
   if clicado then
     faz (c_add_atividade hoje atividade descricao) ;;
     success ("Atividade " ++ atividade ++ " cadastrada com sucesso!")
   else app_ret tt)%app.

(** *** "Excluir Registro" (lines 343-392) *)

Record EntradasExcluir : Type := mkEntradasExcluir {
  excluir_participante_marcado : bool;
  participante_a_excluir : nat;
  excluir_participante_clicado : bool;
  excluir_atividade_marcado : bool;
  atividade_a_excluir : nat;
  excluir_atividade_clicado : bool;
  excluir_frequencia_marcado : bool;
  frequencia_a_excluir : nat;
  excluir_frequencia_clicado : bool
}.

(** [f"ID: {f[0]}, Nome: {f[1]}, Atividade: {f[2]}, Data: {f[3]}"]: the
    fourth field of a line of [visualizar_frequencia] is the presence. *)
Definition rotulo_frequencia (f : Z * string * string * Z * string) : string :=
  let '(i, nome, atividade, presenca, _) := f in
  "ID: " ++ Py.str i ++ ", Nome: " ++ nome ++ ", Atividade: " ++ atividade
  ++ ", Data: " ++ Py.str presenca.

Definition painel_excluir_participante (e : EntradasExcluir) : App unit :=
  (marcado <- checkbox "Excluir Participante"
                (excluir_participante_marcado e) ;;
   if marcado then
     participantes <- pergunta get_participantes_dropdown ;;
     match participantes with
     | _ :: _ =>
         participante_selecionado <-
           eleva (selectbox "Selecione o Participante para Exclusão"
                    (map rotulo_participante participantes)
                    (participante_a_excluir e)) ;;
         participante_id <- calcula (id_do_rotulo participante_selecionado) ;;
         clicado <- button "Excluir Participante"
                      (excluir_participante_clicado e) ;;
         if clicado then
           faz (c_excluir_participante participante_id) ;;
           success ("Participante " ++ participante_selecionado
                    ++ " excluído com sucesso!")
         else app_ret tt
     | [] => warning "Nenhum participante cadastrado!"
     end
   else app_ret tt)%app.

Definition painel_excluir_atividade (e : EntradasExcluir) : App unit :=
  (marcado <- checkbox "Excluir Atividade" (excluir_atividade_marcado e) ;;
   if marcado then
     atividades <- pergunta get_atividades_dropdown ;;
     match atividades with
     | _ :: _ =>
         atividade_selecionada <-
           eleva (selectbox "Selecione a Atividade para Exclusão"
                    (map rotulo_atividade atividades)
                    (atividade_a_excluir e)) ;;
         atividade_id <- calcula (id_do_rotulo atividade_selecionada) ;;
         clicado <- button "Excluir Atividade" (excluir_atividade_clicado e) ;;
         if clicado then
           faz (c_excluir_atividade atividade_id) ;;
           success ("Atividade " ++ atividade_selecionada
                    ++ " excluída com sucesso!")
         else app_ret tt
     | [] => warning "Nenhuma atividade cadastrada!"
     end
   else app_ret tt)%app.

Definition painel_excluir_frequencia (e : EntradasExcluir) : App unit :=
  (marcado <- checkbox "Excluir Frequência" (excluir_frequencia_marcado e) ;;
   if marcado then
     frequencias <- pergunta visualizar_frequencia ;;
     match frequencias with
     | _ :: _ =>
         frequencia_selecionada <-
           eleva (selectbox "Selecione o Registro de Frequência para Exclusão"
                    (map rotulo_frequencia frequencias)
                    (frequencia_a_excluir e)) ;;
         frequencia_id <- calcula (id_do_rotulo frequencia_selecionada) ;;
         clicado <- button "Excluir Frequência"
                      (excluir_frequencia_clicado e) ;;
         if clicado then
           faz (c_excluir_frequencia frequencia_id) ;;
           success ("Frequência " ++ frequencia_selecionada
                    ++ " excluída com sucesso!")
         else app_ret tt
     | [] => warning "Nenhum registro de frequência cadastrado!"
     end
   else app_ret tt)%app.

Definition tela_excluir_registro (e : EntradasExcluir) : App unit :=
  (subheader "Exclusão de Registros" ;;
   painel_excluir_participante e ;;
   painel_excluir_atividade e ;;
   painel_excluir_frequencia e)%app.

(** *** "Relatórios" (lines 395-440) *)

Record EntradasRelatorios : Type := mkEntradasRelatorios {
  visualizar_participantes_marcado : bool;
  visualizar_atividades_marcado : bool;
  visualizar_frequencia_marcado : bool;
  visualizar_grafico_marcado : bool
}.

Definition linhas_participante (p : Participante) : list string :=
  [("ID: " ++ Py.str (p_id p))%string;
   ("Nome: " ++ p_nome p)%string;
   ("Idade: " ++ Py.str (p_idade p))%string;
   ("Gênero: " ++ p_genero p)%string;
   ("Escolaridade: " ++ p_escolaridade p)%string;
   ("Data de Inscrição: " ++ p_data_inscricao p)%string;
   "---"].

Definition linhas_atividade (a : Atividade) : list string :=
  [("ID: " ++ Py.str (a_id a))%string;
   ("Atividade: " ++ a_atividade a)%string;
   ("Descrição: " ++ a_descricao a)%string;
   ("Data da Atividade: " ++ a_data_atividade a)%string;
   "---"].

Definition linhas_frequencia (item : Z * string * string * Z * string)
    : list string :=
  let '(_, nome, atividade, presenca, data) := item in
  let presenca_text := if presenca =? 1 then "Presente" else "Ausente" in
  [("Nome do Participante: " ++ nome)%string;
   ("Atividade: " ++ atividade)%string;
   ("Data da Atividade: " ++ data)%string;
   ("Presença: " ++ presenca_text)%string;
   "---"].

(** Lines 399-409. *)
Definition painel_participantes (e : EntradasRelatorios) : App unit :=
  (marcado <- checkbox "Visualizar Participantes"
                (visualizar_participantes_marcado e) ;;
   if marcado then
     subheader "Lista de Participantes" ;;
     participantes <- pergunta visualizar_participantes ;;
     write_todas (flat_map linhas_participante participantes)
   else app_ret tt)%app.

(** Lines 412-420. *)
Definition painel_atividades (e : EntradasRelatorios) : App unit :=
  (marcado <- checkbox "Visualizar Atividades"
                (visualizar_atividades_marcado e) ;;
   if marcado then
     subheader "Lista de Atividades" ;;
     atividades <- pergunta visualizar_atividades ;;
     write_todas (flat_map linhas_atividade atividades)
   else app_ret tt)%app.

(** Lines 423-432. *)
Definition painel_frequencia (e : EntradasRelatorios) : App unit :=
  (marcado <- checkbox "Visualizar Frequência"
                (visualizar_frequencia_marcado e) ;;
   if marcado then
     subheader "Registro de Frequência" ;;
     frequencia <- pergunta visualizar_frequencia ;;
     write_todas (flat_map linhas_frequencia frequencia)
   else app_ret tt)%app.

(** Lines 434-440.  ([None] also when the report is outside the model:
    some record date is not of the form [YYYY-MM-DD].) *)
Definition painel_grafico (e : EntradasRelatorios) : App unit :=
  (marcado <- checkbox "Visualizar Gráfico de Presença por Atividade e Data"
                (visualizar_grafico_marcado e) ;;
   if marcado then
     df_presenca <- le_ou_levanta obter_dados_participantes_por_atividade ;;
     match df_presenca with
     | _ :: _ =>
         g <- calcula (plotar_grafico_barras df_presenca) ;;
         desenha (st_pyplot g)
     | [] => warning "Nenhuma frequência registrada com presença!"
     end
   else app_ret tt)%app.

Definition tela_relatorios (e : EntradasRelatorios) : App unit :=
  (subheader "Relatórios de Participantes, Atividades e Frequência" ;;
   painel_participantes e ;;
   painel_atividades e ;;
   painel_frequencia e ;;
   painel_grafico e)%app.

(** *** The module body (lines 257-446) *)

Record EntradasApp : Type := mkEntradasApp {
  name : string;
  authentication_status : option bool;
  choice_escolhida : nat;
  e_participante : EntradasParticipante;
  e_atividade : EntradasAtividade;
  e_frequencia : Entradas;
  e_excluir : EntradasExcluir;
  e_relatorios : EntradasRelatorios
}.

Definition menu : list string :=
  ["Cadastrar Participante"; "Cadastrar Atividade"; "Registrar Frequência";
   "Excluir Registro"; "Relatórios"].

(** The part of a run from the login on (lines 270-446), over the database
    that [create_tables] has left, on the day [hoje], with the login result
    and the widget states of [e]. *)
Definition script (hoje : Py.date) (e : EntradasApp) : App unit :=
  (desenha (authenticator_login "main") ;;
   match authentication_status e with
   | Some true =>
       desenha (authenticator_logout "logout" "sidebar") ;;
       desenha (st_sidebar_write ("Bem-vindo, " ++ name e ++ "!")) ;;
       desenha (st_title "Projeto de Incentivo à Prática Esportiva") ;;
       choice <- sidebar_radio "Menu" menu (choice_escolhida e) ;;
       if String.eqb choice "Cadastrar Participante" then
         tela_cadastrar_participante hoje (e_participante e)
       else if String.eqb choice "Cadastrar Atividade" then
         tela_cadastrar_atividade hoje (e_atividade e)
       else if String.eqb choice "Registrar Frequência" then
         eleva (tela_registrar_frequencia (e_frequencia e))
       else if String.eqb choice "Excluir Registro" then
         tela_excluir_registro (e_excluir e)
       else if String.eqb choice "Relatórios" then
         tela_relatorios (e_relatorios e)
       else app_ret tt
   | Some false =>
       desenha (elemento (st_error "Nome de usuário ou senha incorretos"))
   | None =>
       warning "Por favor, insira o nome de usuário e a senha"
   end)%app.

(** One run of the module over the database file: [create_tables()] (line
    257), then the script from the login on.  [arquivo] is [None] when the
    file does not hold the tables yet.  Loading [config.yaml] (lines
    259-268) is taken to succeed; the trace holds what the script draws and
    the calls of [Chamada], not the call of [create_tables]. *)
Definition execucao (arquivo : option BD) (hoje : Py.date) (e : EntradasApp)
    : option (unit * BD * list Saida) :=
  script hoje e (create_tables arquivo).


(** A run of [m] from [bd] raises nothing and ends with a value and a
    database that satisfy [Q]. *)
Definition garante {A : Type} (bd : BD) (m : App A) (Q : A -> BD -> Prop)
    : Prop :=
  exists a bd' evs, m bd = Some (a, bd', evs) /\ Q a bd'.

(** An operation that returns [v] and leaves the database as it is. *)
Definition devolve {A : Type} (bd : BD) (m : App A) (v : A) : Prop :=
  garante bd m (fun a b => a = v /\ b = bd).






(** Widget states of the examples: a run that enters Bia, and a run without
    login. *)
Definition entradas_exemplo (status : option bool) : EntradasApp :=
  mkEntradasApp "Zé" status 0
    (mkEntradasParticipante "Bia" 11 1 "6º ano" true)
    (mkEntradasAtividade "Vôlei" "Treino" false)
    (mkEntradas 0 0 0 dia_exemplo false)
    (mkEntradasExcluir false 0 false false 0 false false 0 false)
    (mkEntradasRelatorios true true true true).

(* ================================================================= *)
(** ** [sqlite3]: the binding of arguments and the declared constraints *)

Module Sqlite3.

(** An INTEGER of SQLite is a signed 64-bit integer.  [c.execute] raises
    [OverflowError] when it is handed a Python [int] outside that range,
    before the statement runs. *)
Definition int64 (n : Z) : bool := (- 2 ^ 63 <=? n) && (n <? 2 ^ 63).

(** The exceptions of [c.execute] in the model. *)
Inductive Erro : Type :=
| OverflowError
| IntegrityError.

(** What bears on the program among the settings of a connection: whether
    the declared foreign keys are enforced ([PRAGMA foreign_keys]). *)
Record Conexao : Type := mkConexao { foreign_keys : bool }.

(** [sqlite3.connect('projeto_esportivo.db')] (line 11).  The program issues
    no [PRAGMA], so enforcement has SQLite's default: off. *)
Definition connect : Conexao := mkConexao false.

End Sqlite3.

(** The outcome of a call of a persistence function: the database it
    leaves, or the exception it raises, in which case nothing was written. *)
Inductive Resultado : Type :=
| Retorna (bd : BD)
| Levanta (erro : Sqlite3.Erro).

(** The Python [int]s among the arguments of a call, which [sqlite3] binds
    as INTEGER. *)
Definition parametros_int (c : Chamada) : list Z :=
  match c with
  | c_add_participante _ _ idade _ _ => [idade]
  | c_add_atividade _ _ _ => []
  | c_registrar_frequencia participante_id atividade_id presenca _ =>
      [participante_id; atividade_id; presenca]
  | c_excluir_participante participante_id => [participante_id]
  | c_excluir_atividade atividade_id => [atividade_id]
  | c_excluir_frequencia frequencia_id => [frequencia_id]
  end.

(** Whether the statements of a call break a declared foreign key.  The two
    [FOREIGN KEY] clauses of [frequencia] (lines 43-44) are broken by a new
    row one of whose references matches no row.  The deletes of the program
    remove the referring rows before the row referred to, and so break
    none. *)
Definition viola_foreign_key (c : Chamada) (bd : BD) : bool :=
  match c with
  | c_registrar_frequencia participante_id atividade_id presenca data =>
      negb (referencias_ok bd
              (mkFrequencia 0 participante_id atividade_id presenca data))
  | _ => false
  end.

(** A call of a persistence function that writes, over the connection [cx],
    as Python makes it: [c.execute] binds the arguments, the statements run
    under the settings of the connection, and [conn.commit()] ends the
    transaction.  The tables declare no [UNIQUE] constraint and an
    [AUTOINCREMENT] key is always new, so no uniqueness check can fail. *)
Definition invoca (cx : Sqlite3.Conexao) (c : Chamada) (bd : BD) : Resultado :=
  if negb (forallb Sqlite3.int64 (parametros_int c)) then
    Levanta Sqlite3.OverflowError
  else if Sqlite3.foreign_keys cx && viola_foreign_key c bd then
    Levanta Sqlite3.IntegrityError
  else Retorna (chama c bd).

(* ================================================================= *)
(** ** Record dates stored as ISO texts *)

(** The text is the one [sqlite3] writes for a [date] that a [Timestamp]
    holds: [YYYY-MM-DD], zero padded, of a calendar date of the years
    1678 .. 2261. *)
Definition texto_iso (s : string) : Prop :=
  exists d, Pandas.timestamp_ok d = true /\ s = Py.isoformat d.

(** Every record date is stored as such a text; the screen "Registrar
    Frequência" stores no other for a date input of those years. *)
Definition datas_iso (bd : BD) : Prop :=
  forall f, In f (frequencia bd) -> texto_iso (f_data_frequencia f).

(** The attendance rows of the table that the report counts: marked present,
    with an activity row of the id they refer to. *)
Definition presencas_contadas (bd : BD) : list Frequencia :=
  filter (fun f => (f_presenca f =? 1) &&
                   existsb (fun a => f_atividade_id f =? a_id a)
                           (atividades bd))
         (frequencia bd).

(* ================================================================= *)
(** ** The net effect of the panels of "Excluir Registro" *)

(** The row behind the option that a select box over the rows [l] returns:
    the one at the picked position, the first one when the position is past
    the end; none when there is no row (and then no select box). *)
Definition linha_selecionada {A : Type} (i : nat) (l : list A) : option A :=
  match l with
  | [] => None
  | x :: _ => Some (nth i l x)
  end.

(** With its box checked, its button clicked and a row to select, a panel
    deletes the selected row; otherwise it leaves the database as it is. *)
Definition efeito_excluir_participante (e : EntradasExcluir) (bd : BD) : BD :=
  if excluir_participante_marcado e && excluir_participante_clicado e then
    match linha_selecionada (participante_a_excluir e) (participantes bd) with
    | Some p => excluir_participante (p_id p) bd
    | None => bd
    end
  else bd.

Definition efeito_excluir_atividade (e : EntradasExcluir) (bd : BD) : BD :=
  if excluir_atividade_marcado e && excluir_atividade_clicado e then
    match linha_selecionada (atividade_a_excluir e) (atividades bd) with
    | Some a => excluir_atividade (a_id a) bd
    | None => bd
    end
  else bd.

(** The third panel selects among the lines of [visualizar_frequencia]. *)
Definition efeito_excluir_frequencia (e : EntradasExcluir) (bd : BD) : BD :=
  if excluir_frequencia_marcado e && excluir_frequencia_clicado e then
    match linha_selecionada (frequencia_a_excluir e)
            (visualizar_frequencia bd) with
    | Some (i, _, _, _, _) => excluir_frequencia i bd
    | None => bd
    end
  else bd.

(** Widget states of the examples for "Excluir Registro": the second
    participant of the list is selected and its button clicked; the third
    panel is open without a click. *)
Definition excluir_exemplo : EntradasExcluir :=
  mkEntradasExcluir true 1 true false 0 false true 0 false.

(** The scenario with a second participant, Bia. *)
Definition bd_duas : BD :=
  add_participante dia_exemplo "Bia" 11 "Feminino" "6º ano" bd_exemplo.

(* ================================================================= *)
(** * Properties *)

(** ** Dates and their ISO text *)

Module PyFacts.
Import Py.

Lemma valor_digito_spec (c : ascii) (n : Z) :
  valor_digito c = Some n -> 0 <= n <= 9 /\ c = digito n.
Proof.
  unfold valor_digito, digito.
  destruct (_ && _) eqn:E; [|discriminate].
  intros [= <-].
  apply andb_true_iff in E. destruct E as [E1 E2].
  apply Z.leb_le in E1, E2.
  split; [lia|].
  replace (48 + (Z.of_N (N_of_ascii c) - 48)) with (Z.of_N (N_of_ascii c)) by lia.
  now rewrite N2Z.id, ascii_N_embedding.
Qed.

Lemma valor_digito_digito (n : Z) :
  0 <= n <= 9 -> valor_digito (digito n) = Some n.
Proof.
  intros H. unfold valor_digito, digito.
  rewrite N_ascii_embedding by lia.
  rewrite Z2N.id by lia.
  replace ((48 <=? 48 + n) && (48 + n <=? 57)) with true.
  - f_equal. lia.
  - symmetry. apply andb_true_iff. split; apply Z.leb_le; lia.
Qed.

Lemma le2_spec (c1 c2 : ascii) (n : Z) :
  le2 c1 c2 = Some n ->
  0 <= n <= 99 /\ forall r, dec2 n r = String c1 (String c2 r).
Proof.
  unfold le2.
  destruct (valor_digito c1) as [a|] eqn:E1; [|discriminate].
  destruct (valor_digito c2) as [b|] eqn:E2; [|discriminate].
  intros H. assert (Hn : n = 10 * a + b) by congruence. subst n. clear H.
  apply valor_digito_spec in E1, E2.
  destruct E1 as [Ha ->], E2 as [Hb ->].
  split; [lia|]. intros r. unfold dec2.
  assert (Hq : (10 * a + b) / 10 = a)
    by (symmetry; apply Z.div_unique with b; lia).
  assert (Hr : (10 * a + b) mod 10 = b)
    by (symmetry; apply Z.mod_unique with a; lia).
  rewrite Hq, Hr, Z.mod_small by lia. reflexivity.
Qed.

Lemma le2_dec2 (n : Z) :
  0 <= n <= 99 ->
  le2 (digito (n / 10 mod 10)) (digito (n mod 10)) = Some n.
Proof.
  intros H. unfold le2.
  assert (Hq : 0 <= n / 10 <= 9).
  { split; [apply Z.div_pos; lia|].
    apply Z.lt_succ_r. apply Z.div_lt_upper_bound; lia. }
  assert (Hr : 0 <= n mod 10 < 10) by (apply Z.mod_pos_bound; lia).
  rewrite (Z.mod_small (n / 10)) by lia.
  rewrite !valor_digito_digito by lia.
  f_equal. pose proof (Z.div_mod n 10). lia.
Qed.

Lemma days_in_month_le (y m : Z) : days_in_month y m <= 31.
Proof.
  unfold days_in_month.
  destruct m as [|p|p]; try lia.
  do 4 (try destruct p as [p|p|]; try lia);
    destruct (is_leap y); lia.
Qed.

Lemma compare_digito (a b : Z) :
  0 <= a <= 9 -> 0 <= b <= 9 ->
  Ascii.compare (digito a) (digito b) = (a ?= b).
Proof.
  intros Ha Hb. unfold Ascii.compare, digito.
  rewrite !N_ascii_embedding by lia.
  rewrite (Z2N.inj_compare (48 + a) (48 + b)) by lia.
  apply Z.add_compare_mono_l.
Qed.

Lemma compare_dec2 (n m : Z) (r s : string) :
  0 <= n <= 99 -> 0 <= m <= 99 ->
  String.compare (dec2 n r) (dec2 m s) =
  match n ?= m with
  | Eq => String.compare r s
  | c => c
  end.
Proof.
  intros Hn Hm. unfold dec2. cbn [String.compare].
  assert (Hqn : 0 <= n / 10 <= 9).
  { split; [apply Z.div_pos; lia|].
    apply Z.lt_succ_r. apply Z.div_lt_upper_bound; lia. }
  assert (Hqm : 0 <= m / 10 <= 9).
  { split; [apply Z.div_pos; lia|].
    apply Z.lt_succ_r. apply Z.div_lt_upper_bound; lia. }
  pose proof (Z.mod_pos_bound n 10 ltac:(lia)) as Hrn.
  pose proof (Z.mod_pos_bound m 10 ltac:(lia)) as Hrm.
  pose proof (Z.div_mod n 10 ltac:(lia)) as En.
  pose proof (Z.div_mod m 10 ltac:(lia)) as Em.
  rewrite !(Z.mod_small (_ / 10)) by lia.
  rewrite !compare_digito by lia.
  destruct (Z.compare_spec (n / 10) (m / 10));
    destruct (Z.compare_spec (n mod 10) (m mod 10));
    destruct (Z.compare_spec n m); try reflexivity; exfalso; lia.
Qed.

Lemma compare_dec4 (n m : Z) (r s : string) :
  0 <= n <= 9999 -> 0 <= m <= 9999 ->
  String.compare (dec4 n r) (dec4 m s) =
  match n ?= m with
  | Eq => String.compare r s
  | c => c
  end.
Proof.
  intros Hn Hm. unfold dec4.
  assert (Hqn : 0 <= n / 100 <= 99).
  { split; [apply Z.div_pos; lia|].
    apply Z.lt_succ_r. apply Z.div_lt_upper_bound; lia. }
  assert (Hqm : 0 <= m / 100 <= 99).
  { split; [apply Z.div_pos; lia|].
    apply Z.lt_succ_r. apply Z.div_lt_upper_bound; lia. }
  pose proof (Z.mod_pos_bound n 100 ltac:(lia)) as Hrn.
  pose proof (Z.mod_pos_bound m 100 ltac:(lia)) as Hrm.
  pose proof (Z.div_mod n 100 ltac:(lia)) as En.
  pose proof (Z.div_mod m 100 ltac:(lia)) as Em.
  rewrite !compare_dec2 by lia.
  destruct (Z.compare_spec (n / 100) (m / 100));
    destruct (Z.compare_spec (n mod 100) (m mod 100));
    destruct (Z.compare_spec n m); try reflexivity; exfalso; lia.
Qed.

(** The ISO texts of two dates compare, byte by byte, as the dates do. *)
Lemma isoformat_compare (a b : date) :
  date_ok a = true -> date_ok b = true ->
  String.compare (isoformat a) (isoformat b) = date_compare a b.
Proof.
  intros Ha Hb. destruct a as [y m d], b as [y' m' d'].
  unfold date_ok in Ha, Hb. cbn [year month day] in Ha, Hb.
  repeat (apply andb_true_iff in Ha; destruct Ha as [Ha ?]).
  repeat (apply andb_true_iff in Hb; destruct Hb as [Hb ?]).
  repeat match goal with H : (_ <=? _) = true |- _ => apply Z.leb_le in H end.
  pose proof (days_in_month_le y m).
  pose proof (days_in_month_le y' m').
  unfold isoformat, date_compare. cbn [year month day].
  rewrite compare_dec4 by lia.
  destruct (y ?= y'); try reflexivity.
  cbn [String.compare]. replace (Ascii.compare "-" "-") with Eq by reflexivity.
  rewrite compare_dec2 by lia.
  destruct (m ?= m'); try reflexivity.
  cbn [String.compare]. replace (Ascii.compare "-" "-") with Eq by reflexivity.
  rewrite compare_dec2 by lia.
  destruct (d ?= d'); reflexivity.
Qed.
(** So a text order of ISO dates is their order in time. *)
Lemma isoformat_leb (a b : date) :
  date_ok a = true -> date_ok b = true ->
  String.leb (isoformat a) (isoformat b) = date_leb a b.
Proof.
  intros Ha Hb. unfold String.leb, date_leb.
  now rewrite isoformat_compare.
Qed.

End PyFacts.

Module PandasFacts.
Import Py Pandas PyFacts.

(** A text the conversion accepts is the ISO text of the date it yields. *)
Lemma to_date_isoformat (s : string) (d : date) :
  to_date s = Some d -> s = isoformat d.
Proof.
  unfold to_date.
  do 10 (destruct s as [|? s]; [discriminate|]).
  destruct s; [|discriminate].
  destruct (Ascii.eqb a3 "-" && Ascii.eqb a6 "-") eqn:Eh; [|discriminate].
  apply andb_true_iff in Eh. destruct Eh as [Eh1 Eh2].
  apply Ascii.eqb_eq in Eh1, Eh2. subst a3 a6.
  destruct (le2 a a0) as [ya|] eqn:E1; [|discriminate].
  destruct (le2 a1 a2) as [yb|] eqn:E2; [|discriminate].
  destruct (le2 a4 a5) as [m|] eqn:E3; [|discriminate].
  destruct (le2 a7 a8) as [dd|] eqn:E4; [|discriminate].
  destruct (timestamp_ok _); [|discriminate].
  intros H. assert (Hd : d = mkdate (100 * ya + yb) m dd) by congruence.
  subst d. clear H.
  apply le2_spec in E1, E2, E3, E4.
  destruct E1 as [Ha E1], E2 as [Hb E2], E3 as [_ E3], E4 as [_ E4].
  unfold isoformat, dec4. cbn [year month day].
  assert (Hq : (100 * ya + yb) / 100 = ya)
    by (symmetry; apply Z.div_unique with yb; lia).
  assert (Hr : (100 * ya + yb) mod 100 = yb)
    by (symmetry; apply Z.mod_unique with ya; lia).
  now rewrite Hq, Hr, E1, E2, E3, E4.
Qed.

(** So the conversion never maps two texts to one date. *)
Lemma to_date_inj (s t : string) (d : date) :
  to_date s = Some d -> to_date t = Some d -> s = t.
Proof.
  intros Hs Ht.
  apply to_date_isoformat in Hs, Ht. congruence.
Qed.

(** The text [sqlite3] writes for a date the report can hold converts back
    to that date. *)
Lemma isoformat_to_date (d : date) :
  timestamp_ok d = true -> to_date (isoformat d) = Some d.
Proof.
  intros Hok. destruct d as [y m dd].
  pose proof Hok as Hok'.
  unfold timestamp_ok, date_ok in Hok'. cbn [year month day] in Hok'.
  repeat (apply andb_true_iff in Hok'; destruct Hok' as [Hok' ?]).
  repeat match goal with H : (_ <=? _) = true |- _ => apply Z.leb_le in H end.
  pose proof (days_in_month_le y m).
  unfold isoformat, dec4, dec2. cbn [year month day].
  unfold to_date. cbn [Ascii.eqb Bool.eqb andb].
  assert (Hy1 : 0 <= y / 100 <= 99).
  { split; [apply Z.div_pos; lia|].
    apply Z.lt_succ_r. apply Z.div_lt_upper_bound; lia. }
  assert (Hy2 : 0 <= y mod 100 < 100) by (apply Z.mod_pos_bound; lia).
  rewrite !le2_dec2 by lia.
  replace (100 * (y / 100) + y mod 100) with y
    by (pose proof (Z.div_mod y 100); lia).
  now rewrite Hok.
Qed.

End PandasFacts.

(* ================================================================= *)
(** ** Primary keys *)

Lemma novo_id_maior (seq : Z) (ids : list Z) (i : Z) :
  In i ids -> i < novo_id seq ids.
Proof.
  unfold novo_id. induction ids as [|j ids IH]; cbn [In fold_right].
  - intros [].
  - intros [-> | H]; [lia|]. specialize (IH H). lia.
Qed.

Lemma novo_id_seq (seq : Z) (ids : list Z) : seq < novo_id seq ids.
Proof.
  unfold novo_id. induction ids as [|j ids IH]; cbn [fold_right]; lia.
Qed.

Lemma filter_nenhum {A : Type} (g : A -> bool) (l : list A) :
  (forall y, In y l -> g y = false) -> filter g l = [].
Proof.
  induction l as [|x l IH]; intros H; [reflexivity|].
  cbn [filter]. rewrite (H x) by now left.
  apply IH. intros y Hy. apply H. now right.
Qed.

Section Chaves.
Context {A : Type} (k : A -> Z).

Lemma crescente_cons_inv (x : A) (l : list A) :
  crescente (map k (x :: l)) = true ->
  (forall y, In y l -> k x < k y) /\ crescente (map k l) = true.
Proof.
  cbn [map crescente]. intros H.
  apply andb_true_iff in H. destruct H as [H1 H2].
  split; [|exact H2].
  intros y Hy. rewrite forallb_forall in H1.
  apply Z.ltb_lt, H1, in_map, Hy.
Qed.

Lemma crescente_cons (x : A) (l : list A) :
  (forall y, In y l -> k x < k y) -> crescente (map k l) = true ->
  crescente (map k (x :: l)) = true.
Proof.
  intros H1 H2. cbn [map crescente].
  apply andb_true_iff. split; [|exact H2].
  apply forallb_forall. intros i Hi.
  apply in_map_iff in Hi. destruct Hi as (y & <- & Hy).
  apply Z.ltb_lt, H1, Hy.
Qed.

Lemma crescente_app_um (l : list A) (y : A) :
  crescente (map k l) = true -> (forall x, In x l -> k x < k y) ->
  crescente (map k (l ++ [y])) = true.
Proof.
  induction l as [|x l IH]; intros Hl Hy.
  - reflexivity.
  - apply crescente_cons_inv in Hl. destruct Hl as [Hx Hl].
    change ((x :: l) ++ [y]) with (x :: (l ++ [y])).
    apply crescente_cons.
    + intros z Hz. apply in_app_or in Hz.
      destruct Hz as [Hz | [<- | []]]; [auto|].
      apply Hy. now left.
    + apply IH; [exact Hl|]. intros z Hz. apply Hy. now right.
Qed.

Lemma crescente_filter (g : A -> bool) (l : list A) :
  crescente (map k l) = true -> crescente (map k (filter g l)) = true.
Proof.
  induction l as [|x l IH]; intros Hl; [reflexivity|].
  apply crescente_cons_inv in Hl. destruct Hl as [Hx Hl].
  cbn [filter]. destruct (g x); [|auto].
  apply crescente_cons; [|auto].
  intros y Hy. apply filter_In in Hy. apply Hx, Hy.
Qed.

(** A key names one row. *)
Lemma chave_unica (l : list A) (x y : A) :
  crescente (map k l) = true -> In x l -> In y l -> k x = k y -> x = y.
Proof.
  induction l as [|z l IH]; intros Hl Hx Hy E; [destruct Hx|].
  apply crescente_cons_inv in Hl. destruct Hl as [Hz Hl].
  destruct Hx as [-> | Hx], Hy as [-> | Hy]; auto.
  - specialize (Hz _ Hy). lia.
  - specialize (Hz _ Hx). lia.
Qed.

(** Selecting by the key of a stored row finds that row alone. *)
Lemma filter_chave (l : list A) (x : A) :
  crescente (map k l) = true -> In x l ->
  filter (fun y => k x =? k y) l = [x].
Proof.
  induction l as [|z l IH]; intros Hl Hx; [destruct Hx|].
  apply crescente_cons_inv in Hl. destruct Hl as [Hz Hl].
  cbn [filter]. destruct Hx as [-> | Hx].
  - rewrite Z.eqb_refl. f_equal.
    apply filter_nenhum.
    intros y Hy. apply Z.eqb_neq. specialize (Hz _ Hy). lia.
  - replace (k x =? k z) with false; [auto|].
    symmetry. apply Z.eqb_neq. specialize (Hz _ Hx). lia.
Qed.

(** Selecting by a key no row has finds nothing. *)
Lemma filter_sem_chave (l : list A) (i : Z) :
  (forall y, In y l -> k y <> i) -> filter (fun y => i =? k y) l = [].
Proof.
  intros H. apply filter_nenhum.
  intros y Hy. apply Z.eqb_neq. specialize (H _ Hy). lia.
Qed.
End Chaves.

(** [bd_ok] holds of the new database and every persistence function keeps
    it: it holds of every database the program can reach. *)
Lemma bd_ok_novo : bd_ok bd_novo.
Proof. repeat split. Qed.

Lemma bd_ok_add_participante hoje nome idade genero escolaridade bd :
  bd_ok bd -> bd_ok (add_participante hoje nome idade genero escolaridade bd).
Proof.
  intros (Hp & Ha & Hf). repeat split; cbn; auto.
  apply crescente_app_um; [exact Hp|].
  intros x Hx. cbn. apply novo_id_maior, in_map, Hx.
Qed.

Lemma bd_ok_add_atividade hoje atividade descricao bd :
  bd_ok bd -> bd_ok (add_atividade hoje atividade descricao bd).
Proof.
  intros (Hp & Ha & Hf). repeat split; cbn; auto.
  apply crescente_app_um; [exact Ha|].
  intros x Hx. cbn. apply novo_id_maior, in_map, Hx.
Qed.

Lemma bd_ok_registrar_frequencia pid aid presenca data bd :
  bd_ok bd -> bd_ok (registrar_frequencia pid aid presenca data bd).
Proof.
  intros (Hp & Ha & Hf). repeat split; cbn; auto.
  apply crescente_app_um; [exact Hf|].
  intros x Hx. cbn. apply novo_id_maior, in_map, Hx.
Qed.

Lemma bd_ok_excluir_participante i bd :
  bd_ok bd -> bd_ok (excluir_participante i bd).
Proof.
  intros (Hp & Ha & Hf). repeat split; cbn; auto using crescente_filter.
Qed.

Lemma bd_ok_excluir_atividade i bd :
  bd_ok bd -> bd_ok (excluir_atividade i bd).
Proof.
  intros (Hp & Ha & Hf). repeat split; cbn; auto using crescente_filter.
Qed.

Lemma bd_ok_excluir_frequencia i bd :
  bd_ok bd -> bd_ok (excluir_frequencia i bd).
Proof.
  intros (Hp & Ha & Hf). repeat split; cbn; auto using crescente_filter.
Qed.

(* ================================================================= *)
(** ** Deleting *)

Lemma In_filter_negb_eqb {A : Type} (k : A -> Z) (i : Z) (l : list A) (x : A) :
  In x (filter (fun y => negb (k y =? i)) l) <-> In x l /\ k x <> i.
Proof.
  rewrite filter_In, negb_true_iff, Z.eqb_neq. reflexivity.
Qed.

(** C1.  Deleting a stored participant removes its row and every attendance
    row that refers to it; the attendance rows of other participants, the
    other participant rows and the activity table stay as they were. *)
Theorem excluir_participante_remove (bd : BD) (p : Participante) :
  bd_ok bd -> In p (participantes bd) ->
  let bd' := excluir_participante (p_id p) bd in
  ~ In p (participantes bd') /\
  (forall q, In q (participantes bd') <-> In q (participantes bd) /\ q <> p) /\
  (forall f, In f (frequencia bd') <->
             In f (frequencia bd) /\ f_participante_id f <> p_id p) /\
  atividades bd' = atividades bd.
Proof.
  intros (Hp & _ & _) Hin bd'. subst bd'. cbn [excluir_participante
    participantes atividades frequencia].
  repeat split.
  - rewrite In_filter_negb_eqb. intros [_ H]. now apply H.
  - apply In_filter_negb_eqb in H. apply H.
  - apply In_filter_negb_eqb in H. intros ->. now apply (proj2 H).
  - intros [Hq Hne]. apply In_filter_negb_eqb. split; [exact Hq|].
    intros E. apply Hne. eapply chave_unica; eauto.
  - apply In_filter_negb_eqb in H. apply H.
  - apply In_filter_negb_eqb in H. apply H.
  - intros [Hf Hne]. apply In_filter_negb_eqb. auto.
Qed.

(** What [excluir_atividade] leaves in each table. *)
Lemma excluir_atividade_tabelas (i : Z) (bd : BD) :
  let bd' := excluir_atividade i bd in
  (forall f, In f (frequencia bd') <->
             In f (frequencia bd) /\ f_atividade_id f <> i) /\
  (forall a, In a (atividades bd') <-> In a (atividades bd) /\ a_id a <> i) /\
  participantes bd' = participantes bd.
Proof.
  cbn. repeat split; try (apply In_filter_negb_eqb in H; apply H);
    intros [? ?]; apply In_filter_negb_eqb; auto.
Qed.

(* ================================================================= *)
(** ** Inserting *)

(** On the connection of the program a call whose integers fit in 64 bits
    returns, with the effect of its statements; any other call raises
    [OverflowError]. *)
Lemma invoca_connect (c : Chamada) (bd : BD) :
  invoca Sqlite3.connect c bd =
  if forallb Sqlite3.int64 (parametros_int c) then Retorna (chama c bd)
  else Levanta Sqlite3.OverflowError.
Proof.
  unfold invoca. now destruct (forallb Sqlite3.int64 (parametros_int c)).
Qed.

(** With enforcement on, SQLite would refuse an attendance row one of whose
    references matches no row. *)
Lemma invoca_foreign_keys (pid aid presenca : Z) (data : string) (bd : BD) :
  forallb Sqlite3.int64 [pid; aid; presenca] = true ->
  invoca (Sqlite3.mkConexao true)
    (c_registrar_frequencia pid aid presenca data) bd =
  if referencias_ok bd (mkFrequencia 0 pid aid presenca data)
  then Retorna (registrar_frequencia pid aid presenca data bd)
  else Levanta Sqlite3.IntegrityError.
Proof.
  intros H. unfold invoca. cbn [parametros_int]. rewrite H.
  cbn [negb Sqlite3.foreign_keys andb viola_foreign_key chama].
  now destruct (referencias_ok _ _).
Qed.

(** C3.  For an age that fits in 64 bits (signed), [add_participante]
    returns, and the listing then is the previous listing followed by one
    row with the given fields, a fresh id and the ISO text of the current
    date as enrollment date.  For any other age the call raises
    [OverflowError], and nothing is inserted. *)
Theorem add_participante_lista
    (hoje : Py.date) (nome : string) (idade : Z) (genero escolaridade : string)
    (bd : BD) :
  (Sqlite3.int64 idade = true ->
   exists bd' i,
     invoca Sqlite3.connect
       (c_add_participante hoje nome idade genero escolaridade) bd =
       Retorna bd' /\
     visualizar_participantes bd' =
       visualizar_participantes bd ++
       [mkParticipante i nome idade genero escolaridade
          (Py.isoformat hoje)] /\
     (forall p, In p (visualizar_participantes bd) -> p_id p < i)) /\
  (Sqlite3.int64 idade = false ->
   invoca Sqlite3.connect
     (c_add_participante hoje nome idade genero escolaridade) bd =
     Levanta Sqlite3.OverflowError).
Proof.
  rewrite invoca_connect. cbn [parametros_int forallb].
  split; intros H; rewrite H; cbn [andb chama]; [|reflexivity].
  eexists. eexists. split; [reflexivity|]. split; [reflexivity|].
  intros p Hp. apply novo_id_maior, in_map, Hp.
Qed.

(** C6.  On the connection of the program, which leaves the enforcement of
    foreign keys off, [registrar_frequencia] with integers that fit in 64
    bits (signed) returns and has appended the row it was given, under a
    fresh id, whatever the two references are and whatever the table holds:
    no reference is checked and an equal row is not merged, so the number of
    rows for that participant, activity and date grows by one.  With an
    integer that does not fit the call raises [OverflowError], and nothing
    is inserted. *)
Theorem registrar_frequencia_sem_validacao
    (pid aid presenca : Z) (data : string) (bd : BD) :
  (Sqlite3.int64 pid = true -> Sqlite3.int64 aid = true ->
   Sqlite3.int64 presenca = true ->
   exists bd' i,
     invoca Sqlite3.connect (c_registrar_frequencia pid aid presenca data)
       bd = Retorna bd' /\
     frequencia bd' =
       frequencia bd ++ [mkFrequencia i pid aid presenca data] /\
     (forall f, In f (frequencia bd) -> f_id f < i) /\
     registros_de pid aid data bd' = S (registros_de pid aid data bd) /\
     participantes bd' = participantes bd /\
     atividades bd' = atividades bd) /\
  (Sqlite3.int64 pid = false \/ Sqlite3.int64 aid = false \/
   Sqlite3.int64 presenca = false ->
   invoca Sqlite3.connect (c_registrar_frequencia pid aid presenca data) bd =
     Levanta Sqlite3.OverflowError).
Proof.
  rewrite invoca_connect. cbn [parametros_int forallb]. split.
  - intros Hp Ha Hpr. rewrite Hp, Ha, Hpr. cbn [andb chama].
    eexists. eexists. split; [reflexivity|]. split; [reflexivity|].
    split; [|split; [|split; reflexivity]].
    + intros f Hf. apply novo_id_maior, in_map, Hf.
    + unfold registros_de. cbn [frequencia registrar_frequencia].
      rewrite filter_app, length_app. cbn [filter f_participante_id
        f_atividade_id f_data_frequencia].
      rewrite !Z.eqb_refl, String.eqb_refl. cbn. lia.
  - intros [H | [H | H]]; rewrite H; rewrite ?andb_false_r; reflexivity.
Qed.

(* ================================================================= *)
(** ** Order of TEXT values *)

Lemma string_leb_trans (s t u : string) :
  String.leb s t = true -> String.leb t u = true -> String.leb s u = true.
Proof.
  unfold String.leb. revert t u.
  induction s as [|a s IH]; intros [|b t] [|c u]; cbn; try congruence.
  unfold Ascii.compare.
  destruct (N.compare_spec (N_of_ascii a) (N_of_ascii b)) as [E1|L1|G1];
    try congruence;
    destruct (N.compare_spec (N_of_ascii b) (N_of_ascii c)) as [E2|L2|G2];
    try congruence; intros H1 H2.
  - rewrite E1, E2, N.compare_refl. now apply IH with t.
  - rewrite E1. apply N.compare_lt_iff in L2. now rewrite L2.
  - rewrite <- E2. apply N.compare_lt_iff in L1. now rewrite L1.
  - assert (L : (N_of_ascii a < N_of_ascii c)%N) by lia.
    apply N.compare_lt_iff in L. now rewrite L.
Qed.

Lemma string_leb_gt (s t : string) :
  String.leb s t = false -> String.leb t s = true.
Proof.
  intros H. destruct (String.leb_total s t) as [E|E]; congruence.
Qed.

Section OrderByFacts.
Context {A : Type} (chave : A -> string).

Lemma insere_ordenado_In (x y : A) (l : list A) :
  In y (insere_ordenado chave x l) <-> y = x \/ In y l.
Proof.
  induction l as [|z l IH]; cbn.
  - intuition congruence.
  - destruct (String.leb (chave x) (chave z)); cbn; rewrite ?IH;
      intuition congruence.
Qed.

Lemma insere_ordenado_sorted (x : A) (l : list A) :
  StronglySorted (chave_le chave) l ->
  StronglySorted (chave_le chave) (insere_ordenado chave x l).
Proof.
  induction 1 as [|z l Hl IH Hz]; cbn.
  - repeat constructor.
  - destruct (String.leb (chave x) (chave z)) eqn:E.
    + constructor; [now constructor|].
      constructor; [exact E|].
      eapply Forall_impl; [|exact Hz].
      intros w Hw. unfold chave_le in *.
      now apply string_leb_trans with (chave z).
    + constructor; [exact IH|].
      apply Forall_forall. intros w Hw.
      apply insere_ordenado_In in Hw. destruct Hw as [-> | Hw].
      * now apply string_leb_gt.
      * rewrite Forall_forall in Hz. now apply Hz.
Qed.

Lemma order_by_sorted (l : list A) :
  StronglySorted (chave_le chave) (order_by chave l).
Proof.
  induction l as [|x l IH]; cbn.
  - constructor.
  - now apply insere_ordenado_sorted.
Qed.

Lemma order_by_In (y : A) (l : list A) :
  In y (order_by chave l) <-> In y l.
Proof.
  induction l as [|x l IH]; cbn; [reflexivity|].
  rewrite insere_ordenado_In, IH. intuition congruence.
Qed.
End OrderByFacts.

Lemma StronglySorted_map {A B : Type} (R : B -> B -> Prop) (g : A -> B)
    (l : list A) :
  StronglySorted (fun x y => R (g x) (g y)) l -> StronglySorted R (map g l).
Proof.
  induction 1 as [|x l Hl IH Hx]; cbn; constructor; auto.
  apply Forall_forall. intros y Hy.
  apply in_map_iff in Hy. destruct Hy as (z & <- & Hz).
  rewrite Forall_forall in Hx. now apply Hx.
Qed.

Lemma StronglySorted_impl {A : Type} (R R' : A -> A -> Prop) (l : list A) :
  (forall x y, R x y -> R' x y) -> StronglySorted R l -> StronglySorted R' l.
Proof.
  intros HR. induction 1 as [|x l Hl IH Hx]; constructor; auto.
  eapply Forall_impl; [|exact Hx]. auto.
Qed.

(** C4.  The listing of attendance is in non-decreasing order of the record
    date, whatever the order of the rows in the table: each row's date text
    is at most that of every later row, and so is its date when the texts are
    ISO dates. *)
Theorem visualizar_frequencia_ordenada (bd : BD) :
  StronglySorted ordem_por_data (visualizar_frequencia bd).
Proof.
  unfold visualizar_frequencia.
  apply StronglySorted_map.
  eapply StronglySorted_impl; [|apply order_by_sorted].
  intros [[f1 p1] a1] [[f2 p2] a2] H. unfold chave_le in H.
  split; [exact H|].
  intros d1 d2 Hd1 Hd2 E1 E2. unfold data_da_linha in E1, E2.
  cbn [snd] in E1, E2.
  now rewrite <- PyFacts.isoformat_leb, <- E1, <- E2.
Qed.

(* ================================================================= *)
(** ** The reporting query *)

Lemma grupo_eqb_eq (g h : Grupo) : grupo_eqb g h = true <-> g = h.
Proof.
  destruct g as [a d], h as [a' d']. unfold grupo_eqb. cbn [fst snd].
  rewrite andb_true_iff, !String.eqb_eq. intuition congruence.
Qed.

Lemma grupo_eqb_refl (g : Grupo) : grupo_eqb g g = true.
Proof. now apply grupo_eqb_eq. Qed.

Lemma grupo_eqb_neq (g h : Grupo) : g <> h -> grupo_eqb g h = false.
Proof.
  intros H. destruct (grupo_eqb g h) eqn:E; [|reflexivity].
  apply grupo_eqb_eq in E. contradiction.
Qed.

Lemma cmp_grupo_eq (g h : Grupo) : cmp_grupo g h = Eq -> g = h.
Proof.
  destruct g as [a d], h as [a' d']. unfold cmp_grupo. cbn [fst snd].
  destruct (String.compare d d') eqn:E; try discriminate.
  intros E'. apply String.compare_eq_iff in E, E'. congruence.
Qed.

Lemma insere_grupo_In (g x : Grupo) (l : list Grupo) :
  In x (insere_grupo g l) <-> x = g \/ In x l.
Proof.
  induction l as [|h l IH]; cbn.
  - intuition congruence.
  - destruct (cmp_grupo g h) eqn:E; cbn.
    + apply cmp_grupo_eq in E. subst h. intuition congruence.
    + intuition congruence.
    + rewrite IH. intuition congruence.
Qed.

(** The groups of the output are the groups some row belongs to. *)
Lemma grupos_In (x : Grupo) (linhas : list Grupo) :
  In x (grupos linhas) <-> In x linhas.
Proof.
  induction linhas as [|g l IH]; cbn; [reflexivity|].
  rewrite insere_grupo_In, IH. intuition congruence.
Qed.

Lemma conta_fora (g : Grupo) (linhas : list Grupo) :
  ~ In g linhas -> conta g linhas = 0.
Proof.
  intros H. unfold conta. rewrite filter_nenhum; [reflexivity|].
  intros y Hy. apply grupo_eqb_neq. congruence.
Qed.


(** Reading a group off the fetched rows gives the number of joined,
    present rows of that group. *)
Lemma num_presentes_consulta_conta (bd : BD) (g : Grupo) :
  num_presentes_consulta (consulta_presenca bd) g =
  conta g (map grupo_de (presentes bd)).
Proof.
  unfold consulta_presenca.
  set (linhas := map grupo_de (presentes bd)).
  assert (H : forall gs,
    num_presentes_consulta
      (map (fun h => (fst h, snd h, conta h linhas)) gs) g =
    if existsb (fun h => grupo_eqb h g) gs then conta g linhas else 0).
  { induction gs as [|[a d] gs IH]; [reflexivity|].
    unfold num_presentes_consulta in *. cbn [map find existsb fst snd].
    destruct (grupo_eqb (a, d) g) eqn:E; cbn [orb].
    - apply grupo_eqb_eq in E. now subst g.
    - exact IH. }
  rewrite H.
  destruct (existsb _ _) eqn:E; [reflexivity|].
  symmetry. apply conta_fora. intros Hin.
  apply grupos_In in Hin.
  assert (Ht : existsb (fun h => grupo_eqb h g) (grupos linhas) = true).
  { apply existsb_exists. exists g. split; [exact Hin|apply grupo_eqb_refl]. }
  congruence.
Qed.

Lemma In_juncao_fa (bd : BD) (f : Frequencia) (a : Atividade) :
  In (f, a) (juncao_fa bd) <->
  In f (frequencia bd) /\ In a (atividades bd) /\ f_atividade_id f = a_id a.
Proof.
  unfold juncao_fa. rewrite in_flat_map. split.
  - intros (f' & Hf & H). apply in_map_iff in H.
    destruct H as (a' & [= <- <-] & Ha).
    apply filter_In in Ha. destruct Ha as [Ha E].
    apply Z.eqb_eq in E. auto.
  - intros (Hf & Ha & E). exists f. split; [exact Hf|].
    apply in_map, filter_In. split; [exact Ha|]. now apply Z.eqb_eq.
Qed.




(* ================================================================= *)
(** ** The frame with converted dates *)


(** The model builds the frame exactly when it converts every date of the
    column. *)
Lemma converte_datas_ok (linhas : list (string * string * Z)) :
  (forall a d n, In (a, d, n) linhas -> Pandas.to_date d <> None) <->
  exists df, converte_datas linhas = Some df.
Proof.
  induction linhas as [|[[a d] n] r IH]; cbn [converte_datas In].
  - split; [now exists []|]. intros _ ? ? ? [].
  - split.
    + intros H.
      destruct (Pandas.to_date d) as [d'|] eqn:E;
        [|exfalso; apply (H a d n); auto].
      destruct (proj1 IH) as [r' ->]; [|eauto].
      intros a' d0 n' Hin. apply (H a' d0 n'). now right.
    + intros [df H] a' d0 n' [[= <- <- <-] | Hin].
      * destruct (Pandas.to_date d); [discriminate|].
        discriminate.
      * destruct (Pandas.to_date d); [|discriminate].
        destruct (converte_datas r) eqn:Er; [|discriminate].
        apply (proj2 IH) with (a := a') (n := n'); eauto.
Qed.


Lemma In_consulta_presenca (bd : BD) (a d : string) (n : Z) :
  In (a, d, n) (consulta_presenca bd) <->
  In (a, d) (map grupo_de (presentes bd)) /\
  n = conta (a, d) (map grupo_de (presentes bd)).
Proof.
  unfold consulta_presenca. rewrite in_map_iff. split.
  - intros ([a' d'] & [= <- <- <-] & H). apply -> grupos_In in H. auto.
  - intros [H ->]. exists (a, d). split; [reflexivity|]. now apply <- grupos_In.
Qed.


(** C5.  When no attendance row is marked present the report is the empty
    frame, and building it raises nothing (whatever the texts stored as
    dates). *)
Theorem obter_dados_sem_presentes (bd : BD) :
  (forall f, In f (frequencia bd) -> f_presenca f <> 1) ->
  obter_dados_participantes_por_atividade bd = Some [].
Proof.
  intros H. unfold obter_dados_participantes_por_atividade, consulta_presenca.
  replace (presentes bd) with (@nil (Frequencia * Atividade)); [reflexivity|].
  symmetry. apply filter_nenhum. intros [f a] Hfa.
  apply In_juncao_fa in Hfa. apply Z.eqb_neq, H, Hfa.
Qed.

(* ================================================================= *)
(** ** The scenario of the specification *)

(** C7.  From the empty database, entering Ana, then Futebol, then one
    present attendance row for 2024-03-01 gives that one row in the listing
    and one group with count 1 in the report (the fetched row carries the
    date as text, the frame as the [date] of that text). *)
Theorem cenario_listagem_e_relatorio (h1 h2 : Py.date) :
  visualizar_frequencia (cenario h1 h2) =
    [(1, "Ana", "Futebol", 1, "2024-03-01")] /\
  consulta_presenca (cenario h1 h2) = [("Futebol", "2024-03-01", 1)] /\
  obter_dados_participantes_por_atividade (cenario h1 h2) =
    Some [("Futebol", Py.mkdate 2024 3 1, 1)] /\
  Py.isoformat (Py.mkdate 2024 3 1) = "2024-03-01".
Proof.
  repeat split; vm_compute; reflexivity.
Qed.

(** C8.  Deleting an activity removes exactly the attendance rows that refer
    to its id and the activity row of that id, and leaves the participants;
    after the scenario, deleting activity 1 leaves the listing of activities
    and the listing of attendance empty. *)
Theorem excluir_atividade_remove :
  (forall (i : Z) (bd : BD),
     let bd' := excluir_atividade i bd in
     (forall f, In f (frequencia bd') <->
                In f (frequencia bd) /\ f_atividade_id f <> i) /\
     (forall a, In a (atividades bd') <->
                In a (atividades bd) /\ a_id a <> i) /\
     participantes bd' = participantes bd) /\
  (forall h1 h2 : Py.date,
     visualizar_atividades (excluir_atividade 1 (cenario h1 h2)) = [] /\
     visualizar_frequencia (excluir_atividade 1 (cenario h1 h2)) = []).
Proof.
  split.
  - intros i bd. apply excluir_atividade_tabelas.
  - intros h1 h2. split; vm_compute; reflexivity.
Qed.

(* ================================================================= *)
(** ** Attendance rows whose references match no row *)

Lemma flat_map_filter_vazio {A B : Type} (g : A -> list B) (h : A -> bool)
    (l : list A) :
  (forall x, In x l -> h x = false -> g x = []) ->
  flat_map g (filter h l) = flat_map g l.
Proof.
  induction l as [|x l IH]; intros H; [reflexivity|].
  cbn [filter flat_map].
  rewrite <- IH by (intros y Hy; apply H; now right).
  destruct (h x) eqn:E; [reflexivity|].
  rewrite (H x) by (auto; now left). reflexivity.
Qed.

Lemma flat_map_nil {A B : Type} (l : list A) :
  flat_map (fun _ : A => @nil B) l = [].
Proof. induction l; auto. Qed.

(** Only the row itself carries its id. *)
Lemma mesma_chave_frequencia (bd : BD) (f x : Frequencia) :
  bd_ok bd -> In f (frequencia bd) -> In x (frequencia bd) ->
  negb (f_id x =? f_id f) = false -> x = f.
Proof.
  intros (_ & _ & Hf) Hin Hx E.
  apply negb_false_iff, Z.eqb_eq in E.
  eapply chave_unica; eauto.
Qed.

Lemma juncao_fpa_excluir_orfao (bd : BD) (f : Frequencia) :
  bd_ok bd -> In f (frequencia bd) ->
  sem_participante bd f \/ sem_atividade bd f ->
  juncao_fpa (excluir_frequencia (f_id f) bd) = juncao_fpa bd.
Proof.
  intros Hok Hin Horf. unfold juncao_fpa.
  cbn [excluir_frequencia frequencia participantes atividades].
  apply flat_map_filter_vazio. intros x Hx E.
  rewrite (mesma_chave_frequencia bd f x Hok Hin Hx E).
  destruct Horf as [Hp | Ha].
  - now rewrite (filter_sem_chave p_id _ _ Hp).
  - rewrite (filter_sem_chave a_id _ _ Ha). apply flat_map_nil.
Qed.

Lemma juncao_fa_excluir_orfao (bd : BD) (f : Frequencia) :
  bd_ok bd -> In f (frequencia bd) -> sem_atividade bd f ->
  juncao_fa (excluir_frequencia (f_id f) bd) = juncao_fa bd.
Proof.
  intros Hok Hin Ha. unfold juncao_fa.
  cbn [excluir_frequencia frequencia atividades].
  apply flat_map_filter_vazio. intros x Hx E.
  rewrite (mesma_chave_frequencia bd f x Hok Hin Hx E).
  now rewrite (filter_sem_chave a_id _ _ Ha).
Qed.

(** Deleting by the key of a stored row takes that row out and nothing
    else. *)
Lemma filter_tira_chave {A : Type} (k : A -> Z) (l : list A) (x : A) :
  crescente (map k l) = true -> In x l ->
  exists l1 l2,
    l = l1 ++ x :: l2 /\ filter (fun y => negb (k y =? k x)) l = l1 ++ l2.
Proof.
  induction l as [|z l IH]; intros Hl Hx; [destruct Hx|].
  apply crescente_cons_inv in Hl. destruct Hl as [Hz Hl].
  cbn [filter]. destruct Hx as [-> | Hx].
  - exists [], l. split; [reflexivity|].
    rewrite Z.eqb_refl. cbn [negb app].
    apply forallb_filter_id, forallb_forall. intros y Hy.
    apply negb_true_iff, Z.eqb_neq. specialize (Hz _ Hy). lia.
  - destruct (IH Hl Hx) as (l1 & l2 & -> & E).
    exists (z :: l1), l2. split; [reflexivity|].
    replace (k z =? k x) with false.
    + cbn [negb app]. now rewrite E.
    + symmetry. apply Z.eqb_neq. specialize (Hz _ Hx). lia.
Qed.

Lemma conta_app (g : Grupo) (l l' : list Grupo) :
  conta g (l ++ l') = conta g l + conta g l'.
Proof.
  unfold conta. rewrite filter_app, length_app. lia.
Qed.

Lemma conta_cons (g h : Grupo) (l : list Grupo) :
  conta g (h :: l) = (if grupo_eqb g h then 1 else 0) + conta g l.
Proof.
  unfold conta. cbn [filter].
  destruct (grupo_eqb g h); cbn [List.length]; lia.
Qed.

(** A present row whose activity exists is counted in its group, whether or
    not its participant exists. *)
Lemma consulta_conta_linha (bd : BD) (f : Frequencia) (a : Atividade) :
  bd_ok bd -> In f (frequencia bd) -> f_presenca f = 1 ->
  In a (atividades bd) -> a_id a = f_atividade_id f ->
  num_presentes_consulta (consulta_presenca bd)
    (a_atividade a, f_data_frequencia f) =
  num_presentes_consulta
    (consulta_presenca (excluir_frequencia (f_id f) bd))
    (a_atividade a, f_data_frequencia f) + 1.
Proof.
  intros Hok Hf Hp Ha Hid.
  rewrite !num_presentes_consulta_conta.
  destruct Hok as (_ & Hka & Hkf).
  destruct (filter_tira_chave f_id _ f Hkf Hf) as (l1 & l2 & E1 & E2).
  unfold presentes, juncao_fa.
  cbn [excluir_frequencia frequencia atividades].
  rewrite E2, E1, !flat_map_app. cbn [flat_map].
  rewrite <- Hid, (filter_chave a_id _ a Hka Ha). cbn [map app].
  rewrite !filter_app. cbn [filter]. rewrite Hp. cbn [Z.eqb Pos.eqb].
  rewrite !map_app, !conta_app. cbn [map].
  rewrite conta_cons. unfold grupo_de at 2. cbn [fst snd].
  rewrite grupo_eqb_refl. lia.
Qed.

(** C10, as the code has it.  The attendance listing joins participants and
    activities: it leaves out a row whose participant or activity reference
    matches no row.  The report joins activities only: it leaves out a row
    whose activity reference matches no row, and it counts a present row
    whose activity exists, whether or not its participant does. *)
Theorem juncoes_omitem_orfaos (bd : BD) (f : Frequencia) :
  bd_ok bd -> In f (frequencia bd) ->
  (sem_participante bd f \/ sem_atividade bd f -> omitido_da_listagem bd f) /\
  (sem_atividade bd f -> omitido_do_relatorio bd f) /\
  (forall a, In a (atividades bd) -> a_id a = f_atividade_id f ->
     f_presenca f = 1 ->
     num_presentes_consulta (consulta_presenca bd)
       (a_atividade a, f_data_frequencia f) =
     num_presentes_consulta
       (consulta_presenca (excluir_frequencia (f_id f) bd))
       (a_atividade a, f_data_frequencia f) + 1).
Proof.
  intros Hok Hin. repeat split.
  - intros Horf. unfold omitido_da_listagem, visualizar_frequencia.
    now rewrite juncao_fpa_excluir_orfao.
  - intros Ha. unfold omitido_do_relatorio,
      obter_dados_participantes_por_atividade, consulta_presenca, presentes.
    now rewrite juncao_fa_excluir_orfao.
  - intros a Ha Hid Hp. now apply consulta_conta_linha.
Qed.

(* ================================================================= *)
(** ** Labels of the select boxes *)

Section Todos.
Import Py.

Lemma todos_impl (P Q : ascii -> bool) (s : string) :
  (forall c, P c = true -> Q c = true) ->
  todos P s = true -> todos Q s = true.
Proof.
  intros H. induction s as [|c r IH]; cbn [todos]; [reflexivity|].
  rewrite !andb_true_iff. intros [H1 H2]. auto.
Qed.

Lemma todos_app (P : ascii -> bool) (s t : string) :
  todos P (s ++ t) = todos P s && todos P t.
Proof.
  induction s as [|c r IH]; cbn [todos String.append]; [reflexivity|].
  now rewrite IH, andb_assoc.
Qed.

Lemma split_sem_separador (sep : ascii) (s : string) :
  todos (fun c => negb (Ascii.eqb c sep)) s = true -> split sep s = [s].
Proof.
  induction s as [|c r IH]; cbn [todos split]; [reflexivity|].
  rewrite andb_true_iff, negb_true_iff. intros [-> H].
  now rewrite IH.
Qed.

Lemma split_ate_separador (sep : ascii) (s t : string) :
  todos (fun c => negb (Ascii.eqb c sep)) s = true ->
  split sep (s ++ String sep t) = s :: split sep t.
Proof.
  induction s as [|c r IH]; cbn [todos split String.append].
  - now rewrite Ascii.eqb_refl.
  - rewrite andb_true_iff, negb_true_iff. intros [-> H].
    now rewrite IH.
Qed.

Lemma rstrip_sem_brancos (s : string) :
  todos (fun c => negb (is_space c)) s = true -> rstrip s = s.
Proof.
  induction s as [|c r IH]; cbn [todos rstrip]; [reflexivity|].
  rewrite andb_true_iff, negb_true_iff. intros [Hc H].
  rewrite IH, Hc by exact H. now destruct r.
Qed.

Lemma lstrip_sem_brancos (s : string) :
  todos (fun c => negb (is_space c)) s = true -> lstrip s = s.
Proof.
  destruct s as [|c r]; cbn [todos lstrip]; [reflexivity|].
  rewrite andb_true_iff, negb_true_iff. now intros [-> _].
Qed.

Lemma char_numeral_outros (c : ascii) :
  char_numeral c = true ->
  negb (Ascii.eqb c ",") = true /\ negb (Ascii.eqb c ":") = true /\
  negb (is_space c) = true.
Proof.
  destruct c as [[|] [|] [|] [|] [|] [|] [|] [|]]; vm_compute;
    intros H; first [discriminate H | repeat split].
Qed.

Lemma string_of_uint_numeral (d : Decimal.uint) :
  todos char_numeral (NilEmpty.string_of_uint d) = true.
Proof.
  induction d; cbn [NilEmpty.string_of_uint todos]; [reflexivity|..];
    rewrite IHd; reflexivity.
Qed.

(** [str(n)] is made of digits and at most a sign. *)
Lemma str_numeral (n : Z) : todos char_numeral (str n) = true.
Proof.
  unfold str. destruct (Z.to_int n); cbn [NilEmpty.string_of_int todos];
    rewrite string_of_uint_numeral; reflexivity.
Qed.

(** [int(str(n)) == n]. *)
Lemma int_str (n : Z) : int (str n) = Some n.
Proof.
  unfold int, str.
  assert (E : NilEmpty.string_of_int (Z.to_int n) =
              NilZero.string_of_int (Z.to_int n)).
  { destruct n as [|p|p]; [reflexivity|..]; cbn;
      unfold NilZero.string_of_uint;
      pose proof (DecimalPos.Unsigned.to_uint_nonnil p);
      now destruct (Pos.to_uint p). }
  rewrite E, NilZero.isi.
  - cbn [option_map]. f_equal. apply DecimalZ.of_to.
  - destruct n as [|p|p]; cbn; try discriminate.
    intros [= H]. now apply (DecimalPos.Unsigned.to_uint_nonnil p).
  - destruct n as [|p|p]; cbn; try discriminate.
    intros [= H]. now apply (DecimalPos.Unsigned.to_uint_nonnil p).
Qed.
End Todos.

Lemma id_do_rotulo_prefixo (i : Z) (resto : string) :
  id_do_rotulo ("ID: " ++ Py.str i ++ String "," resto) = Some i.
Proof.
  pose proof (str_numeral i) as Hn.
  assert (Hv : todos (fun c => negb (Ascii.eqb c ",")) (Py.str i) = true)
    by (revert Hn; apply todos_impl; intros c Hc;
        apply (char_numeral_outros c Hc)).
  assert (Hd : todos (fun c => negb (Ascii.eqb c ":")) (Py.str i) = true)
    by (revert Hn; apply todos_impl; intros c Hc;
        apply (char_numeral_outros c Hc)).
  assert (Hb : todos (fun c => negb (Py.is_space c)) (Py.str i) = true)
    by (revert Hn; apply todos_impl; intros c Hc;
        apply (char_numeral_outros c Hc)).
  unfold id_do_rotulo.
  change ("ID: " ++ Py.str i ++ String "," resto)%string
    with (("ID: " ++ Py.str i) ++ String "," resto)%string.
  rewrite split_ate_separador by (cbn [String.append todos]; now rewrite Hv).
  change ("ID: " ++ Py.str i)%string
    with ("ID" ++ String ":" (" " ++ Py.str i))%string.
  rewrite split_ate_separador by reflexivity.
  rewrite split_sem_separador by (cbn [String.append todos]; now rewrite Hd).
  unfold Py.strip. cbn [String.append Py.lstrip].
  replace (Py.is_space " ") with true by reflexivity.
  rewrite lstrip_sem_brancos, rstrip_sem_brancos by exact Hb.
  apply int_str.
Qed.

(** The id parsed from a participant label is the id it was built from. *)
Lemma id_do_rotulo_participante (p : Z * string * Z) :
  id_do_rotulo (rotulo_participante p) = Some (fst (fst p)).
Proof.
  destruct p as [[i nome] idade]. apply id_do_rotulo_prefixo.
Qed.

(** The id parsed from an activity label is the id it was built from. *)
Lemma id_do_rotulo_atividade (a : Z * string) :
  id_do_rotulo (rotulo_atividade a) = Some (fst a).
Proof.
  destruct a as [i nome]. apply id_do_rotulo_prefixo.
Qed.

(* ================================================================= *)
(** ** The screen "Registrar Frequência" with nothing to select *)

Lemma nth_hd_In {A : Type} (i : nat) (x : A) (l : list A) (d : A) :
  In (nth i (x :: l) (hd d (x :: l))) (x :: l).
Proof.
  destruct (nth_in_or_default i (x :: l) (hd d (x :: l))) as [H | ->].
  - exact H.
  - now left.
Qed.

Lemma sem_chamada_app (l l' : list Evento) :
  sem_chamada l -> sem_chamada l' -> sem_chamada (l ++ l').
Proof.
  intros H H' p a pr d Hin. apply in_app_or in Hin.
  destruct Hin as [Hin | Hin]; [eapply H | eapply H']; eauto.
Qed.

(** The participant block raises nothing, changes nothing and makes no
    call; with no participant it yields [None], and an id it yields is the
    id of a listed participant. *)
Lemma escolhe_participante_ok (e : Entradas) (l : list (Z * string * Z))
    (bd : BD) :
  exists o evs,
    escolhe_participante e l bd = Some (o, bd, evs) /\
    sem_chamada evs /\ (l = [] -> o = None) /\
    (l <> [] -> exists x, In x l /\ o = Some (fst (fst x))).
Proof.
  destruct l as [|x l].
  - do 2 eexists. split; [reflexivity|]. split; [|split; [reflexivity|]].
    + intros p a pr d [H | []]. discriminate H.
    + intros H. now destruct H.
  - unfold escolhe_participante, selectbox, bind, mostra, ret, avalia.
    pose proof (nth_hd_In (participante_escolhido e)
                  (rotulo_participante x) (map rotulo_participante l) "")
      as Hin.
    change (rotulo_participante x :: map rotulo_participante l)
      with (map rotulo_participante (x :: l)) in Hin.
    apply in_map_iff in Hin. destruct Hin as (y & <- & Hy).
    rewrite id_do_rotulo_participante.
    do 2 eexists. split; [reflexivity|]. split; [|split; [discriminate|]].
    + intros p a pr d [H | []]. discriminate H.
    + intros _. now exists y.
Qed.

(** The same for the activity block. *)
Lemma escolhe_atividade_ok (e : Entradas) (l : list (Z * string)) (bd : BD) :
  exists o evs,
    escolhe_atividade e l bd = Some (o, bd, evs) /\
    sem_chamada evs /\ (l = [] -> o = None) /\
    (l <> [] -> exists x, In x l /\ o = Some (fst x)).
Proof.
  destruct l as [|x l].
  - do 2 eexists. split; [reflexivity|]. split; [|split; [reflexivity|]].
    + intros p a pr d [H | []]. discriminate H.
    + intros H. now destruct H.
  - unfold escolhe_atividade, selectbox, bind, mostra, ret, avalia.
    pose proof (nth_hd_In (atividade_escolhida e)
                  (rotulo_atividade x) (map rotulo_atividade l) "")
      as Hin.
    change (rotulo_atividade x :: map rotulo_atividade l)
      with (map rotulo_atividade (x :: l)) in Hin.
    apply in_map_iff in Hin. destruct Hin as (y & <- & Hy).
    rewrite id_do_rotulo_atividade.
    do 2 eexists. split; [reflexivity|]. split; [|split; [discriminate|]].
    + intros p a pr d [H | []]. discriminate H.
    + intros _. now exists y.
Qed.

(** A click with one of the two ids missing shows the error and nothing
    else. *)
Lemma botao_registrar_recusa e (op oa : option Z) presenca data bd :
  registrar_clicado e = true -> op = None \/ oa = None ->
  botao_registrar e op oa presenca data bd =
  Some (tt, bd, [st_button "Registrar"; st_error msg_recusa]).
Proof.
  intros Hc H. unfold botao_registrar, bind, mostra. rewrite Hc.
  destruct H as [-> | ->]; [reflexivity|]. now destruct op.
Qed.

(** C9.  With no participant registered, or no activity registered, a click
    on "Registrar" leaves the database as it is, makes no call of
    [registrar_frequencia] and shows the error message; the run raises
    nothing. *)
Theorem tela_registrar_frequencia_recusa (e : Entradas) (bd : BD) :
  registrar_clicado e = true ->
  participantes bd = [] \/ atividades bd = [] ->
  exists evs,
    tela_registrar_frequencia e bd = Some (tt, bd, evs) /\
    sem_chamada evs /\
    In (st_error msg_recusa) evs.
Proof.
  intros Hc Hvazio.
  destruct (escolhe_participante_ok e (get_participantes_dropdown bd) bd)
    as (op & ev1 & E1 & S1 & N1 & _).
  destruct (escolhe_atividade_ok e (get_atividades_dropdown bd) bd)
    as (oa & ev2 & E2 & S2 & N2 & _).
  assert (Hnone : op = None \/ oa = None).
  { unfold get_participantes_dropdown, get_atividades_dropdown in N1, N2.
    destruct Hvazio as [H | H]; rewrite H in *; auto. }
  unfold tela_registrar_frequencia, bind at 1 2 3 4 5, mostra at 1, consulta.
  rewrite E1, E2.
  cbv [bind selectbox mostra ret].
  rewrite (botao_registrar_recusa _ _ _ _ _ _ Hc Hnone).
  eexists. split; [reflexivity|]. split.
  - cbn [app]. apply (sem_chamada_app [_]).
    { intros p a pr d [H | []]. discriminate H. }
    apply sem_chamada_app; [exact S1|].
    apply sem_chamada_app; [exact S2|].
    intros p a pr d Hin. cbn in Hin.
    repeat (destruct Hin as [Hin | Hin]; [discriminate Hin|]).
    exact Hin.
  - cbn [app]. right. apply in_or_app. right. apply in_or_app. right.
    cbn. auto.
Qed.

(** With a participant and an activity to select, a click stores one row:
    the ids are those of a stored participant and a stored activity, the
    date is the ISO text of the date input, and the presence is 1 for
    "Presente" and 0 for "Ausente". *)
Lemma tela_registrar_frequencia_registra (e : Entradas) (bd : BD) :
  registrar_clicado e = true ->
  participantes bd <> [] -> atividades bd <> [] ->
  exists p a evs,
    In p (participantes bd) /\ In a (atividades bd) /\
    let presenca := match presenca_escolhida e with 1%nat => 0 | _ => 1 end in
    tela_registrar_frequencia e bd =
      Some (tt,
            registrar_frequencia (p_id p) (a_id a) presenca
              (Py.isoformat (data_escolhida e)) bd,
            evs) /\
    In (chama_registrar_frequencia (p_id p) (a_id a) presenca
          (data_escolhida e)) evs.
Proof.
  intros Hc Hp Ha.
  destruct (escolhe_participante_ok e (get_participantes_dropdown bd) bd)
    as (op & ev1 & E1 & _ & _ & P1).
  destruct (escolhe_atividade_ok e (get_atividades_dropdown bd) bd)
    as (oa & ev2 & E2 & _ & _ & P2).
  destruct P1 as (x & Hx & ->).
  { unfold get_participantes_dropdown. now destruct (participantes bd). }
  destruct P2 as (y & Hy & ->).
  { unfold get_atividades_dropdown. now destruct (atividades bd). }
  apply in_map_iff in Hx. destruct Hx as (p & <- & Hx).
  apply in_map_iff in Hy. destruct Hy as (a & <- & Hy).
  exists p, a. cbn [fst].
  unfold tela_registrar_frequencia, bind at 1 2 3 4 5, mostra at 1, consulta.
  rewrite E1, E2.
  cbv [bind selectbox mostra ret botao_registrar executa]. rewrite Hc.
  destruct (presenca_escolhida e) as [|[|[|n]]];
    (eexists; split; [exact Hx|]; split; [exact Hy|];
     split; [reflexivity|];
     cbn [app]; right; apply in_or_app; right; apply in_or_app; right;
     cbn; auto 10).
Qed.

(* ================================================================= *)
(** ** Record dates stored as ISO texts *)

(** With every record date one that the model converts, the frame is
    built. *)
Lemma obter_dados_datas_ok (bd : BD) :
  datas_ok bd ->
  exists df, obter_dados_participantes_por_atividade bd = Some df.
Proof.
  intros H. apply converte_datas_ok. intros a d n Hin.
  apply In_consulta_presenca in Hin. destruct Hin as [Hin _].
  apply in_map_iff in Hin. destruct Hin as ([f a0] & [= <- <-] & Hfa).
  apply filter_In in Hfa. destruct Hfa as [Hfa _].
  apply In_juncao_fa in Hfa. destruct Hfa as (Hf & _ & _).
  destruct (H f Hf) as [d' ->]. discriminate.
Qed.

Lemma datas_ok_novo : datas_ok bd_novo.
Proof. intros f []. Qed.





(** The record dates are ISO texts exactly when the model converts each of
    them. *)
Lemma datas_iso_ok (bd : BD) : datas_iso bd <-> datas_ok bd.
Proof.
  split; intros H f Hf.
  - destruct (H f Hf) as (d & Hd & ->). exists d.
    now apply PandasFacts.isoformat_to_date.
  - destruct (H f Hf) as [d Hd]. exists d. split.
    + unfold Pandas.to_date in Hd.
      destruct (f_data_frequencia f) as [|c1 s]; [discriminate|].
      do 9 (destruct s as [|? s]; [discriminate|]).
      destruct s; [|discriminate].
      destruct (_ && _); [|discriminate].
      destruct (Py.le2 c1 a); [|discriminate].
      destruct (Py.le2 a0 a1); [|discriminate].
      destruct (Py.le2 a3 a4); [|discriminate].
      destruct (Py.le2 a6 a7); [|discriminate].
      destruct (Pandas.timestamp_ok _) eqn:Et; [|discriminate].
      assert (E : d = Py.mkdate (100 * z + z0) z1 z2) by congruence.
      now subst d.
    + now apply PandasFacts.to_date_isoformat.
Qed.

(** With every record date an ISO text, the report is returned. *)
Lemma obter_dados_datas_iso (bd : BD) :
  datas_iso bd ->
  exists df, obter_dados_participantes_por_atividade bd = Some df.
Proof. intros H. now apply obter_dados_datas_ok, datas_iso_ok. Qed.


(* ================================================================= *)
(** ** Examples *)

(** Deleting Ana in the scenario. *)
Lemma excluir_participante_remove_exemplo :
  bd_ok (cenario dia_exemplo dia_exemplo) /\
  In ana (participantes (cenario dia_exemplo dia_exemplo)) /\
  ~ In ana (participantes
              (excluir_participante (p_id ana)
                 (cenario dia_exemplo dia_exemplo))).
Proof.
  assert (Hok : bd_ok (cenario dia_exemplo dia_exemplo))
    by (repeat split; reflexivity).
  assert (Hin : In ana (participantes (cenario dia_exemplo dia_exemplo)))
    by (left; reflexivity).
  split; [exact Hok|]. split; [exact Hin|].
  exact (proj1 (excluir_participante_remove _ _ Hok Hin)).
Defined.


(** Bia, aged 11, entered in the new database. *)
Lemma add_participante_lista_exemplo :
  Sqlite3.int64 11 = true /\
  exists bd',
    invoca Sqlite3.connect
      (c_add_participante dia_exemplo "Bia" 11 "Feminino" "6º ano")
      bd_novo = Retorna bd' /\
    visualizar_participantes bd' =
      [mkParticipante 1 "Bia" 11 "Feminino" "6º ano" "2024-02-01"].
Proof.
  split; [reflexivity|].
  destruct (proj1 (add_participante_lista dia_exemplo "Bia" 11 "Feminino"
                     "6º ano" bd_novo) eq_refl) as (bd' & i & E & _).
  exists bd'. split; [exact E|].
  rewrite invoca_connect in E. injection E as <-. reflexivity.
Defined.

(** An age of 2^63 does not fit in an INTEGER: the call raises
    [OverflowError] and the listing is not extended. *)
Lemma add_participante_idade_fora_de_int64 :
  invoca Sqlite3.connect
    (c_add_participante dia_exemplo "Ana" (2 ^ 63) "Feminino" "5º ano")
    bd_novo = Levanta Sqlite3.OverflowError /\
  forall bd',
    invoca Sqlite3.connect
      (c_add_participante dia_exemplo "Ana" (2 ^ 63) "Feminino" "5º ano")
      bd_novo <> Retorna bd'.
Proof.
  split; [reflexivity|]. intros bd'. discriminate.
Qed.

(** A second row for participant 99, who does not exist, activity 1 and
    2024-03-01 in a database that holds one already. *)
Lemma registrar_frequencia_sem_validacao_exemplo :
  Sqlite3.int64 99 = true /\ Sqlite3.int64 1 = true /\
  sem_participante bd_participante_orfao linha_participante_orfao /\
  registros_de 99 1 "2024-03-01" bd_participante_orfao = 1%nat /\
  exists bd',
    invoca Sqlite3.connect (c_registrar_frequencia 99 1 1 "2024-03-01")
      bd_participante_orfao = Retorna bd' /\
    registros_de 99 1 "2024-03-01" bd' = 2%nat.
Proof.
  split; [reflexivity|]. split; [reflexivity|].
  split; [intros p []|]. split; [reflexivity|].
  destruct (proj1 (registrar_frequencia_sem_validacao 99 1 1 "2024-03-01"
                     bd_participante_orfao) eq_refl eq_refl eq_refl)
    as (bd' & i & E & _ & _ & Hn & _).
  exists bd'. split; [exact E|]. rewrite Hn. reflexivity.
Defined.

(** The participant id 2^63 matches no participant of the scenario and
    does not fit in an INTEGER: the call raises [OverflowError] and stores
    nothing. *)
Lemma registrar_frequencia_id_fora_de_int64 :
  (forall p, In p (participantes bd_exemplo) -> p_id p <> 2 ^ 63) /\
  invoca Sqlite3.connect (c_registrar_frequencia (2 ^ 63) 1 1 "2024-03-01")
    bd_exemplo = Levanta Sqlite3.OverflowError /\
  forall bd',
    invoca Sqlite3.connect (c_registrar_frequencia (2 ^ 63) 1 1 "2024-03-01")
      bd_exemplo <> Retorna bd'.
Proof.
  split; [|split].
  - intros p [<- | []]. vm_compute. discriminate.
  - reflexivity.
  - intros bd'. discriminate.
Qed.

(** The report of a database whose only attendance row is marked absent. *)
Lemma obter_dados_sem_presentes_exemplo :
  (forall f, In f (frequencia bd_so_ausente) -> f_presenca f <> 1) /\
  obter_dados_participantes_por_atividade bd_so_ausente = Some [].
Proof.
  assert (H : forall f, In f (frequencia bd_so_ausente) -> f_presenca f <> 1).
  { intros f [<- | []]. cbn. discriminate. }
  split; [exact H|].
  exact (obter_dados_sem_presentes _ H).
Defined.

(** A click on the screen with one activity and no participant. *)
Lemma tela_registrar_frequencia_recusa_exemplo :
  registrar_clicado (mkEntradas 0 0 0 dia_exemplo true) = true /\
  participantes bd_so_ausente = [] /\
  exists evs,
    tela_registrar_frequencia (mkEntradas 0 0 0 dia_exemplo true)
      bd_so_ausente = Some (tt, bd_so_ausente, evs) /\
    sem_chamada evs /\ In (st_error msg_recusa) evs.
Proof.
  split; [reflexivity|]. split; [reflexivity|].
  exact (tela_registrar_frequencia_recusa
           (mkEntradas 0 0 0 dia_exemplo true) bd_so_ausente
           eq_refl (or_introl eq_refl)).
Defined.

(** A row whose activity does not exist shows in neither output. *)
Lemma juncoes_omitem_orfaos_exemplo :
  bd_ok bd_atividade_orfa /\
  In linha_atividade_orfa (frequencia bd_atividade_orfa) /\
  sem_atividade bd_atividade_orfa linha_atividade_orfa /\
  omitido_da_listagem bd_atividade_orfa linha_atividade_orfa /\
  omitido_do_relatorio bd_atividade_orfa linha_atividade_orfa.
Proof.
  assert (Hok : bd_ok bd_atividade_orfa) by (repeat split; reflexivity).
  assert (Hin : In linha_atividade_orfa (frequencia bd_atividade_orfa))
    by (left; reflexivity).
  assert (Ha : sem_atividade bd_atividade_orfa linha_atividade_orfa)
    by (intros a []).
  pose proof (juncoes_omitem_orfaos _ _ Hok Hin) as (H1 & H2 & _).
  repeat (split; [assumption|]).
  split; [exact (H1 (or_intror Ha)) | exact (H2 Ha)].
Defined.

(** The row of [bd_participante_orfao] refers to no participant, yet the
    report counts it; without the row the report is empty. *)
Lemma relatorio_conta_participante_orfao :
  bd_ok bd_participante_orfao /\
  In linha_participante_orfao (frequencia bd_participante_orfao) /\
  sem_participante bd_participante_orfao linha_participante_orfao /\
  obter_dados_participantes_por_atividade bd_participante_orfao =
    Some [("Futebol", Py.mkdate 2024 3 1, 1)] /\
  obter_dados_participantes_por_atividade
    (excluir_frequencia (f_id linha_participante_orfao)
       bd_participante_orfao) = Some [] /\
  ~ omitido_do_relatorio bd_participante_orfao linha_participante_orfao.
Proof.
  split; [repeat split; reflexivity|].
  split; [left; reflexivity|].
  split; [intros p []|].
  split; [reflexivity|].
  split; [reflexivity|].
  unfold omitido_do_relatorio. vm_compute. discriminate.
Qed.

(* ================================================================= *)
(** ** Keys over a run of calls *)

Lemma forallb_le_map {A : Type} (k : A -> Z) (s : Z) (l : list A) :
  forallb (fun i => i <=? s) (map k l) = true <->
  forall x, In x l -> k x <= s.
Proof.
  rewrite forallb_forall. split.
  - intros H x Hx. apply Z.leb_le, H, in_map, Hx.
  - intros H i Hi. apply in_map_iff in Hi. destruct Hi as (x & <- & Hx).
    apply Z.leb_le, H, Hx.
Qed.

Lemma forallb_le_app_novo {A : Type} (k : A -> Z) (s : Z) (l : list A)
    (x : A) :
  forallb (fun i => i <=? s) (map k l) = true ->
  k x = novo_id s (map k l) ->
  forallb (fun i => i <=? novo_id s (map k l)) (map k (l ++ [x])) = true.
Proof.
  intros H E. apply forallb_le_map. intros y Hy.
  apply in_app_or in Hy. destruct Hy as [Hy | [<- | []]]; [|lia].
  apply Z.lt_le_incl, novo_id_maior, in_map, Hy.
Qed.

Lemma forallb_le_filter {A : Type} (k : A -> Z) (s : Z) (g : A -> bool)
    (l : list A) :
  forallb (fun i => i <=? s) (map k l) = true ->
  forallb (fun i => i <=? s) (map k (filter g l)) = true.
Proof.
  rewrite !forallb_le_map. intros H x Hx.
  apply filter_In in Hx. apply H, Hx.
Qed.

Lemma seq_ok_chama (c : Chamada) (bd : BD) :
  seq_ok bd -> seq_ok (chama c bd).
Proof.
  intros (Hp & Ha & Hf).
  destruct c; cbn [chama]; repeat split; cbn; auto using forallb_le_filter;
    now apply forallb_le_app_novo.
Qed.

Lemma bd_ok_chama (c : Chamada) (bd : BD) :
  bd_ok bd -> bd_ok (chama c bd).
Proof.
  destruct c; cbn [chama];
    auto using bd_ok_add_participante, bd_ok_add_atividade,
      bd_ok_registrar_frequencia, bd_ok_excluir_participante,
      bd_ok_excluir_atividade, bd_ok_excluir_frequencia.
Qed.

Lemma chama_todas_invariante (cs : list Chamada) (bd : BD) :
  bd_ok bd -> seq_ok bd ->
  bd_ok (chama_todas cs bd) /\ seq_ok (chama_todas cs bd).
Proof.
  revert bd. induction cs as [|c cs IH]; intros bd Hk Hs; cbn; [auto|].
  apply IH; [now apply bd_ok_chama | now apply seq_ok_chama].
Qed.

(** X1.  Whatever calls of the persistence functions are made on the new
    database, in whatever order, every table keeps its rows in strictly
    increasing key order (so no key repeats) and no key exceeds the counter
    of its table. *)
Theorem chaves_em_toda_execucao (cs : list Chamada) :
  bd_ok (chama_todas cs (create_tables None)) /\
  seq_ok (chama_todas cs (create_tables None)).
Proof.
  apply chama_todas_invariante; repeat split.
Qed.

(** X2.  A deleted key is not given out again: after a stored participant
    (or activity) is deleted, the row the next insert adds, and every other
    row of the table, has a different id. *)
Theorem id_excluido_nao_volta
    (bd : BD) (i : Z) (hoje : Py.date)
    (nome genero escolaridade atividade descricao : string) (idade : Z) :
  seq_ok bd ->
  (In i (map p_id (participantes bd)) ->
   ~ In i (map p_id (participantes
        (add_participante hoje nome idade genero escolaridade
           (excluir_participante i bd))))) /\
  (In i (map a_id (atividades bd)) ->
   ~ In i (map a_id (atividades
        (add_atividade hoje atividade descricao
           (excluir_atividade i bd))))).
Proof.
  intros (Hp & Ha & _). split; intros Hi Hin; cbn in Hin;
    rewrite map_app in Hin; apply in_app_or in Hin;
    destruct Hin as [Hin | [Hin | []]].
  - apply in_map_iff in Hin. destruct Hin as (q & E & Hq).
    apply In_filter_negb_eqb in Hq. now apply (proj2 Hq).
  - cbn in Hin. rewrite forallb_forall in Hp. apply Hp, Z.leb_le in Hi.
    pose proof (novo_id_seq (seq_participantes bd)
      (map p_id (filter (fun p => negb (p_id p =? i)) (participantes bd)))).
    lia.
  - apply in_map_iff in Hin. destruct Hin as (q & E & Hq).
    apply In_filter_negb_eqb in Hq. now apply (proj2 Hq).
  - cbn in Hin. rewrite forallb_forall in Ha. apply Ha, Z.leb_le in Hi.
    pose proof (novo_id_seq (seq_atividades bd)
      (map a_id (filter (fun a => negb (a_id a =? i)) (atividades bd)))).
    lia.
Qed.

(* ================================================================= *)
(** ** Deleting one attendance row, and keys that are not there *)

(** X3.  Deleting a stored attendance row by its id removes that row and no
    other: the table has one row fewer, the other rows stay, and participants
    and activities are untouched. *)
Theorem excluir_frequencia_uma_linha (bd : BD) (f : Frequencia) :
  bd_ok bd -> In f (frequencia bd) ->
  let bd' := excluir_frequencia (f_id f) bd in
  (forall g, In g (frequencia bd') <-> In g (frequencia bd) /\ g <> f) /\
  S (List.length (frequencia bd')) = List.length (frequencia bd) /\
  participantes bd' = participantes bd /\
  atividades bd' = atividades bd.
Proof.
  intros (_ & _ & Hk) Hin bd'. subst bd'.
  cbn [excluir_frequencia frequencia participantes atividades].
  split; [|split; [|split; reflexivity]].
  - intros g. rewrite In_filter_negb_eqb. split.
    + intros [Hg Hne]. split; [exact Hg|]. intros ->. now apply Hne.
    + intros [Hg Hne]. split; [exact Hg|]. intros E. apply Hne.
      eapply chave_unica; eauto.
  - destruct (filter_tira_chave f_id _ f Hk Hin) as (l1 & l2 & E1 & E2).
    rewrite E2, E1, !length_app. cbn [List.length]. lia.
Qed.

Lemma filter_todos {A : Type} (g : A -> bool) (l : list A) :
  (forall x, In x l -> g x = true) -> filter g l = l.
Proof.
  intros H. apply forallb_filter_id, forallb_forall, H.
Qed.

Lemma filter_negb_eqb_ausente {A : Type} (k : A -> Z) (i : Z) (l : list A) :
  (forall x, In x l -> k x <> i) ->
  filter (fun x => negb (k x =? i)) l = l.
Proof.
  intros H. apply filter_todos. intros x Hx.
  apply negb_true_iff, Z.eqb_neq, H, Hx.
Qed.

(** X4.  Deleting by an id that nothing carries changes nothing: an
    attendance id no row has; a participant (activity) id that no
    participant (activity) has and no attendance row refers to. *)
Theorem excluir_id_ausente (bd : BD) (i : Z) :
  ((forall f, In f (frequencia bd) -> f_id f <> i) ->
   excluir_frequencia i bd = bd) /\
  ((forall p, In p (participantes bd) -> p_id p <> i) ->
   (forall f, In f (frequencia bd) -> f_participante_id f <> i) ->
   excluir_participante i bd = bd) /\
  ((forall a, In a (atividades bd) -> a_id a <> i) ->
   (forall f, In f (frequencia bd) -> f_atividade_id f <> i) ->
   excluir_atividade i bd = bd).
Proof.
  destruct bd as [ps ats fs sp sa sf]. cbn [participantes atividades frequencia].
  unfold excluir_frequencia, excluir_participante, excluir_atividade.
  cbn [participantes atividades frequencia seq_participantes seq_atividades
       seq_frequencia].
  repeat split; intros; rewrite ?filter_negb_eqb_ausente by assumption;
    reflexivity.
Qed.

(* ================================================================= *)
(** ** Referential integrity *)

Lemma referencias_ok_spec (bd : BD) (f : Frequencia) :
  referencias_ok bd f = true <->
  (exists p, In p (participantes bd) /\ p_id p = f_participante_id f) /\
  (exists a, In a (atividades bd) /\ a_id a = f_atividade_id f).
Proof.
  unfold referencias_ok. rewrite andb_true_iff, !existsb_exists.
  split; intros [(p & Hp & Ep) (a & Ha & Ea)]; split;
    try (exists p); try (exists a); split; auto;
    try (now apply Z.eqb_eq); now apply Z.eqb_eq.
Qed.

Lemma integro_spec (bd : BD) :
  integro bd <->
  forall f, In f (frequencia bd) ->
    (exists p, In p (participantes bd) /\ p_id p = f_participante_id f) /\
    (exists a, In a (atividades bd) /\ a_id a = f_atividade_id f).
Proof.
  unfold integro. rewrite forallb_forall.
  split; intros H f Hf; apply referencias_ok_spec, H, Hf.
Qed.

Lemma integro_excluir_participante (i : Z) (bd : BD) :
  integro bd -> integro (excluir_participante i bd).
Proof.
  rewrite !integro_spec. intros H f Hf. cbn in Hf |- *.
  apply In_filter_negb_eqb in Hf. destruct Hf as [Hf Hne].
  destruct (H f Hf) as [(p & Hp & Ep) Ha]. split; [|exact Ha].
  exists p. split; [|exact Ep]. apply In_filter_negb_eqb. split; [exact Hp|].
  congruence.
Qed.

Lemma integro_excluir_atividade (i : Z) (bd : BD) :
  integro bd -> integro (excluir_atividade i bd).
Proof.
  rewrite !integro_spec. intros H f Hf. cbn in Hf |- *.
  apply In_filter_negb_eqb in Hf. destruct Hf as [Hf Hne].
  destruct (H f Hf) as [Hp (a & Ha & Ea)]. split; [exact Hp|].
  exists a. split; [|exact Ea]. apply In_filter_negb_eqb. split; [exact Ha|].
  congruence.
Qed.

Lemma integro_excluir_frequencia (i : Z) (bd : BD) :
  integro bd -> integro (excluir_frequencia i bd).
Proof.
  rewrite !integro_spec. intros H f Hf. cbn in Hf |- *.
  apply filter_In in Hf. apply H, Hf.
Qed.

Lemma integro_add_participante hoje nome idade genero escolaridade bd :
  integro bd -> integro (add_participante hoje nome idade genero escolaridade bd).
Proof.
  rewrite !integro_spec. intros H f Hf. cbn in Hf |- *.
  destruct (H f Hf) as [(p & Hp & Ep) Ha]. split; [|exact Ha].
  exists p. split; [|exact Ep]. apply in_or_app. now left.
Qed.

Lemma integro_add_atividade hoje atividade descricao bd :
  integro bd -> integro (add_atividade hoje atividade descricao bd).
Proof.
  rewrite !integro_spec. intros H f Hf. cbn in Hf |- *.
  destruct (H f Hf) as [Hp (a & Ha & Ea)]. split; [exact Hp|].
  exists a. split; [|exact Ea]. apply in_or_app. now left.
Qed.

Lemma integro_registrar_frequencia (p : Participante) (a : Atividade)
    presenca data bd :
  In p (participantes bd) -> In a (atividades bd) -> integro bd ->
  integro (registrar_frequencia (p_id p) (a_id a) presenca data bd).
Proof.
  rewrite !integro_spec. intros Hp Ha H f Hf. cbn in Hf |- *.
  apply in_app_or in Hf. destruct Hf as [Hf | [<- | []]]; [auto|].
  cbn. split; [now exists p | now exists a].
Qed.

(** X5.  Referential integrity survives every delete (the two cascading
    deletes take the referring attendance rows along), every insert of a
    participant or an activity, and every attendance insert whose two ids are
    those of stored rows. *)
Theorem integro_preservado (bd : BD) :
  integro bd ->
  (forall i, integro (excluir_participante i bd)) /\
  (forall i, integro (excluir_atividade i bd)) /\
  (forall i, integro (excluir_frequencia i bd)) /\
  (forall hoje nome idade genero escolaridade,
     integro (add_participante hoje nome idade genero escolaridade bd)) /\
  (forall hoje atividade descricao,
     integro (add_atividade hoje atividade descricao bd)) /\
  (forall p a presenca data,
     In p (participantes bd) -> In a (atividades bd) ->
     integro (registrar_frequencia (p_id p) (a_id a) presenca data bd)).
Proof.
  intros H. repeat split; intros.
  - now apply integro_excluir_participante.
  - now apply integro_excluir_atividade.
  - now apply integro_excluir_frequencia.
  - now apply integro_add_participante.
  - now apply integro_add_atividade.
  - now apply integro_registrar_frequencia.
Qed.

Lemma filter_app_novo {A : Type} (k : A -> Z) (s : Z) (l : list A) (x : A) :
  k x = novo_id s (map k l) ->
  filter (fun y => negb (k y =? k x)) (l ++ [x]) = l.
Proof.
  intros E. rewrite filter_app. cbn [filter].
  rewrite Z.eqb_refl. cbn [negb]. rewrite app_nil_r.
  apply filter_negb_eqb_ausente. intros y Hy.
  pose proof (novo_id_maior s (map k l) (k y) (in_map k l y Hy)). lia.
Qed.

(** X6.  Insert, then delete what was inserted: the three tables are back
    as they were (only the key counter has moved).  For a participant or an
    activity this needs referential integrity: an attendance row already
    referring to the id about to be given out would be deleted with it. *)
Theorem inserir_e_excluir_restaura
    (bd : BD) (hoje : Py.date)
    (nome genero escolaridade atividade descricao data : string)
    (idade pid aid presenca : Z) :
  integro bd ->
  (let bd1 := add_participante hoje nome idade genero escolaridade bd in
   let bd2 := excluir_participante (seq_participantes bd1) bd1 in
   participantes bd2 = participantes bd /\
   atividades bd2 = atividades bd /\ frequencia bd2 = frequencia bd) /\
  (let bd1 := add_atividade hoje atividade descricao bd in
   let bd2 := excluir_atividade (seq_atividades bd1) bd1 in
   participantes bd2 = participantes bd /\
   atividades bd2 = atividades bd /\ frequencia bd2 = frequencia bd) /\
  (let bd1 := registrar_frequencia pid aid presenca data bd in
   let bd2 := excluir_frequencia (seq_frequencia bd1) bd1 in
   participantes bd2 = participantes bd /\
   atividades bd2 = atividades bd /\ frequencia bd2 = frequencia bd).
Proof.
  intros H. rewrite integro_spec in H. cbn. repeat split.
  - apply (filter_app_novo p_id (seq_participantes bd) _
             (mkParticipante _ nome idade genero escolaridade _)).
    reflexivity.
  - apply filter_negb_eqb_ausente. intros f Hf.
    destruct (H f Hf) as [(p & Hp & <-) _].
    pose proof (novo_id_maior (seq_participantes bd) _ _
                  (in_map p_id _ p Hp)). lia.
  - apply (filter_app_novo a_id (seq_atividades bd) _
             (mkAtividade _ atividade descricao _)).
    reflexivity.
  - apply filter_negb_eqb_ausente. intros f Hf.
    destruct (H f Hf) as [_ (a & Ha & <-)].
    pose proof (novo_id_maior (seq_atividades bd) _ _
                  (in_map a_id _ a Ha)). lia.
  - apply (filter_app_novo f_id (seq_frequencia bd) _
             (mkFrequencia _ pid aid presenca data)).
    reflexivity.
Qed.

(* ================================================================= *)
(** ** The attendance listing, line by line *)

Lemma In_juncao_fpa (bd : BD) (f : Frequencia) (p : Participante)
    (a : Atividade) :
  In (f, p, a) (juncao_fpa bd) <->
  In f (frequencia bd) /\ In p (participantes bd) /\ In a (atividades bd) /\
  f_participante_id f = p_id p /\ f_atividade_id f = a_id a.
Proof.
  unfold juncao_fpa. rewrite in_flat_map. split.
  - intros (f' & Hf & H). apply in_flat_map in H.
    destruct H as (p' & Hp & H). apply in_map_iff in H.
    destruct H as (a' & [= <- <- <-] & Ha).
    apply filter_In in Hp, Ha. destruct Hp as [Hp Ep], Ha as [Ha Ea].
    apply Z.eqb_eq in Ep, Ea. auto.
  - intros (Hf & Hp & Ha & Ep & Ea). exists f. split; [exact Hf|].
    apply in_flat_map. exists p. split.
    + apply filter_In. split; [exact Hp|]. now apply Z.eqb_eq.
    + apply in_map, filter_In. split; [exact Ha|]. now apply Z.eqb_eq.
Qed.

(** X7.  A line is in the attendance listing exactly when it is made of a
    stored attendance row, the name of a stored participant with the id the
    row refers to, and the name of a stored activity with the id the row
    refers to. *)
Theorem visualizar_frequencia_linhas
    (bd : BD) (i : Z) (nome atividade : string) (presenca : Z) (data : string) :
  In (i, nome, atividade, presenca, data) (visualizar_frequencia bd) <->
  exists f p a,
    In f (frequencia bd) /\ In p (participantes bd) /\ In a (atividades bd) /\
    f_participante_id f = p_id p /\ f_atividade_id f = a_id a /\
    i = f_id f /\ nome = p_nome p /\ atividade = a_atividade a /\
    presenca = f_presenca f /\ data = f_data_frequencia f.
Proof.
  unfold visualizar_frequencia. rewrite in_map_iff. split.
  - intros ([[f p] a] & [= <- <- <- <- <-] & H).
    apply order_by_In, In_juncao_fpa in H.
    exists f, p, a. intuition.
  - intros (f & p & a & Hf & Hp & Ha & Ep & Ea & -> & -> & -> & -> & ->).
    exists (f, p, a). split; [reflexivity|].
    apply order_by_In, In_juncao_fpa. auto.
Qed.

Lemma insere_ordenado_perm {A : Type} (chave : A -> string) (x : A)
    (l : list A) :
  Permutation (insere_ordenado chave x l) (x :: l).
Proof.
  induction l as [|y l IH]; cbn; [reflexivity|].
  destruct (String.leb (chave x) (chave y)); [reflexivity|].
  rewrite IH. apply perm_swap.
Qed.

(** [ORDER BY] rearranges the rows and nothing else. *)
Lemma order_by_perm {A : Type} (chave : A -> string) (l : list A) :
  Permutation (order_by chave l) l.
Proof.
  induction l as [|x l IH]; cbn; [reflexivity|].
  rewrite insere_ordenado_perm. now constructor.
Qed.

(** With unique keys and referential integrity the join pairs each
    attendance row with one participant and one activity. *)
Lemma juncao_fpa_integro (bd : BD) :
  bd_ok bd -> integro bd ->
  map (fun '(f, _, _) => f) (juncao_fpa bd) = frequencia bd.
Proof.
  intros (Hkp & Hka & _) Hi. rewrite integro_spec in Hi.
  unfold juncao_fpa.
  induction (frequencia bd) as [|f l IH]; [reflexivity|].
  cbn [flat_map]. rewrite map_app.
  rewrite IH by (intros g Hg; apply Hi; now right).
  destruct (Hi f (or_introl eq_refl)) as [(p & Hp & Ep) (a & Ha & Ea)].
  rewrite <- Ep, <- Ea.
  rewrite (filter_chave p_id _ p Hkp Hp), (filter_chave a_id _ a Hka Ha).
  reflexivity.
Qed.

(** X8.  With unique keys and referential integrity the attendance listing
    has exactly one line for each attendance row: the ids of its lines are
    the ids of the table, rearranged. *)
Theorem visualizar_frequencia_uma_linha_por_registro (bd : BD) :
  bd_ok bd -> integro bd ->
  Permutation
    (map (fun r : Z * string * string * Z * string =>
            fst (fst (fst (fst r))))
         (visualizar_frequencia bd))
    (map f_id (frequencia bd)).
Proof.
  intros Hk Hi. unfold visualizar_frequencia.
  rewrite <- (juncao_fpa_integro bd Hk Hi), !map_map.
  erewrite (map_ext _ (fun x => f_id (let '(f, _, _) := x in f)))
    by (intros [[f p] a]; reflexivity).
  apply Permutation_map, order_by_perm.
Qed.

(* ================================================================= *)
(** ** The report: groups, order and counts *)

Lemma string_compare_refl (s : string) : String.compare s s = Eq.
Proof.
  induction s as [|c s IH]; cbn; [reflexivity|].
  unfold Ascii.compare. now rewrite N.compare_refl.
Qed.

Lemma string_compare_lt_leb (s t : string) :
  String.compare s t = Lt -> String.leb s t = true.
Proof. unfold String.leb. now intros ->. Qed.

Lemma string_compare_lt_trans (s t u : string) :
  String.compare s t = Lt -> String.compare t u = Lt ->
  String.compare s u = Lt.
Proof.
  intros H1 H2.
  pose proof (string_leb_trans s t u (string_compare_lt_leb _ _ H1)
                (string_compare_lt_leb _ _ H2)) as H.
  unfold String.leb in H.
  destruct (String.compare s u) eqn:E; [|reflexivity|discriminate].
  apply String.compare_eq_iff in E. subst u.
  rewrite String.compare_antisym, H1 in H2. discriminate.
Qed.

Lemma cmp_grupo_refl (g : Grupo) : cmp_grupo g g = Eq.
Proof. unfold cmp_grupo. now rewrite !string_compare_refl. Qed.

Lemma cmp_grupo_antisym (g h : Grupo) :
  cmp_grupo g h = CompOpp (cmp_grupo h g).
Proof.
  unfold cmp_grupo.
  rewrite (String.compare_antisym (snd g)), (String.compare_antisym (fst g)).
  now destruct (String.compare (snd h) (snd g)).
Qed.

Lemma cmp_grupo_lt_trans (g h k : Grupo) :
  cmp_grupo g h = Lt -> cmp_grupo h k = Lt -> cmp_grupo g k = Lt.
Proof.
  unfold cmp_grupo.
  destruct (String.compare (snd g) (snd h)) eqn:E1; try discriminate;
    destruct (String.compare (snd h) (snd k)) eqn:E2; try discriminate;
    intros H1 H2.
  - apply String.compare_eq_iff in E1, E2. rewrite E1, E2.
    rewrite string_compare_refl.
    now apply string_compare_lt_trans with (fst h).
  - apply String.compare_eq_iff in E1. now rewrite E1, E2.
  - apply String.compare_eq_iff in E2. now rewrite <- E2, E1.
  - now rewrite (string_compare_lt_trans _ _ _ E1 E2).
Qed.

Lemma insere_grupo_sorted (g : Grupo) (l : list Grupo) :
  StronglySorted (fun x y => cmp_grupo x y = Lt) l ->
  StronglySorted (fun x y => cmp_grupo x y = Lt) (insere_grupo g l).
Proof.
  induction 1 as [|h l Hl IH Hh]; cbn.
  - repeat constructor.
  - destruct (cmp_grupo g h) eqn:E.
    + now constructor.
    + constructor; [now constructor|].
      constructor; [exact E|].
      eapply Forall_impl; [|exact Hh].
      intros k Hk. now apply cmp_grupo_lt_trans with h.
    + constructor; [exact IH|].
      apply Forall_forall. intros k Hk.
      apply insere_grupo_In in Hk. destruct Hk as [-> | Hk].
      * rewrite cmp_grupo_antisym, E. reflexivity.
      * rewrite Forall_forall in Hh. now apply Hh.
Qed.

(** The groups come out in strictly increasing order of (date, name). *)
Lemma grupos_sorted (linhas : list Grupo) :
  StronglySorted (fun x y => cmp_grupo x y = Lt) (grupos linhas).
Proof.
  induction linhas as [|g l IH]; cbn; [constructor|].
  now apply insere_grupo_sorted.
Qed.

Lemma grupos_NoDup (linhas : list Grupo) : NoDup (grupos linhas).
Proof.
  induction (grupos_sorted linhas) as [|g l Hl IH Hg]; constructor; [|exact IH].
  intros Hin. rewrite Forall_forall in Hg. specialize (Hg g Hin).
  rewrite cmp_grupo_refl in Hg. discriminate.
Qed.

Lemma consulta_presenca_grupos (bd : BD) :
  map fst (consulta_presenca bd) = grupos (map grupo_de (presentes bd)).
Proof.
  unfold consulta_presenca. rewrite map_map. cbn [fst].
  erewrite map_ext; [apply map_id|].
  intros [a d]. reflexivity.
Qed.

(** What the date conversion does to the fetched rows, row by row. *)
Lemma converte_datas_Forall2 (linhas : list (string * string * Z))
    (df : DataFrame) :
  converte_datas linhas = Some df ->
  Forall2 (fun t r =>
             fst (fst r) = fst (fst t) /\
             Pandas.to_date (snd (fst t)) = Some (snd (fst r)) /\
             snd r = snd t)
          linhas df.
Proof.
  revert df. induction linhas as [|[[a t] n] l IH]; cbn [converte_datas];
    intros df H.
  - injection H as <-. constructor.
  - destruct (Pandas.to_date t) as [d|] eqn:Et; [|discriminate].
    destruct (converte_datas l) as [r'|]; [|discriminate].
    injection H as <-. constructor; [cbn; auto|]. now apply IH.
Qed.

Lemma Forall2_In_dir {A B : Type} (R : A -> B -> Prop) (l : list A)
    (l' : list B) (y : B) :
  Forall2 R l l' -> In y l' -> exists x, In x l /\ R x y.
Proof.
  induction 1 as [|x y' l l' Hxy Hl IH]; intros Hin; [destruct Hin|].
  destruct Hin as [<- | Hin].
  - exists x. split; [now left|exact Hxy].
  - destruct (IH Hin) as (x' & Hx' & Hr). exists x'. split; [now right|exact Hr].
Qed.

(** The frame the model builds from the fetched rows repeats no (name,
    date) pair. *)
Lemma converte_datas_NoDup (bd : BD) (df : DataFrame) :
  obter_dados_participantes_por_atividade bd = Some df -> NoDup (map fst df).
Proof.
  assert (Hn : NoDup (map fst (consulta_presenca bd)))
    by (rewrite consulta_presenca_grupos; apply grupos_NoDup).
  intros Hdf. apply converte_datas_Forall2 in Hdf.
  induction Hdf as [|t r l l' (Ea & Ed & _) Hl IH]; cbn [map]; [constructor|].
  cbn [map] in Hn. apply NoDup_cons_iff in Hn. destruct Hn as [Hnot Hn].
  constructor; [|now apply IH].
  intros Hin. apply Hnot.
  apply in_map_iff in Hin. destruct Hin as (r' & Er & Hr').
  destruct (Forall2_In_dir _ _ _ _ Hl Hr') as (t' & Ht' & Ea' & Ed' & _).
  apply in_map_iff. exists t'. split; [|exact Ht'].
  destruct t as [[a s] n], t' as [[a' s'] n'], r as [[b d] m],
    r' as [[b' d'] m'].
  cbn in *. injection Er as -> ->. subst.
  f_equal. now apply PandasFacts.to_date_inj with d.
Qed.

(** X9.  The rows the report query fetches never repeat an (activity name,
    date text) pair, for every database.  When the record dates are stored
    as ISO texts, the frame is returned and never repeats an (activity name,
    date) pair, which is what [df.pivot] in [plotar_grafico_barras] needs in
    order not to raise. *)
Theorem relatorio_sem_grupos_repetidos (bd : BD) :
  NoDup (map fst (consulta_presenca bd)) /\
  (datas_iso bd ->
   exists df, obter_dados_participantes_por_atividade bd = Some df /\
              NoDup (map fst df)).
Proof.
  split.
  - rewrite consulta_presenca_grupos. apply grupos_NoDup.
  - intros H. destruct (obter_dados_datas_iso bd H) as [df Hdf].
    exists df. split; [exact Hdf|]. now apply converte_datas_NoDup with bd.
Qed.

Lemma to_date_date_ok (s : string) (d : Py.date) :
  Pandas.to_date s = Some d -> Py.date_ok d = true.
Proof.
  unfold Pandas.to_date.
  do 10 (destruct s as [|? s]; [discriminate|]).
  destruct s; [|discriminate].
  destruct (_ && _); [|discriminate].
  destruct (Py.le2 a a0); [|discriminate].
  destruct (Py.le2 a1 a2); [|discriminate].
  destruct (Py.le2 a4 a5); [|discriminate].
  destruct (Py.le2 a7 a8); [|discriminate].
  destruct (Pandas.timestamp_ok _) eqn:E; [|discriminate].
  intros H. assert (Hd : d = Py.mkdate (100 * z + z0) z1 z2) by congruence.
  subst d. unfold Pandas.timestamp_ok in E.
  apply andb_true_iff in E. destruct E as [E _].
  apply andb_true_iff in E. apply E.
Qed.

(** X10.  The rows the report query fetches are in non-decreasing order of
    the date text ([ORDER BY f.data_frequencia]), for every database.  When
    the record dates are stored as ISO texts, the frame is returned and is
    in non-decreasing order of the date. *)
Theorem relatorio_em_ordem_de_data (bd : BD) :
  StronglySorted
    (fun r1 r2 : string * string * Z =>
       String.leb (snd (fst r1)) (snd (fst r2)) = true)
    (consulta_presenca bd) /\
  (datas_iso bd ->
   exists df,
     obter_dados_participantes_por_atividade bd = Some df /\
     StronglySorted
       (fun r1 r2 : string * Py.date * Z =>
          Py.date_leb (snd (fst r1)) (snd (fst r2)) = true)
       df).
Proof.
  assert (Hs : StronglySorted
            (fun r1 r2 : string * string * Z =>
               String.leb (snd (fst r1)) (snd (fst r2)) = true)
            (consulta_presenca bd)).
  { unfold consulta_presenca.
    set (linhas := map grupo_de (presentes bd)).
    induction (grupos_sorted linhas) as [|g l Hl IH Hg]; cbn [map];
      constructor; [exact IH|].
    apply Forall_forall. intros r Hr.
    apply in_map_iff in Hr. destruct Hr as (h & <- & Hh).
    rewrite Forall_forall in Hg. specialize (Hg h Hh).
    cbn [fst snd]. unfold cmp_grupo in Hg. unfold String.leb.
    destruct (String.compare (snd g) (snd h)); congruence. }
  split; [exact Hs|].
  intros Hiso. destruct (obter_dados_datas_iso bd Hiso) as [df Hdf].
  exists df. split; [exact Hdf|].
  apply converte_datas_Forall2 in Hdf.
  induction Hdf as [|t r l l' (_ & Ed & _) Hl IH]; [constructor|].
  apply StronglySorted_inv in Hs. destruct Hs as [Hs Ht].
  constructor; [now apply IH|].
  apply Forall_forall. intros r' Hr'.
  destruct (Forall2_In_dir _ _ _ _ Hl Hr') as (t' & Ht' & _ & Ed' & _).
  rewrite Forall_forall in Ht. specialize (Ht t' Ht').
  rewrite (PandasFacts.to_date_isoformat _ _ Ed),
    (PandasFacts.to_date_isoformat _ _ Ed') in Ht.
  rewrite <- PyFacts.isoformat_leb; eauto using to_date_date_ok.
Qed.

Lemma soma_indicador (x : Grupo) (l : list Grupo) :
  NoDup l -> In x l ->
  fold_right (fun g acc => (if grupo_eqb g x then 1 else 0) + acc) 0 l = 1.
Proof.
  induction 1 as [|g l Hg Hl IH]; intros Hin; [destruct Hin|].
  cbn [fold_right]. destruct Hin as [-> | Hin].
  - rewrite grupo_eqb_refl.
    assert (E : fold_right
              (fun g acc => (if grupo_eqb g x then 1 else 0) + acc) 0 l = 0).
    { clear IH Hl. induction l as [|h l IHl]; [reflexivity|].
      cbn [fold_right]. rewrite grupo_eqb_neq.
      - rewrite IHl; [reflexivity|]. intros H. apply Hg. now right.
      - intros ->. apply Hg. now left. }
    lia.
  - rewrite grupo_eqb_neq by (intros ->; contradiction).
    rewrite IH by exact Hin. reflexivity.
Qed.

Lemma grupo_eqb_sym (g h : Grupo) : grupo_eqb g h = grupo_eqb h g.
Proof.
  unfold grupo_eqb. now rewrite (String.eqb_sym (fst g)), (String.eqb_sym (snd g)).
Qed.

(** Over a list of distinct groups that covers the rows, the counts add up
    to the number of rows. *)
Lemma soma_conta (gs linhas : list Grupo) :
  NoDup gs -> (forall x, In x linhas -> In x gs) ->
  fold_right (fun g acc => conta g linhas + acc) 0 gs =
  Z.of_nat (List.length linhas).
Proof.
  intros Hn. induction linhas as [|x l IH]; intros Hc.
  - clear Hn Hc. induction gs as [|g gs IHg]; [reflexivity|].
    cbn [fold_right]. rewrite IHg. reflexivity.
  - assert (E : fold_right (fun g acc => conta g (x :: l) + acc) 0 gs =
                fold_right (fun g acc =>
                              (if grupo_eqb g x then 1 else 0) + acc) 0 gs +
                fold_right (fun g acc => conta g l + acc) 0 gs).
    { clear. induction gs as [|g gs IHg]; [reflexivity|].
      cbn [fold_right]. rewrite IHg, conta_cons. lia. }
    rewrite E, soma_indicador, IH; auto.
    + cbn [List.length]. lia.
    + intros y Hy. apply Hc. now right.
    + apply Hc. now left.
Qed.

Lemma total_presentes_converte (linhas : list (string * string * Z))
    (df : DataFrame) :
  converte_datas linhas = Some df ->
  total_presentes df = total_presentes linhas.
Proof.
  intros H. apply converte_datas_Forall2 in H.
  induction H as [|t r l l' (_ & _ & E) Hl IH]; [reflexivity|].
  unfold total_presentes in *. cbn [fold_right]. now rewrite IH, E.
Qed.

(** With unique activity ids, each attendance row that is marked present
    and whose activity exists is one joined row of the report. *)
Lemma length_presentes (bd : BD) :
  bd_ok bd ->
  List.length (presentes bd) = List.length (presencas_contadas bd).
Proof.
  intros (_ & Ha & _). unfold presentes, presencas_contadas, juncao_fa.
  induction (frequencia bd) as [|f l IH]; [reflexivity|].
  cbn [flat_map filter]. rewrite filter_app, length_app, IH.
  destruct (existsb (fun a => f_atividade_id f =? a_id a) (atividades bd))
    eqn:E.
  - apply existsb_exists in E. destruct E as (a & Hin & Ea).
    apply Z.eqb_eq in Ea. rewrite Ea.
    rewrite (filter_chave a_id (atividades bd) a Ha Hin).
    cbn [map filter]. rewrite andb_true_r.
    destruct (f_presenca f =? 1); reflexivity.
  - rewrite (filter_nenhum _ (atividades bd)).
    + cbn [map filter]. now rewrite andb_false_r.
    + intros a Hin. destruct (f_atividade_id f =? a_id a) eqn:Ea;
        [|reflexivity].
      rewrite <- E. symmetry. apply existsb_exists. now exists a.
Qed.

(** X11.  In a database with unique ids, every row of the report counts at
    least one attendance row, and the counts add up to the number of rows of
    the table [frequencia] that are marked present and whose activity
    exists: none is counted twice and none is lost.  The frame, when it is
    built, carries the same counts. *)
Theorem relatorio_conta_cada_presenca (bd : BD) :
  bd_ok bd ->
  (forall r, In r (consulta_presenca bd) -> 1 <= snd r) /\
  total_presentes (consulta_presenca bd) =
    Z.of_nat (List.length (presencas_contadas bd)) /\
  forall df, obter_dados_participantes_por_atividade bd = Some df ->
    (forall r, In r df -> 1 <= snd r) /\
    total_presentes df = Z.of_nat (List.length (presencas_contadas bd)).
Proof.
  intros Hok.
  assert (H1 : forall r, In r (consulta_presenca bd) -> 1 <= snd r).
  { intros [[a d] n] Hr. apply In_consulta_presenca in Hr.
    destruct Hr as [Hin ->]. cbn [snd]. unfold conta.
    apply in_split in Hin. destruct Hin as (l1 & l2 & ->).
    rewrite filter_app. cbn [filter]. rewrite grupo_eqb_refl.
    rewrite length_app. cbn [List.length]. lia. }
  assert (H2 : total_presentes (consulta_presenca bd) =
               Z.of_nat (List.length (presencas_contadas bd))).
  { rewrite <- (length_presentes bd Hok).
    unfold consulta_presenca, total_presentes.
    set (linhas := map grupo_de (presentes bd)).
    replace (List.length (presentes bd)) with (List.length linhas)
      by apply length_map.
    rewrite <- (soma_conta (grupos linhas) linhas).
    - induction (grupos linhas) as [|g gs IH]; [reflexivity|].
      cbn [map fold_right snd]. now rewrite IH.
    - apply grupos_NoDup.
    - intros x Hx. now apply grupos_In. }
  split; [exact H1|]. split; [exact H2|].
  intros df Hdf. split.
  - intros r Hr.
    destruct (Forall2_In_dir _ _ _ _ (converte_datas_Forall2 _ _ Hdf) Hr)
      as (t & Ht & _ & _ & ->).
    now apply H1.
  - now rewrite (total_presentes_converte _ _ Hdf).
Qed.

(* ================================================================= *)
(** ** The report against the listing *)

Lemma Permutation_filter_length {A : Type} (q : A -> bool) (l l' : list A) :
  Permutation l l' ->
  List.length (filter q l) = List.length (filter q l').
Proof.
  induction 1 as [|x l l' H IH|x y l|l l' l'' H1 IH1 H2 IH2]; cbn [filter].
  - reflexivity.
  - destruct (q x); cbn [List.length]; now rewrite IH.
  - destruct (q x), (q y); reflexivity.
  - now rewrite IH1.
Qed.

(** With unique keys and referential integrity, dropping the participant
    from the three-way join gives the two-way join of the report. *)
Lemma juncao_fa_de_fpa (bd : BD) :
  bd_ok bd -> integro bd ->
  map (fun '(f, _, a) => (f, a)) (juncao_fpa bd) = juncao_fa bd.
Proof.
  intros (Hkp & _ & _) Hi. rewrite integro_spec in Hi.
  unfold juncao_fpa, juncao_fa.
  induction (frequencia bd) as [|f l IH]; [reflexivity|].
  cbn [flat_map]. rewrite map_app.
  rewrite IH by (intros g Hg; apply Hi; now right).
  destruct (Hi f (or_introl eq_refl)) as [(p & Hp & Ep) _].
  rewrite <- Ep, (filter_chave p_id _ p Hkp Hp). cbn [flat_map].
  now rewrite app_nil_r, map_map.
Qed.

Lemma conta_na_juncao (g : Grupo)
    (J : list (Frequencia * Participante * Atividade)) :
  List.length
    (filter (fun '(_, _, atividade, presenca, data) =>
               (presenca =? 1) && grupo_eqb g (atividade, data))
       (map (fun '(f, p, a) =>
               (f_id f, p_nome p, a_atividade a, f_presenca f,
                f_data_frequencia f)) J)) =
  List.length
    (filter (grupo_eqb g)
       (map grupo_de
          (filter (fun '(f, _) => f_presenca f =? 1)
             (map (fun '(f, _, a) => (f, a)) J)))).
Proof.
  induction J as [|[[f p] a] J IH]; [reflexivity|].
  cbn [map filter]. destruct (f_presenca f =? 1); cbn [andb map filter].
  - unfold grupo_de at 1. cbn [fst snd].
    destruct (grupo_eqb g (a_atividade a, f_data_frequencia f));
      cbn [List.length]; now rewrite IH.
  - exact IH.
Qed.

(** X12.  With unique keys and referential integrity the report and the
    listing agree: the count the query gives for an activity name and a date
    is the number of lines of the attendance listing with that name and date
    that are marked present. *)
Theorem relatorio_confere_com_listagem (bd : BD) (g : Grupo) :
  bd_ok bd -> integro bd ->
  num_presentes_consulta (consulta_presenca bd) g =
  presentes_na_listagem (visualizar_frequencia bd) g.
Proof.
  intros Hk Hi.
  rewrite num_presentes_consulta_conta.
  unfold presentes_na_listagem, visualizar_frequencia, conta, presentes.
  f_equal.
  rewrite <- (juncao_fa_de_fpa bd Hk Hi), <- conta_na_juncao.
  rewrite !filter_map_swap, !length_map.
  apply Permutation_filter_length. symmetry. apply order_by_perm.
Qed.

(* ================================================================= *)
(** ** The screen "Registrar Frequência": every run *)

Lemma botao_registrar_sem_efeito e (op oa : option Z) presenca data bd :
  registrar_clicado e = false \/ op = None \/ oa = None ->
  exists evs,
    botao_registrar e op oa presenca data bd = Some (tt, bd, evs) /\
    sem_chamada evs.
Proof.
  intros H. unfold botao_registrar, bind, mostra, ret.
  destruct (registrar_clicado e) eqn:Hc.
  - assert (E : match op, oa with
                | Some _, Some _ => False
                | _, _ => True
                end).
    { destruct H as [H | [-> | ->]]; [discriminate|exact I|now destruct op]. }
    destruct op, oa; try contradiction;
      (eexists; split; [reflexivity|];
       intros p a pr d Hin; cbn in Hin;
       repeat (destruct Hin as [Hin | Hin]; [discriminate Hin|]);
       exact Hin).
  - eexists. split; [reflexivity|].
    intros p a pr d Hin. cbn in Hin.
    repeat (destruct Hin as [Hin | Hin]; [discriminate Hin|]).
    exact Hin.
Qed.

(** Without a click, or with nothing to select in one of the boxes, a run
    leaves the database as it is and makes no call. *)
Lemma tela_registrar_frequencia_sem_efeito (e : Entradas) (bd : BD) :
  registrar_clicado e = false \/ participantes bd = [] \/ atividades bd = [] ->
  exists evs,
    tela_registrar_frequencia e bd = Some (tt, bd, evs) /\ sem_chamada evs.
Proof.
  intros H.
  destruct (escolhe_participante_ok e (get_participantes_dropdown bd) bd)
    as (op & ev1 & E1 & S1 & N1 & _).
  destruct (escolhe_atividade_ok e (get_atividades_dropdown bd) bd)
    as (oa & ev2 & E2 & S2 & N2 & _).
  assert (Hb : registrar_clicado e = false \/ op = None \/ oa = None).
  { unfold get_participantes_dropdown, get_atividades_dropdown in N1, N2.
    destruct H as [H | [H | H]]; [auto|rewrite H in *; auto ..]. }
  unfold tela_registrar_frequencia, bind at 1 2 3 4 5, mostra at 1, consulta.
  rewrite E1, E2.
  cbv [bind selectbox mostra ret].
  match goal with
  | |- context [botao_registrar e op oa ?pr ?d bd] =>
      destruct (botao_registrar_sem_efeito e op oa pr d bd Hb)
        as (ev3 & E3 & S3); rewrite E3
  end.
  eexists. split; [reflexivity|].
  cbn [app]. apply (sem_chamada_app [_]).
  { intros p a pr d [Hin | []]. discriminate Hin. }
  apply sem_chamada_app; [exact S1|].
  apply sem_chamada_app; [exact S2|].
  apply (sem_chamada_app [_]).
  { intros p a pr d [Hin | []]. discriminate Hin. }
  apply (sem_chamada_app [_]); [|exact S3].
  intros p a pr d [Hin | []]. discriminate Hin.
Qed.

(** The two outcomes of a run. *)
Lemma tela_registrar_frequencia_casos (e : Entradas) (bd : BD) :
  exists bd' evs,
    tela_registrar_frequencia e bd = Some (tt, bd', evs) /\
    ((bd' = bd /\ sem_chamada evs /\
      (registrar_clicado e = false \/
       participantes bd = [] \/ atividades bd = [])) \/
     (registrar_clicado e = true /\
      exists p a,
        In p (participantes bd) /\ In a (atividades bd) /\
        let presenca :=
          match presenca_escolhida e with 1%nat => 0 | _ => 1 end in
        bd' = registrar_frequencia (p_id p) (a_id a) presenca
                (Py.isoformat (data_escolhida e)) bd /\
        In (chama_registrar_frequencia (p_id p) (a_id a) presenca
              (data_escolhida e)) evs)).
Proof.
  assert (Hcase : (registrar_clicado e = false \/
                   participantes bd = [] \/ atividades bd = []) \/
                  (registrar_clicado e = true /\
                   participantes bd <> [] /\ atividades bd <> [])).
  { destruct (registrar_clicado e); [|auto].
    destruct (participantes bd); [auto|].
    destruct (atividades bd); [auto|].
    right. repeat split; discriminate. }
  destruct Hcase as [H | (Hc & Hp & Ha)].
  - destruct (tela_registrar_frequencia_sem_efeito e bd H) as (evs & E & S).
    exists bd, evs. split; [exact E|]. left. auto.
  - destruct (tela_registrar_frequencia_registra e bd Hc Hp Ha)
      as (p & a & evs & Hip & Hia & E & Hev).
    eexists _, evs. split; [exact E|]. right. split; [exact Hc|].
    exists p, a. auto.
Qed.

(** X13.  A run of the screen never raises, whatever the operator selected
    and whatever the names stored (commas and colons included).  Either it
    leaves the database as it is and makes no call (no click, or nothing to
    select in one of the boxes), or, on a click, it stores exactly one
    attendance row: for a stored participant and a stored activity, with
    presence 1 for "Presente" and 0 for "Ausente", dated with the ISO text of
    the date input. *)
Theorem tela_registrar_frequencia_efeito (e : Entradas) (bd : BD) :
  exists bd' evs,
    tela_registrar_frequencia e bd = Some (tt, bd', evs) /\
    ((bd' = bd /\ sem_chamada evs /\
      (registrar_clicado e = false \/
       participantes bd = [] \/ atividades bd = [])) \/
     (registrar_clicado e = true /\
      exists p a,
        In p (participantes bd) /\ In a (atividades bd) /\
        let presenca :=
          match presenca_escolhida e with 1%nat => 0 | _ => 1 end in
        bd' = registrar_frequencia (p_id p) (a_id a) presenca
                (Py.isoformat (data_escolhida e)) bd /\
        In (chama_registrar_frequencia (p_id p) (a_id a) presenca
              (data_escolhida e)) evs /\
        frequencia bd' =
          frequencia bd ++
            [mkFrequencia (seq_frequencia bd') (p_id p) (a_id a) presenca
               (Py.isoformat (data_escolhida e))])).
Proof.
  destruct (tela_registrar_frequencia_casos e bd)
    as (bd' & evs & E & [H | (Hc & p & a & Hp & Ha & Hbd & Hev)]).
  - exists bd', evs. split; [exact E|]. now left.
  - exists bd', evs. split; [exact E|]. right. split; [exact Hc|].
    exists p, a. repeat split; auto. cbn zeta in Hbd. now rewrite Hbd.
Qed.


(** X15.  The id read back from the label of a select box is the id the
    label was built from, for every participant and every activity, whatever
    text the name holds. *)
Theorem rotulo_devolve_id (i idade : Z) (nome : string) :
  id_do_rotulo (rotulo_participante (i, nome, idade)) = Some i /\
  id_do_rotulo (rotulo_atividade (i, nome)) = Some i.
Proof.
  split.
  - apply (id_do_rotulo_participante (i, nome, idade)).
  - apply (id_do_rotulo_atividade (i, nome)).
Qed.

(* ================================================================= *)
(** ** Further examples *)

Lemma bd_exemplo_ok : bd_ok bd_exemplo.
Proof. repeat split; reflexivity. Qed.

Lemma bd_exemplo_seq_ok : seq_ok bd_exemplo.
Proof. repeat split; reflexivity. Qed.

Lemma bd_exemplo_integro : integro bd_exemplo.
Proof. reflexivity. Qed.

(** Deleting Ana and entering somebody else: id 1 is not given out again. *)
Lemma id_excluido_nao_volta_exemplo :
  seq_ok bd_exemplo /\
  In 1 (map p_id (participantes bd_exemplo)) /\
  ~ In 1 (map p_id (participantes
       (add_participante dia_exemplo "Bia" 11 "Feminino" "6º ano"
          (excluir_participante 1 bd_exemplo)))).
Proof.
  split; [exact bd_exemplo_seq_ok|].
  assert (Hin : In 1 (map p_id (participantes bd_exemplo)))
    by (left; reflexivity).
  split; [exact Hin|].
  exact (proj1 (id_excluido_nao_volta bd_exemplo 1 dia_exemplo "Bia"
                  "Feminino" "6º ano" "" "" 11 bd_exemplo_seq_ok) Hin).
Defined.

(** Deleting the attendance row of the scenario. *)
Lemma excluir_frequencia_uma_linha_exemplo :
  bd_ok bd_exemplo /\ In linha_exemplo (frequencia bd_exemplo) /\
  S (List.length
       (frequencia (excluir_frequencia (f_id linha_exemplo) bd_exemplo))) =
  List.length (frequencia bd_exemplo).
Proof.
  assert (Hin : In linha_exemplo (frequencia bd_exemplo))
    by (left; reflexivity).
  split; [exact bd_exemplo_ok|]. split; [exact Hin|].
  exact (proj1 (proj2
    (excluir_frequencia_uma_linha bd_exemplo linha_exemplo
       bd_exemplo_ok Hin))).
Defined.

(** No attendance row of the scenario has id 9. *)
Lemma excluir_id_ausente_exemplo :
  (forall f, In f (frequencia bd_exemplo) -> f_id f <> 9) /\
  excluir_frequencia 9 bd_exemplo = bd_exemplo.
Proof.
  assert (H : forall f, In f (frequencia bd_exemplo) -> f_id f <> 9).
  { intros f [<- | []]. cbn. discriminate. }
  split; [exact H|].
  exact (proj1 (excluir_id_ausente bd_exemplo 9) H).
Defined.

(** Deleting Ana keeps the references of the scenario sound. *)
Lemma integro_preservado_exemplo :
  integro bd_exemplo /\ integro (excluir_participante 1 bd_exemplo).
Proof.
  split; [exact bd_exemplo_integro|].
  exact (proj1 (integro_preservado bd_exemplo bd_exemplo_integro) 1).
Defined.

(** Entering Bia in the scenario and deleting her again. *)
Lemma inserir_e_excluir_restaura_exemplo :
  integro bd_exemplo /\
  participantes
    (excluir_participante 2
       (add_participante dia_exemplo "Bia" 11 "Feminino" "6º ano"
          bd_exemplo)) =
  participantes bd_exemplo.
Proof.
  split; [exact bd_exemplo_integro|].
  exact (proj1 (proj1
    (inserir_e_excluir_restaura bd_exemplo dia_exemplo "Bia" "Feminino"
       "6º ano" "" "" "" 11 0 0 0 bd_exemplo_integro))).
Defined.

(** The listing of the scenario has the one id of its table. *)
Lemma visualizar_frequencia_uma_linha_por_registro_exemplo :
  bd_ok bd_exemplo /\ integro bd_exemplo /\
  Permutation
    (map (fun r : Z * string * string * Z * string =>
            fst (fst (fst (fst r))))
         (visualizar_frequencia bd_exemplo))
    (map f_id (frequencia bd_exemplo)).
Proof.
  split; [exact bd_exemplo_ok|]. split; [exact bd_exemplo_integro|].
  exact (visualizar_frequencia_uma_linha_por_registro bd_exemplo
           bd_exemplo_ok bd_exemplo_integro).
Defined.

(** The one record date of the scenario is the ISO text of 2024-03-01. *)
Lemma bd_exemplo_iso : datas_iso bd_exemplo.
Proof.
  intros f [<- | []]. exists (Py.mkdate 2024 3 1). split; reflexivity.
Qed.

(** The frame of the scenario. *)
Lemma relatorio_sem_grupos_repetidos_exemplo :
  datas_iso bd_exemplo /\
  exists df,
    obter_dados_participantes_por_atividade bd_exemplo = Some df /\
    NoDup (map fst df).
Proof.
  split; [exact bd_exemplo_iso|].
  exact (proj2 (relatorio_sem_grupos_repetidos bd_exemplo) bd_exemplo_iso).
Defined.

Lemma relatorio_em_ordem_de_data_exemplo :
  datas_iso bd_exemplo /\
  exists df,
    obter_dados_participantes_por_atividade bd_exemplo = Some df /\
    StronglySorted
      (fun r1 r2 : string * Py.date * Z =>
         Py.date_leb (snd (fst r1)) (snd (fst r2)) = true)
      df.
Proof.
  split; [exact bd_exemplo_iso|].
  exact (proj2 (relatorio_em_ordem_de_data bd_exemplo) bd_exemplo_iso).
Defined.

(** The scenario holds one present row, and the report counts one. *)
Lemma relatorio_conta_cada_presenca_exemplo :
  bd_ok bd_exemplo /\
  presencas_contadas bd_exemplo = [linha_exemplo] /\
  total_presentes (consulta_presenca bd_exemplo) = 1.
Proof.
  split; [exact bd_exemplo_ok|]. split; [reflexivity|].
  exact (proj1 (proj2 (relatorio_conta_cada_presenca bd_exemplo
                         bd_exemplo_ok))).
Defined.

(** Report and listing of the scenario, for Futebol on 2024-03-01. *)
Lemma relatorio_confere_com_listagem_exemplo :
  bd_ok bd_exemplo /\ integro bd_exemplo /\
  num_presentes_consulta (consulta_presenca bd_exemplo)
    ("Futebol", "2024-03-01") =
  presentes_na_listagem (visualizar_frequencia bd_exemplo)
    ("Futebol", "2024-03-01").
Proof.
  split; [exact bd_exemplo_ok|]. split; [exact bd_exemplo_integro|].
  exact (relatorio_confere_com_listagem bd_exemplo ("Futebol", "2024-03-01")
           bd_exemplo_ok bd_exemplo_integro).
Defined.


(* ================================================================= *)
(** ** Runs of the script: rules *)

Lemma garante_ret {A : Type} (bd : BD) (a : A) (Q : A -> BD -> Prop) :
  Q a bd -> garante bd (app_ret a) Q.
Proof. intros H. now exists a, bd, []. Qed.

Lemma garante_bind {A B : Type} (bd : BD) (m : App A) (k : A -> App B)
    (Q1 : A -> BD -> Prop) (Q2 : B -> BD -> Prop) :
  garante bd m Q1 ->
  (forall a bd1, Q1 a bd1 -> garante bd1 (k a) Q2) ->
  garante bd (app_bind m k) Q2.
Proof.
  intros (a & bd1 & ev1 & E1 & H1) Hk.
  destruct (Hk a bd1 H1) as (b & bd2 & ev2 & E2 & H2).
  exists b, bd2, (ev1 ++ ev2). split; [|exact H2].
  unfold app_bind. now rewrite E1, E2.
Qed.

Lemma garante_impl {A : Type} (bd : BD) (m : App A) (Q Q' : A -> BD -> Prop) :
  garante bd m Q -> (forall a bd', Q a bd' -> Q' a bd') -> garante bd m Q'.
Proof.
  intros (a & bd' & evs & E & H) HQ. exists a, bd', evs. auto.
Qed.

Lemma garante_desenha (bd : BD) (s : Saida) (Q : unit -> BD -> Prop) :
  Q tt bd -> garante bd (desenha s) Q.
Proof. intros H. now exists tt, bd, [s]. Qed.

Lemma garante_pergunta {A : Type} (bd : BD) (q : BD -> A)
    (Q : A -> BD -> Prop) :
  Q (q bd) bd -> garante bd (pergunta q) Q.
Proof. intros H. now exists (q bd), bd, []. Qed.

Lemma garante_calcula {A : Type} (bd : BD) (o : option A) (a : A)
    (Q : A -> BD -> Prop) :
  o = Some a -> Q a bd -> garante bd (calcula o) Q.
Proof. intros -> H. now exists a, bd, []. Qed.

Lemma garante_le_ou_levanta {A : Type} (bd : BD) (q : BD -> option A) (a : A)
    (Q : A -> BD -> Prop) :
  q bd = Some a -> Q a bd -> garante bd (le_ou_levanta q) Q.
Proof.
  intros E H. exists a, bd, []. split; [|exact H].
  unfold le_ou_levanta. now rewrite E.
Qed.

Lemma garante_faz (bd : BD) (c : Chamada) (Q : unit -> BD -> Prop) :
  Q tt (chama c bd) -> garante bd (faz c) Q.
Proof. intros H. now exists tt, (chama c bd), [chamada c]. Qed.

Lemma garante_eleva {A : Type} (bd bd' : BD) (t : Tela A) (a : A)
    (evs : list Evento) (Q : A -> BD -> Prop) :
  t bd = Some (a, bd', evs) -> Q a bd' -> garante bd (eleva t) Q.
Proof.
  intros E H. exists a, bd', (map elemento evs). split; [|exact H].
  unfold eleva. now rewrite E.
Qed.

Lemma garante_widget {A : Type} (bd : BD) (s : Saida) (v : A)
    (Q : A -> BD -> Prop) :
  Q v bd -> garante bd (app_bind (desenha s) (fun _ => app_ret v)) Q.
Proof. intros H. now exists v, bd, ([s] ++ []). Qed.

Lemma garante_selectbox (bd : BD) (rotulo : string) (opcoes : list string)
    (i : nat) (Q : string -> BD -> Prop) :
  Q (nth i opcoes (hd "" opcoes)) bd ->
  garante bd (eleva (selectbox rotulo opcoes i)) Q.
Proof.
  intros H. eapply garante_eleva; [reflexivity|exact H].
Qed.

Lemma devolve_desenha (bd : BD) (s : Saida) : devolve bd (desenha s) tt.
Proof. now apply garante_desenha. Qed.

Lemma devolve_pergunta {A : Type} (bd : BD) (q : BD -> A) :
  devolve bd (pergunta q) (q bd).
Proof. now apply garante_pergunta. Qed.

Lemma devolve_widget {A : Type} (bd : BD) (s : Saida) (v : A) :
  devolve bd (app_bind (desenha s) (fun _ => app_ret v)) v.
Proof. now apply garante_widget. Qed.

Lemma devolve_selectbox (bd : BD) (rotulo : string) (opcoes : list string)
    (i : nat) :
  devolve bd (eleva (selectbox rotulo opcoes i))
    (nth i opcoes (hd "" opcoes)).
Proof. now apply garante_selectbox. Qed.

Lemma devolve_write_todas (bd : BD) (linhas : list string) :
  devolve bd (write_todas linhas) tt.
Proof.
  unfold devolve. induction linhas as [|l r IH]; cbn [write_todas].
  - now apply garante_ret.
  - eapply garante_bind; [apply devolve_desenha|].
    intros a bd1 [_ ->]. exact IH.
Qed.

Lemma devolve_bind {A B : Type} (bd : BD) (m : App A) (k : A -> App B)
    (v : A) (Q : B -> BD -> Prop) :
  devolve bd m v -> garante bd (k v) Q -> garante bd (app_bind m k) Q.
Proof.
  intros Hm Hk. eapply garante_bind; [exact Hm|].
  now intros a bd1 [-> ->].
Qed.

(** An expression that does not raise, followed by the rest of the run. *)
Lemma calcula_bind {A B : Type} (bd : BD) (o : option A) (a : A)
    (k : A -> App B) (Q : B -> BD -> Prop) :
  o = Some a -> garante bd (k a) Q -> garante bd (app_bind (calcula o) k) Q.
Proof.
  intros E H. apply (devolve_bind bd _ k a); [|exact H].
  now apply (garante_calcula bd o a).
Qed.

(** A call followed by the rest of the run. *)
Lemma faz_bind {B : Type} (bd : BD) (c : Chamada) (k : unit -> App B)
    (Q : B -> BD -> Prop) :
  garante (chama c bd) (k tt) Q -> garante bd (app_bind (faz c) k) Q.
Proof.
  intros H.
  eapply (garante_bind bd (faz c) k (fun _ b => b = chama c bd)).
  - now apply garante_faz.
  - now intros [] bd1 ->.
Qed.

(** One more step of a run: an operation that leaves the database as it
    is. *)
Ltac segue :=
  eapply devolve_bind;
  [ first [ apply devolve_desenha | apply devolve_pergunta
          | apply devolve_widget | apply devolve_selectbox
          | apply devolve_write_todas ]
  | ].

(* ================================================================= *)
(** ** The two registration screens *)

(** What a run of each registration screen does to the database. *)
Lemma telas_de_cadastro_efeito_aux
    (hoje : Py.date) (ep : EntradasParticipante) (ea : EntradasAtividade)
    (bd : BD) :
  garante bd (tela_cadastrar_participante hoje ep)
    (fun _ bd' =>
       bd' = if cadastrar_participante_clicado ep
             then add_participante hoje (nome_digitado ep)
                    (Z.max 9 (Z.min 12 (idade_digitada ep)))
                    (nth (genero_escolhido ep) ["Masculino"; "Feminino"]
                       "Masculino")
                    (escolaridade_digitada ep) bd
             else bd) /\
  garante bd (tela_cadastrar_atividade hoje ea)
    (fun _ bd' =>
       bd' = if cadastrar_atividade_clicado ea
             then add_atividade hoje (atividade_digitada ea)
                    (descricao_digitada ea) bd
             else bd).
Proof.
  split.
  - unfold tela_cadastrar_participante, subheader, text_input, number_input,
      button.
    do 6 segue.
    destruct (cadastrar_participante_clicado ep).
    + apply faz_bind. now apply garante_desenha.
    + now apply garante_ret.
  - unfold tela_cadastrar_atividade, subheader, text_input, text_area, button.
    do 4 segue.
    destruct (cadastrar_atividade_clicado ea).
    + apply faz_bind. now apply garante_desenha.
    + now apply garante_ret.
Qed.

(** X16.  A run of "Cadastrar Participante" or "Cadastrar Atividade" never
    raises.  Without a click it leaves the database as it is; on a click it
    makes the one insert, with the texts as typed; the age stored is within
    9 .. 12 and the gender is one of the two options. *)
Theorem telas_de_cadastro_efeito
    (hoje : Py.date) (ep : EntradasParticipante) (ea : EntradasAtividade)
    (bd : BD) :
  let idade := Z.max 9 (Z.min 12 (idade_digitada ep)) in
  let genero :=
    nth (genero_escolhido ep) ["Masculino"; "Feminino"] "Masculino" in
  9 <= idade <= 12 /\
  (genero = "Masculino" \/ genero = "Feminino") /\
  garante bd (tela_cadastrar_participante hoje ep)
    (fun _ bd' =>
       bd' = if cadastrar_participante_clicado ep
             then add_participante hoje (nome_digitado ep) idade genero
                    (escolaridade_digitada ep) bd
             else bd) /\
  garante bd (tela_cadastrar_atividade hoje ea)
    (fun _ bd' =>
       bd' = if cadastrar_atividade_clicado ea
             then add_atividade hoje (atividade_digitada ea)
                    (descricao_digitada ea) bd
             else bd).
Proof.
  intros idade genero. split; [subst idade; lia|]. split.
  { subst genero. destruct (genero_escolhido ep) as [|[|n]]; cbn; auto.
    destruct n; auto. }
  apply telas_de_cadastro_efeito_aux.
Qed.

(* ================================================================= *)
(** ** The screen "Excluir Registro" *)

(** The id read back from the label of an attendance line. *)
Lemma id_do_rotulo_frequencia (f : Z * string * string * Z * string) :
  id_do_rotulo (rotulo_frequencia f) = Some (fst (fst (fst (fst f)))).
Proof.
  destruct f as [[[[i nome] atividade] presenca] data].
  apply id_do_rotulo_prefixo.
Qed.




(** A line of the listing comes from a stored attendance row whose two
    references exist. *)
Lemma linha_da_listagem (bd : BD) (l : Z * string * string * Z * string) :
  In l (visualizar_frequencia bd) ->
  exists f, In f (frequencia bd) /\ referencias_ok bd f = true /\
            fst (fst (fst (fst l))) = f_id f.
Proof.
  unfold visualizar_frequencia. intros H. apply in_map_iff in H.
  destruct H as ([[f p] a] & <- & H).
  apply order_by_In, In_juncao_fpa in H.
  destruct H as (Hf & Hp & Ha & Ep & Ea).
  exists f. split; [exact Hf|]. split; [|reflexivity].
  apply referencias_ok_spec. split; [now exists p | now exists a].
Qed.



(** The option a select box returns is the label of the row at the picked
    position. *)
Lemma selecionado_nth {A : Type} (rotulo : A -> string) (i : nat) (x : A)
    (l : list A) :
  nth i (rotulo x :: map rotulo l) (hd "" (rotulo x :: map rotulo l)) =
  rotulo (nth i (x :: l) x).
Proof. cbn [hd]. apply (map_nth rotulo (x :: l) x i). Qed.

Lemma painel_excluir_participante_exato (e : EntradasExcluir) (bd : BD) :
  garante bd (painel_excluir_participante e)
    (fun _ bd' => bd' = efeito_excluir_participante e bd).
Proof.
  unfold painel_excluir_participante, efeito_excluir_participante,
    linha_selecionada, checkbox, button, warning, success.
  segue. destruct (excluir_participante_marcado e) eqn:Hm;
    [|now apply garante_ret].
  segue. unfold get_participantes_dropdown.
  destruct (participantes bd) as [|p0 ps] eqn:Hps.
  { apply garante_desenha.
    now destruct (excluir_participante_clicado e). }
  cbn [map].
  change ((p_id p0, p_nome p0, p_idade p0)
          :: map (fun p => (p_id p, p_nome p, p_idade p)) ps)
    with (map (fun p => (p_id p, p_nome p, p_idade p)) (p0 :: ps)).
  rewrite map_map. segue.
  pose proof (selecionado_nth
                (fun p => rotulo_participante (p_id p, p_nome p, p_idade p))
                (participante_a_excluir e) p0 ps) as Esel.
  cbn [map]. rewrite Esel.
  eapply calcula_bind;
    [apply (id_do_rotulo_participante
              (p_id (nth (participante_a_excluir e) (p0 :: ps) p0),
               p_nome (nth (participante_a_excluir e) (p0 :: ps) p0),
               p_idade (nth (participante_a_excluir e) (p0 :: ps) p0)))|].
  cbn [fst].
  segue. destruct (excluir_participante_clicado e) eqn:Hc;
    [|now apply garante_ret].
  apply faz_bind, garante_desenha. reflexivity.
Qed.

Lemma painel_excluir_atividade_exato (e : EntradasExcluir) (bd : BD) :
  garante bd (painel_excluir_atividade e)
    (fun _ bd' => bd' = efeito_excluir_atividade e bd).
Proof.
  unfold painel_excluir_atividade, efeito_excluir_atividade,
    linha_selecionada, checkbox, button, warning, success.
  segue. destruct (excluir_atividade_marcado e) eqn:Hm;
    [|now apply garante_ret].
  segue. unfold get_atividades_dropdown.
  destruct (atividades bd) as [|a0 ats] eqn:Hats.
  { apply garante_desenha.
    now destruct (excluir_atividade_clicado e). }
  cbn [map].
  change ((a_id a0, a_atividade a0)
          :: map (fun a => (a_id a, a_atividade a)) ats)
    with (map (fun a => (a_id a, a_atividade a)) (a0 :: ats)).
  rewrite map_map. segue.
  pose proof (selecionado_nth
                (fun a => rotulo_atividade (a_id a, a_atividade a))
                (atividade_a_excluir e) a0 ats) as Esel.
  cbn [map]. rewrite Esel.
  eapply calcula_bind;
    [apply (id_do_rotulo_atividade
              (a_id (nth (atividade_a_excluir e) (a0 :: ats) a0),
               a_atividade (nth (atividade_a_excluir e) (a0 :: ats) a0)))|].
  cbn [fst].
  segue. destruct (excluir_atividade_clicado e) eqn:Hc;
    [|now apply garante_ret].
  apply faz_bind, garante_desenha. reflexivity.
Qed.

Lemma painel_excluir_frequencia_exato (e : EntradasExcluir) (bd : BD) :
  garante bd (painel_excluir_frequencia e)
    (fun _ bd' => bd' = efeito_excluir_frequencia e bd).
Proof.
  unfold painel_excluir_frequencia, efeito_excluir_frequencia,
    linha_selecionada, checkbox, button, warning, success.
  segue. destruct (excluir_frequencia_marcado e) eqn:Hm;
    [|now apply garante_ret].
  segue.
  destruct (visualizar_frequencia bd) as [|l0 ls] eqn:Hls.
  { apply garante_desenha.
    now destruct (excluir_frequencia_clicado e). }
  segue.
  pose proof (selecionado_nth rotulo_frequencia (frequencia_a_excluir e)
                l0 ls) as Esel.
  cbn [map]. rewrite Esel.
  eapply calcula_bind; [apply id_do_rotulo_frequencia|].
  segue. destruct (excluir_frequencia_clicado e) eqn:Hc;
    [|now apply garante_ret].
  apply faz_bind, garante_desenha. cbn [andb chama].
  now destruct (nth (frequencia_a_excluir e) (l0 :: ls) l0)
    as [[[[i nome] atividade] presenca] data].
Qed.

(** A row picked in a list is a row of the list. *)
Lemma linha_selecionada_In {A : Type} (i : nat) (l : list A) (x : A) :
  linha_selecionada i l = Some x -> In x l.
Proof.
  destruct l as [|y l]; [discriminate|]. cbn [linha_selecionada].
  intros [= <-]. apply (nth_hd_In i y l y).
Qed.

(** X17.  A run of "Excluir Registro" never raises, whatever the names
    stored, and its three panels run one after the other, each on the
    database the previous one left.  A panel whose box is checked and whose
    button is clicked deletes the row at the selected position of its list,
    read back from the label by its id: a participant with its attendance
    rows, an activity with its attendance rows, or the attendance row of a
    line of [visualizar_frequencia]; any other panel leaves the database as
    it is.  The third panel lists only attendance rows whose participant and
    activity exist, so it can delete no other. *)
Theorem tela_excluir_registro_efeito (e : EntradasExcluir) (bd : BD) :
  garante bd (tela_excluir_registro e)
    (fun _ bd' =>
       bd' = efeito_excluir_frequencia e
               (efeito_excluir_atividade e
                  (efeito_excluir_participante e bd))) /\
  (forall bd2 l,
     linha_selecionada (frequencia_a_excluir e) (visualizar_frequencia bd2) =
       Some l ->
     exists f, In f (frequencia bd2) /\ referencias_ok bd2 f = true /\
               fst (fst (fst (fst l))) = f_id f).
Proof.
  split.
  - unfold tela_excluir_registro, subheader. segue.
    eapply garante_bind; [apply painel_excluir_participante_exato|].
    intros [] bd1 ->.
    eapply garante_bind; [apply painel_excluir_atividade_exato|].
    intros [] bd2 ->.
    apply painel_excluir_frequencia_exato.
  - intros bd2 l H. apply linha_da_listagem.
    now apply linha_selecionada_In with (frequencia_a_excluir e).
Qed.

(* ================================================================= *)
(** ** The chart *)

Section RotulosFacts.
Context {A : Type} (cmp : A -> A -> comparison).
Hypothesis cmp_eq : forall x y, cmp x y = Eq -> x = y.
Hypothesis cmp_antisym : forall x y, cmp x y = CompOpp (cmp y x).
Hypothesis cmp_lt_trans :
  forall x y z, cmp x y = Lt -> cmp y z = Lt -> cmp x z = Lt.




End RotulosFacts.


Lemma date_compare_refl (a : Py.date) : Py.date_compare a a = Eq.
Proof. unfold Py.date_compare. now rewrite !Z.compare_refl. Qed.















(* ================================================================= *)
(** ** The screen "Relatórios" *)








(* ================================================================= *)
(** ** The script *)

(** X20.  Without a successful login a run of the module leaves in the
    file what [create_tables] leaves there (the database as it was when the
    file held the tables, the three empty tables otherwise) and draws the
    login form and one message, the error for a rejected login or the
    warning before any attempt, and nothing else: no function that writes
    rows is called. *)
Theorem script_sem_login (arquivo : option BD) (hoje : Py.date)
    (e : EntradasApp) :
  authentication_status e <> Some true ->
  exists msg,
    execucao arquivo hoje e =
      Some (tt, create_tables arquivo,
            [authenticator_login "main"; elemento msg]) /\
    (authentication_status e = Some false /\
     msg = st_error "Nome de usuário ou senha incorretos" \/
     authentication_status e = None /\
     msg = st_warning "Por favor, insira o nome de usuário e a senha").
Proof.
  intros H. unfold execucao, script.
  destruct (authentication_status e) as [[|]|]; [contradiction| |];
    eexists; split; try reflexivity; auto.
Qed.








(* ================================================================= *)
(** ** Examples of runs *)

(** In the scenario with Bia added, the first panel deletes the second
    participant of its list, Bia: Ana and the attendance row stay. *)
Lemma tela_excluir_registro_efeito_exemplo :
  garante bd_duas (tela_excluir_registro excluir_exemplo)
    (fun _ bd' => participantes bd' = [ana] /\
                  frequencia bd' = [linha_exemplo]).
Proof.
  eapply garante_impl;
    [exact (proj1 (tela_excluir_registro_efeito excluir_exemplo bd_duas))|].
  intros [] bd' ->. split; reflexivity.
Defined.



(** A run without login on the file of the scenario, and on a file without
    tables. *)
Lemma script_sem_login_exemplo :
  authentication_status (entradas_exemplo None) <> Some true /\
  (exists msg,
     execucao (Some bd_exemplo) dia_exemplo (entradas_exemplo None) =
       Some (tt, bd_exemplo, [authenticator_login "main"; elemento msg])) /\
  (exists msg,
     execucao None dia_exemplo (entradas_exemplo None) =
       Some (tt, bd_novo, [authenticator_login "main"; elemento msg])).
Proof.
  assert (H : authentication_status (entradas_exemplo None) <> Some true)
    by discriminate.
  split; [exact H|]. split.
  - destruct (script_sem_login (Some bd_exemplo) dia_exemplo
                (entradas_exemplo None) H) as (msg & E & _).
    now exists msg.
  - destruct (script_sem_login None dia_exemplo (entradas_exemplo None) H)
      as (msg & E & _).
    now exists msg.
Defined.



(* ================================================================= *)
(** ** The report after a cascading delete *)

Lemma total_presentes_consulta (bd : BD) :
  total_presentes (consulta_presenca bd) =
  Z.of_nat (List.length (presentes bd)).
Proof.
  unfold consulta_presenca, total_presentes.
  set (linhas := map grupo_de (presentes bd)).
  replace (List.length (presentes bd)) with (List.length linhas)
    by apply length_map.
  rewrite <- (soma_conta (grupos linhas) linhas).
  - induction (grupos linhas) as [|g gs IH]; [reflexivity|].
    cbn [map fold_right snd]. now rewrite IH.
  - apply grupos_NoDup.
  - intros x Hx. now apply grupos_In.
Qed.

Lemma filter_filter_comm {A : Type} (p q : A -> bool) (l : list A) :
  filter p (filter q l) = filter q (filter p l).
Proof.
  induction l as [|x l IH]; [reflexivity|].
  cbn [filter]. destruct (p x) eqn:Ep, (q x) eqn:Eq; cbn [filter];
    rewrite ?Ep, ?Eq, IH; reflexivity.
Qed.

Lemma filter_filter_impl {A : Type} (p q : A -> bool) (l : list A) :
  (forall x, In x l -> p x = true -> q x = true) ->
  filter p (filter q l) = filter p l.
Proof.
  intros H. induction l as [|x l IH]; [reflexivity|].
  cbn [filter]. destruct (q x) eqn:Eq; cbn [filter].
  - destruct (p x); rewrite IH; auto; intros y Hy; apply H; now right.
  - destruct (p x) eqn:Ep.
    + rewrite (H x (or_introl eq_refl) Ep) in Eq. discriminate.
    + apply IH. intros y Hy. apply H. now right.
Qed.

Lemma length_filter_negb {A : Type} (q : A -> bool) (l : list A) :
  Z.of_nat (List.length (filter (fun x => negb (q x)) l)) =
  Z.of_nat (List.length l) - Z.of_nat (List.length (filter q l)).
Proof.
  induction l as [|x l IH]; [reflexivity|].
  cbn [filter]. destruct (q x); cbn [negb List.length]; lia.
Qed.

(** The joined rows of the report after [excluir_atividade]: the rows of
    the other activities. *)
Lemma juncao_fa_excluir_atividade (i : Z) (bd : BD) :
  juncao_fa (excluir_atividade i bd) =
  filter (fun fa => negb (a_id (snd fa) =? i)) (juncao_fa bd).
Proof.
  unfold juncao_fa. cbn [excluir_atividade frequencia atividades].
  induction (frequencia bd) as [|f l IH]; [reflexivity|].
  cbn [filter flat_map]. rewrite filter_app, <- IH.
  destruct (f_atividade_id f =? i) eqn:E; cbn [negb flat_map].
  - apply Z.eqb_eq in E.
    rewrite (filter_nenhum _ (map _ _)); [reflexivity|].
    intros [f' a] H. apply in_map_iff in H.
    destruct H as (a' & [= <- <-] & Ha). apply filter_In in Ha.
    destruct Ha as [_ Ha]. apply Z.eqb_eq in Ha. cbn.
    apply negb_false_iff, Z.eqb_eq. congruence.
  - apply Z.eqb_neq in E. f_equal.
    rewrite filter_filter_impl.
    + symmetry. apply filter_todos. intros [f' a] H. apply in_map_iff in H.
      destruct H as (a' & [= <- <-] & Ha). apply filter_In in Ha.
      destruct Ha as [_ Ha]. apply Z.eqb_eq in Ha. cbn.
      apply negb_true_iff, Z.eqb_neq. congruence.
    + intros a _ Ha. apply Z.eqb_eq in Ha.
      apply negb_true_iff, Z.eqb_neq. congruence.
Qed.

(** The joined rows of the report after [excluir_participante]: the rows of
    the other participants. *)
Lemma juncao_fa_excluir_participante (i : Z) (bd : BD) :
  juncao_fa (excluir_participante i bd) =
  filter (fun fa => negb (f_participante_id (fst fa) =? i)) (juncao_fa bd).
Proof.
  unfold juncao_fa. cbn [excluir_participante frequencia atividades].
  induction (frequencia bd) as [|f l IH]; [reflexivity|].
  cbn [filter flat_map]. rewrite filter_app, <- IH.
  destruct (f_participante_id f =? i) eqn:E; cbn [negb flat_map].
  - rewrite (filter_nenhum _ (map _ _)); [reflexivity|].
    intros [f' a] H. apply in_map_iff in H.
    destruct H as (a' & [= <- <-] & _). cbn. now rewrite E.
  - f_equal. symmetry. apply filter_todos.
    intros [f' a] H. apply in_map_iff in H.
    destruct H as (a' & [= <- <-] & _). cbn. now rewrite E.
Qed.

(** X23.  A cascading delete takes out of the report exactly the
    attendance it deletes: after [excluir_atividade] the counts add up to
    what they added up to before, less the present rows joined with the
    deleted activity; after [excluir_participante], less the present rows of
    the deleted participant whose activity exists. *)
Theorem relatorio_apos_excluir (i : Z) (bd : BD) :
  total_presentes (consulta_presenca (excluir_atividade i bd)) =
    total_presentes (consulta_presenca bd) -
    Z.of_nat (List.length
      (filter (fun fa => a_id (snd fa) =? i) (presentes bd))) /\
  total_presentes (consulta_presenca (excluir_participante i bd)) =
    total_presentes (consulta_presenca bd) -
    Z.of_nat (List.length
      (filter (fun fa => f_participante_id (fst fa) =? i) (presentes bd))).
Proof.
  rewrite !total_presentes_consulta. unfold presentes. split.
  - rewrite juncao_fa_excluir_atividade, filter_filter_comm.
    apply length_filter_negb.
  - rewrite juncao_fa_excluir_participante, filter_filter_comm.
    apply (length_filter_negb
             (fun fa : Frequencia * Atividade =>
                f_participante_id (fst fa) =? i)).
Qed.
